(** * TXFB: the form-schema builder and renderer of [NewEForm.tsx]

    A shallow embedding of the two React components of
    [src/webparts/adminWebPart/components/NewEForm.tsx]:

    - [NewForm], the schema builder.  Its component state is the record
      [NewForm.State]; every event handler ([_addChoice], [_addTableHeader],
      [_removeTableHeader], [_setTableCell], [_addColumn], the guard of the
      "Add Column" button, [_submitForm] up to the call of the list store)
      is a function on it.  A handler reads [this.state] and its updater
      reads [prev] within one event, so both are the same state here.
    - [Eform], the renderer: [parsedConfig], [sortedFields] and
      [renderDynamicField], which returns the element it builds and the
      lines it writes to the console.

    JavaScript strings are [string]s (sequences of code units below 256),
    array indices and lengths are [nat] (no bound on the length of an
    array), and a JavaScript number is an integer or [NaN] ([JS.number]).
    The built-in [Number(s)] is a parameter of the builder: no proof depends
    on how a string is read as a number, and [JS.Number] reads the decimal
    integers for the concrete states.

    The properties: the frame and the growth of [_setTableCell]; what
    [_addColumn] stores for a table, for the options, the internal name and
    the order of a field, and what it resets; the stable sort by [order] of
    the saved document and its round trip through the renderer; the
    ["false"] default of [yesno] cells and the [default] case of
    [renderDynamicField]. *)

From Stdlib Require Import ZArith Lia Ascii String Sorted Permutation.
From stdpp Require Import base tactics option list strings gmap pretty.

Local Open Scope Z_scope.

(** ** JavaScript numbers, strings and arrays *)

Module JS.

(** A [number]: [NaN] and the doubles whose value is an integer, [Num z]
    for the double of value [z].  The fractions and the two infinities have
    no value here: the data model of the schema has whole orders, row
    counts and column counts, and the statements that read
    [Number(tableColumns)] say so where it matters. *)
Inductive number : Type :=
| NaN
| Num (z : Z).

Global Instance number_eq_dec : EqDecision number.
Proof. solve_decision. Defined.

(** [ToBoolean] on a number: [0] and [NaN] are falsy. *)
Definition truthy (n : number) : bool :=
  match n with
  | NaN => false
  | Num z => negb (z =? 0)
  end.

(** [a < b]; any comparison with [NaN] is [false]. *)
Definition lt (a b : number) : bool :=
  match a, b with
  | Num x, Num y => x <? y
  | _, _ => false
  end.

(** [a > b]. *)
Definition gt (a b : number) : bool := lt b a.

(** [a === b] on numbers; [NaN] is equal to nothing. *)
Definition strict_eq (a b : number) : bool :=
  match a, b with
  | Num x, Num y => x =? y
  | _, _ => false
  end.

(** The double nearest to the integer [z], ties to the even significand:
    the integers up to [2^53] in absolute value are doubles, a greater one
    is rounded to 53 significant bits.  (Beyond the finite range a double
    operation gives an infinity, which [number] does not hold: the program
    adds [1], which never leaves the finite range, and reads the sign of a
    difference, which an infinity keeps.) *)
Definition round (z : Z) : Z :=
  let a := Z.abs z in
  if a <? 2 ^ 53 then z
  else
    let e := Z.log2 a - 52 in
    let q := a / 2 ^ e in
    let r := a mod 2 ^ e in
    let half := 2 ^ (e - 1) in
    let q' :=
      if r <? half then q
      else if half <? r then q + 1
      else if Z.even q then q else q + 1 in
    Z.sgn z * (q' * 2 ^ e).

(** [a + b]: the sum of two doubles is the double nearest to their exact
    sum. *)
Definition add (a b : number) : number :=
  match a, b with
  | Num x, Num y => Num (round (x + y))
  | _, _ => NaN
  end.

(** [a - b], rounded as a sum is. *)
Definition sub (a b : number) : number :=
  match a, b with
  | Num x, Num y => Num (round (x - y))
  | _, _ => NaN
  end.

(** [Math.max(a, b)]: [NaN] as soon as one argument is. *)
Definition max2 (a b : number) : number :=
  match a, b with
  | Num x, Num y => Num (Z.max x y)
  | _, _ => NaN
  end.

(** [Math.max(...xs)] for a non-empty argument list [x :: xs]. *)
Definition Math_max (x : number) (xs : list number) : number :=
  fold_left max2 xs x.

(** [ToLength], as [Array.from({ length: n })] applies it: [NaN] and the
    negative numbers give length [0]. *)
Definition ToLength (n : number) : nat :=
  match n with
  | NaN => O
  | Num z => Z.to_nat z
  end.

(** The number of an array length or index. *)
Definition of_nat (n : nat) : number := Num (Z.of_nat n).

(** *** Strings *)

(** The code units below 256 that [\s] and [trim] treat as white space:
    TAB, LF, VT, FF, CR, SP and NBSP. *)
Definition isWhiteSpace (a : ascii) : bool :=
  match nat_of_ascii a with
  | 9%nat | 10%nat | 11%nat | 12%nat | 13%nat | 32%nat | 160%nat => true
  | _ => false
  end.

(** The class [[a-zA-Z0-9]]. *)
Definition isAlphaNum (a : ascii) : bool :=
  let n := nat_of_ascii a in
  ((48 <=? n) && (n <=? 57) || (65 <=? n) && (n <=? 90)
   || (97 <=? n) && (n <=? 122))%nat.

(** [s.replace(re, "")] for a global regular expression [re] that matches
    the non-empty runs ([/\s+/g]) or the single occurrences
    ([/[^a-zA-Z0-9]/g]) of a character class [cls]: every code unit of the
    class is deleted, the others are kept in order. *)
Fixpoint removeAll (cls : ascii -> bool) (s : string) : string :=
  match s with
  | EmptyString => EmptyString
  | String a s' =>
      if cls a then removeAll cls s' else String a (removeAll cls s')
  end.

Fixpoint trimStart (s : string) : string :=
  match s with
  | EmptyString => EmptyString
  | String a s' => if isWhiteSpace a then trimStart s' else s
  end.

(** [s.trim()]. *)
Definition trim (s : string) : string :=
  String.rev (trimStart (String.rev (trimStart s))).

(** [!s] for a string: only the empty string is falsy. *)
Definition isEmpty (s : string) : bool :=
  match s with
  | EmptyString => true
  | String _ _ => false
  end.

(** [s.split(",")]. *)
Fixpoint split_go (cur : string) (s : string) : list string :=
  match s with
  | EmptyString => [String.rev cur]
  | String a s' =>
      if Ascii.eqb a ","%char then String.rev cur :: split_go EmptyString s'
      else split_go (String a cur) s'
  end.

Definition split_comma (s : string) : list string := split_go EmptyString s.

(** [Number(s)] on the strings that a whole-number input yields: the blank
    string is [0] and a decimal integer literal, with an optional sign and
    white space around it, is the double nearest to its value.  The other strings that
    JavaScript reads as numbers (fractions, exponents, radix prefixes,
    [Infinity]) have no value among the integers and are [NaN] here, as the
    strings that are no numbers are.  It instantiates the parameter
    [Number] of the handlers at concrete states. *)
Fixpoint digits (acc : Z) (s : string) : option Z :=
  match s with
  | EmptyString => Some acc
  | String a s' =>
      match Ascii.is_nat a with
      | Some d => digits (10 * acc + Z.of_nat d) s'
      | None => None
      end
  end.

Definition unsigned (s : string) : number :=
  if isEmpty s then NaN
  else match digits 0 s with Some z => Num (round z) | None => NaN end.

Definition Number (s : string) : number :=
  match trim s with
  | EmptyString => Num 0
  | String "-" s' =>
      match unsigned s' with Num z => Num (- z) | NaN => NaN end
  | String "+" s' => unsigned s'
  | s' => unsigned s'
  end.

(** *** Arrays *)

(** [data[i][j]] for a grid: [None] when row [i] or its cell [j] is
    missing. *)
Definition cellAt {A} (data : list (list A)) (i j : nat) : option A :=
  data !! i ≫= (.!! j).

(** [arr.filter((_, i) => i !== index)]. *)
Fixpoint filter_index_go {A} (i index : nat) (arr : list A) : list A :=
  match arr with
  | [] => []
  | x :: arr' =>
      if Nat.eqb i index then filter_index_go (S i) index arr'
      else x :: filter_index_go (S i) index arr'
  end.

Definition filter_index_ne {A} (index : nat) (arr : list A) : list A :=
  filter_index_go O index arr.

(** [while (arr.length <= k) arr.push(x)], run for at most [fuel]
    iterations. *)
Fixpoint push_while {A} (fuel : nat) (k : nat) (x : A) (arr : list A)
  : list A :=
  match fuel with
  | O => arr
  | S fuel' =>
      if (length arr <=? k)%nat then push_while fuel' k x (arr ++ [x])
      else arr
  end.

(** [[...arr].sort(cmp)].  The sort of the language is stable; an element
    moves behind a later one only when the comparator is positive on the
    pair.  For a comparator that is a consistent ordering, such as
    [(a, b) => a.order - b.order] on integers, every stable sort returns
    the list computed here ([stable_sorted_unique] below). *)
Section Sort.
Context {A : Type} (cmp : A -> A -> number).

Fixpoint sort_insert (x : A) (sorted : list A) : list A :=
  match sorted with
  | [] => [x]
  | y :: sorted' =>
      if gt (cmp x y) (Num 0) then y :: sort_insert x sorted'
      else x :: sorted
  end.

Definition sort (arr : list A) : list A := foldr sort_insert [] arr.
End Sort.

(** [a >= b]; any comparison with [NaN] is [false]. *)
Definition ge (a b : number) : bool :=
  match a, b with
  | Num x, Num y => y <=? x
  | _, _ => false
  end.

(** [arr.join(",")]. *)
Fixpoint join_comma (arr : list string) : string :=
  match arr with
  | [] => EmptyString
  | [s] => s
  | s :: arr' => s +:+ "," +:+ join_comma arr'
  end.

(** [arr.includes(s)] for an array of strings. *)
Definition includes (s : string) (arr : list string) : bool :=
  existsb (String.eqb s) arr.

(** [arr.filter(s => s !== o)]. *)
Definition filter_ne (o : string) (arr : list string) : list string :=
  List.filter (fun s => negb (String.eqb s o)) arr.

End JS.

(** ** JSON documents

    [JSON.stringify] and [JSON.parse] are the host's; the text between them
    is not modelled.  A document is the tree that [JSON.parse] returns for
    the text that [JSON.stringify] wrote. *)

Module JSON.

Local Unset Elimination Schemes.

Inductive json : Type :=
| JNull
| JBool (b : bool)
| JNumber (z : Z)
| JString (s : string)
| JArray (elements : list json)
| JObject (members : list (string * json)).

Local Set Elimination Schemes.

(** An object literal under [JSON.stringify]: a property whose value is
    [undefined] ([None]) is left out. *)
Fixpoint defined (props : list (string * option json))
  : list (string * json) :=
  match props with
  | [] => []
  | (k, Some v) :: props' => (k, v) :: defined props'
  | (_, None) :: props' => defined props'
  end.

Definition object (props : list (string * option json)) : json :=
  JObject (defined props).

(** [NaN] is written as [null]. *)
Definition number (n : JS.number) : json :=
  match n with
  | JS.NaN => JNull
  | JS.Num z => JNumber z
  end.

Definition strings (l : list string) : json := JArray (JString <$> l).

Definition grid (rows : list (list string)) : json := JArray (strings <$> rows).

(** [obj[k]] on a parsed document: the last member named [k] of an object,
    [None] ([undefined]) otherwise. *)
Fixpoint lookup_last (k : string) (members : list (string * json))
  : option json :=
  match members with
  | [] => None
  | (k', v) :: members' =>
      match lookup_last k members' with
      | Some v' => Some v'
      | None => if String.eqb k' k then Some v else None
      end
  end.

Definition get (k : string) (j : json) : option json :=
  match j with
  | JObject members => lookup_last k members
  | _ => None
  end.

(** Typed readers: [None] when the value has another type. *)
Definition as_string (j : json) : option string :=
  match j with JString s => Some s | _ => None end.

Definition as_bool (j : json) : option bool :=
  match j with JBool b => Some b | _ => None end.

Definition as_number (j : json) : option JS.number :=
  match j with JNumber z => Some (JS.Num z) | _ => None end.

Definition as_array {A} (f : json -> option A) (j : json) : option (list A) :=
  match j with JArray l => mapM f l | _ => None end.

Definition as_strings : json -> option (list string) := as_array as_string.

Definition as_grid : json -> option (list (list string)) :=
  as_array as_strings.

(** A property that has to be there. *)
Definition field {A} (f : json -> option A) (k : string) (j : json)
  : option A :=
  get k j ≫= f.

(** A property that may be absent. *)
Definition optional {A} (f : json -> option A) (k : string) (j : json)
  : option (option A) :=
  match get k j with
  | None => Some None
  | Some v => Some <$> f v
  end.

End JSON.

(** ** The data model: [ColumnConfig] and the column definitions of a table *)

(** One entry of [tableColumnDefs]: [{ name, type, options? }]. *)
Module ColumnDef.
Record t : Type := mk {
  name : string;
  type : string;
  options : option (list string)
}.

(** The object as [JSON.stringify] writes it. *)
Definition toJSON (d : t) : JSON.json :=
  JSON.object
    [("name", Some (JSON.JString (name d)));
     ("type", Some (JSON.JString (type d)));
     ("options", JSON.strings <$> options d)].

(** The object as the renderer reads it from a parsed document. *)
Definition ofJSON (j : JSON.json) : option t :=
  name ← JSON.field JSON.as_string "name" j;
  type ← JSON.field JSON.as_string "type" j;
  options ← JSON.optional JSON.as_strings "options" j;
  Some (mk name type options).
End ColumnDef.

(** [interface ColumnConfig]: a field of the schema.  An optional property
    that is absent (or [undefined]) is [None]. *)
Module ColumnConfig.
Record t : Type := mk {
  label : string;
  internalName : string;
  type : string;
  required : bool;
  order : JS.number;
  options : option (list string);
  tableName : option string;
  tableRows : option JS.number;
  tableColumns : option JS.number;
  tableHeaders : option (list string);
  tableData : option (list (list string));
  htmlContent : option string;
  tableColumnDefs : option (list ColumnDef.t)
}.

(** The object as [JSON.stringify] writes it: the properties in the order
    in which [_addColumn] assigns them. *)
Definition toJSON (f : t) : JSON.json :=
  JSON.object
    [("label", Some (JSON.JString (label f)));
     ("internalName", Some (JSON.JString (internalName f)));
     ("type", Some (JSON.JString (type f)));
     ("required", Some (JSON.JBool (required f)));
     ("order", Some (JSON.number (order f)));
     ("options", JSON.strings <$> options f);
     ("tableName", JSON.JString <$> tableName f);
     ("tableRows", JSON.number <$> tableRows f);
     ("tableColumns", JSON.number <$> tableColumns f);
     ("tableHeaders", JSON.strings <$> tableHeaders f);
     ("tableColumnDefs",
       (fun defs => JSON.JArray (ColumnDef.toJSON <$> defs))
         <$> tableColumnDefs f);
     ("tableData", JSON.grid <$> tableData f);
     ("htmlContent", JSON.JString <$> htmlContent f)].

(** The object as the renderer reads it from a parsed document; [None] when
    a property has not the type of the persisted record. *)
Definition ofJSON (j : JSON.json) : option t :=
  label ← JSON.field JSON.as_string "label" j;
  internalName ← JSON.field JSON.as_string "internalName" j;
  type ← JSON.field JSON.as_string "type" j;
  required ← JSON.field JSON.as_bool "required" j;
  order ← JSON.field JSON.as_number "order" j;
  options ← JSON.optional JSON.as_strings "options" j;
  tableName ← JSON.optional JSON.as_string "tableName" j;
  tableRows ← JSON.optional JSON.as_number "tableRows" j;
  tableColumns ← JSON.optional JSON.as_number "tableColumns" j;
  tableHeaders ← JSON.optional JSON.as_strings "tableHeaders" j;
  tableData ← JSON.optional JSON.as_grid "tableData" j;
  htmlContent ← JSON.optional JSON.as_string "htmlContent" j;
  tableColumnDefs ←
    JSON.optional (JSON.as_array ColumnDef.ofJSON) "tableColumnDefs" j;
  Some (mk label internalName type required order options tableName
          tableRows tableColumns tableHeaders tableData htmlContent
          tableColumnDefs).
End ColumnConfig.

(** ** [class NewForm]: the schema builder *)

Module NewForm.

(** [interface NewFormState]. *)
Record State : Type := mkState {
  formTitle : string;
  description : string;
  columns : list ColumnConfig.t;
  newColumnName : string;
  newInternalName : string;
  newColumnType : string;
  required : bool;
  order : string;
  options : list string;
  newChoiceValue : string;
  tableName : string;
  tableRows : string;
  tableColumns : string;
  tableHeaders : list string;
  currentHeaderInput : string;
  tableData : list (list string);
  plainHtmlInput : string;
  tableColumnDefs : list ColumnDef.t;
  currentHeaderType : string;
  currentHeaderOptions : list string;
  currentHeaderOptionInput : string;
  isFormInfoOpen : bool;
  isFieldsConfigOpen : bool
}.

(** The state set by the constructor. *)
Definition initialState : State :=
  {| formTitle := ""; description := ""; columns := [];
     newColumnName := ""; newInternalName := ""; newColumnType := "text";
     required := false; order := ""; options := []; newChoiceValue := "";
     tableName := ""; tableRows := ""; tableColumns := "";
     tableHeaders := []; currentHeaderInput := ""; tableData := [];
     plainHtmlInput := ""; tableColumnDefs := [];
     currentHeaderType := "text"; currentHeaderOptions := [];
     currentHeaderOptionInput := "";
     isFormInfoOpen := true; isFieldsConfigOpen := true |}.

(** [["dropdown", "radio", "checkbox"].includes(t)]. *)
Definition isChoiceType (t : string) : bool :=
  String.eqb t "dropdown" || String.eqb t "radio" || String.eqb t "checkbox".

(** [_addChoice]. *)
Definition _addChoice (st : State) : State :=
  if JS.isEmpty (JS.trim (newChoiceValue st)) then st
  else
    {| formTitle := formTitle st; description := description st;
       columns := columns st;
       newColumnName := newColumnName st;
       newInternalName := newInternalName st;
       newColumnType := newColumnType st;
       required := required st; order := order st;
       options := options st ++ [JS.trim (newChoiceValue st)];
       newChoiceValue := "";
       tableName := tableName st; tableRows := tableRows st;
       tableColumns := tableColumns st;
       tableHeaders := tableHeaders st;
       currentHeaderInput := currentHeaderInput st;
       tableData := tableData st;
       plainHtmlInput := plainHtmlInput st;
       tableColumnDefs := tableColumnDefs st;
       currentHeaderType := currentHeaderType st;
       currentHeaderOptions := currentHeaderOptions st;
       currentHeaderOptionInput := currentHeaderOptionInput st;
       isFormInfoOpen := isFormInfoOpen st;
       isFieldsConfigOpen := isFieldsConfigOpen st |}.

(** [_addTableHeader]. *)
Definition _addTableHeader (st : State) : State :=
  if JS.isEmpty (JS.trim (currentHeaderInput st)) then st
  else
    let header := JS.trim (currentHeaderInput st) in
    let type :=
      if JS.isEmpty (currentHeaderType st) then "text"
      else currentHeaderType st in
    let options :=
      if (0 <? length (currentHeaderOptions st))%nat
      then Some (currentHeaderOptions st) else None in
    {| formTitle := formTitle st; description := description st;
       columns := columns st;
       newColumnName := newColumnName st;
       newInternalName := newInternalName st;
       newColumnType := newColumnType st;
       required := required st; order := order st;
       options := NewForm.options st;
       newChoiceValue := newChoiceValue st;
       tableName := tableName st; tableRows := tableRows st;
       tableColumns := tableColumns st;
       tableHeaders := tableHeaders st ++ [header];
       currentHeaderInput := "";
       tableData := tableData st;
       plainHtmlInput := plainHtmlInput st;
       tableColumnDefs :=
         tableColumnDefs st ++ [ColumnDef.mk header type options];
       currentHeaderType := "text";
       currentHeaderOptions := [];
       currentHeaderOptionInput := "";
       isFormInfoOpen := isFormInfoOpen st;
       isFieldsConfigOpen := isFieldsConfigOpen st |}.

(** [_removeTableHeader]. *)
Definition _removeTableHeader (index : nat) (st : State) : State :=
  {| formTitle := formTitle st; description := description st;
     columns := columns st;
     newColumnName := newColumnName st;
     newInternalName := newInternalName st;
     newColumnType := newColumnType st;
     required := required st; order := order st;
     options := options st;
     newChoiceValue := newChoiceValue st;
     tableName := tableName st; tableRows := tableRows st;
     tableColumns := tableColumns st;
     tableHeaders := JS.filter_index_ne index (tableHeaders st);
     currentHeaderInput := currentHeaderInput st;
     tableData := tableData st;
     plainHtmlInput := plainHtmlInput st;
     tableColumnDefs := JS.filter_index_ne index (tableColumnDefs st);
     currentHeaderType := currentHeaderType st;
     currentHeaderOptions := currentHeaderOptions st;
     currentHeaderOptionInput := currentHeaderOptionInput st;
     isFormInfoOpen := isFormInfoOpen st;
     isFieldsConfigOpen := isFieldsConfigOpen st |}.

(** The [onChange] of "Form Title". *)
Definition onChangeFormTitle (v : string) (st : State) : State :=
  {| formTitle := v; description := description st;
     columns := columns st;
     newColumnName := newColumnName st;
     newInternalName := newInternalName st;
     newColumnType := newColumnType st;
     required := required st; order := order st;
     options := options st;
     newChoiceValue := newChoiceValue st;
     tableName := tableName st; tableRows := tableRows st;
     tableColumns := tableColumns st;
     tableHeaders := tableHeaders st;
     currentHeaderInput := currentHeaderInput st;
     tableData := tableData st;
     plainHtmlInput := plainHtmlInput st;
     tableColumnDefs := tableColumnDefs st;
     currentHeaderType := currentHeaderType st;
     currentHeaderOptions := currentHeaderOptions st;
     currentHeaderOptionInput := currentHeaderOptionInput st;
     isFormInfoOpen := isFormInfoOpen st;
     isFieldsConfigOpen := isFieldsConfigOpen st |}.

(** The [onChange] of "Number of Columns" in the [htmltable] panel. *)
Definition onChangeTableColumns (v : string) (st : State) : State :=
  {| formTitle := formTitle st; description := description st;
     columns := columns st;
     newColumnName := newColumnName st;
     newInternalName := newInternalName st;
     newColumnType := newColumnType st;
     required := required st; order := order st;
     options := options st;
     newChoiceValue := newChoiceValue st;
     tableName := tableName st; tableRows := tableRows st;
     tableColumns := v;
     tableHeaders := [];
     currentHeaderInput := "";
     tableData := tableData st;
     plainHtmlInput := plainHtmlInput st;
     tableColumnDefs := [];
     currentHeaderType := "";
     currentHeaderOptions := [];
     currentHeaderOptionInput := "";
     isFormInfoOpen := isFormInfoOpen st;
     isFieldsConfigOpen := isFieldsConfigOpen st |}.

(** [this.setState({ tableData: newData })]. *)
Definition setTableData (newData : list (list string)) (st : State) : State :=
  {| formTitle := formTitle st; description := description st;
     columns := columns st;
     newColumnName := newColumnName st;
     newInternalName := newInternalName st;
     newColumnType := newColumnType st;
     required := required st; order := order st;
     options := options st;
     newChoiceValue := newChoiceValue st;
     tableName := tableName st; tableRows := tableRows st;
     tableColumns := tableColumns st;
     tableHeaders := tableHeaders st;
     currentHeaderInput := currentHeaderInput st;
     tableData := newData;
     plainHtmlInput := plainHtmlInput st;
     tableColumnDefs := tableColumnDefs st;
     currentHeaderType := currentHeaderType st;
     currentHeaderOptions := currentHeaderOptions st;
     currentHeaderOptionInput := currentHeaderOptionInput st;
     isFormInfoOpen := isFormInfoOpen st;
     isFieldsConfigOpen := isFieldsConfigOpen st |}.

(** What a call of [_addColumn] does: it returns at once, it returns after
    an [alert], or it appends [newColumn] and resets the builder inputs. *)
Inductive AddColumnResult : Type :=
| Ignored
| Alert (message : string)
| Added (newColumn : ColumnConfig.t) (next : State).

(** The component state after the call. *)
Definition stateAfter (st : State) (r : AddColumnResult) : State :=
  match r with
  | Added _ next => next
  | _ => st
  end.

Section WithNumber.
(** The built-in [Number(s)]. *)
Variable Number : string -> JS.number.

(** The length of a row that [_setTableCell] creates:
    [Number(prev.tableColumns) || (c + 1)], as an array length. *)
Definition newRowLength (st : State) (c : nat) : nat :=
  JS.ToLength
    (if JS.truthy (Number (tableColumns st)) then Number (tableColumns st)
     else JS.of_nat (c + 1)).

(** The array that the updater of [_setTableCell] builds.  [None] is the
    [TypeError] of reading [newData[r].length] when row [r] is missing. *)
Definition setTableCellData (st : State) (r c : nat) (value : string)
  : option (list (list string)) :=
  let newData := tableData st in
  let newData :=
    JS.push_while (S r) r (replicate (newRowLength st c) "") newData in
  match newData !! r with
  | None => None
  | Some row =>
      let row := JS.push_while (S c) c "" row in
      Some (<[r := <[c := value]> row]> newData)
  end.

(** [_setTableCell]. *)
Definition _setTableCell (r c : nat) (value : string) (st : State)
  : option State :=
  newData ← setTableCellData st r c value;
  Some (setTableData newData st).

(** The validation of [_addColumn] for [htmltable]: the message of the
    first failed check. *)
Definition tableAlert (st : State) : option string :=
  if String.eqb (newColumnType st) "htmltable" then
    if JS.isEmpty (JS.trim (tableName st)) then
      Some "Table name is required for HTML Table fields."
    else if JS.isEmpty (tableRows st)
            || JS.lt (Number (tableRows st)) (JS.Num 1) then
      Some "Number of rows must be at least 1."
    else if JS.isEmpty (tableColumns st)
            || JS.lt (Number (tableColumns st)) (JS.Num 1) then
      Some "Number of columns must be at least 1."
    else if negb (JS.strict_eq (JS.of_nat (length (tableHeaders st)))
                               (Number (tableColumns st))) then
      Some ("Please provide exactly " +:+ tableColumns st
            +:+ " column header(s).")
    else None
  else None.

(** [generatedInternalName]. *)
Definition generatedInternalName (st : State) : string :=
  if JS.isEmpty (newInternalName st) then
    JS.removeAll (fun a => negb (JS.isAlphaNum a))
      (JS.removeAll JS.isWhiteSpace (newColumnName st))
  else newInternalName st.

(** [orderNumber]. *)
Definition orderNumber (st : State) : JS.number :=
  if negb (JS.isEmpty (order st)) then Number (order st)
  else
    let maxOrder :=
      match map ColumnConfig.order (columns st) with
      | [] => JS.Num 0
      | o :: os => JS.Math_max o os
      end in
    JS.add maxOrder (JS.Num 1).

(** [newColumn.options = [...this.state.options]]. *)
Definition attachOptions (st : State) (col : ColumnConfig.t)
  : ColumnConfig.t :=
  {| ColumnConfig.label := ColumnConfig.label col;
     ColumnConfig.internalName := ColumnConfig.internalName col;
     ColumnConfig.type := ColumnConfig.type col;
     ColumnConfig.required := ColumnConfig.required col;
     ColumnConfig.order := ColumnConfig.order col;
     ColumnConfig.options := Some (options st);
     ColumnConfig.tableName := ColumnConfig.tableName col;
     ColumnConfig.tableRows := ColumnConfig.tableRows col;
     ColumnConfig.tableColumns := ColumnConfig.tableColumns col;
     ColumnConfig.tableHeaders := ColumnConfig.tableHeaders col;
     ColumnConfig.tableData := ColumnConfig.tableData col;
     ColumnConfig.htmlContent := ColumnConfig.htmlContent col;
     ColumnConfig.tableColumnDefs := ColumnConfig.tableColumnDefs col |}.

(** The six table properties, as both table branches assign them; the
    branches differ in [headers] only. *)
Definition attachTable (st : State) (headers : list string)
    (col : ColumnConfig.t) : ColumnConfig.t :=
  {| ColumnConfig.label := ColumnConfig.label col;
     ColumnConfig.internalName := ColumnConfig.internalName col;
     ColumnConfig.type := ColumnConfig.type col;
     ColumnConfig.required := ColumnConfig.required col;
     ColumnConfig.order := ColumnConfig.order col;
     ColumnConfig.options := ColumnConfig.options col;
     ColumnConfig.tableName := Some (tableName st);
     ColumnConfig.tableRows := Some (Number (tableRows st));
     ColumnConfig.tableColumns := Some (Number (tableColumns st));
     ColumnConfig.tableHeaders := Some headers;
     ColumnConfig.tableData := Some (tableData st);
     ColumnConfig.htmlContent := ColumnConfig.htmlContent col;
     ColumnConfig.tableColumnDefs := Some (tableColumnDefs st) |}.

(** [newColumn.htmlContent = this.state.plainHtmlInput]. *)
Definition attachHtml (st : State) (col : ColumnConfig.t)
  : ColumnConfig.t :=
  {| ColumnConfig.label := ColumnConfig.label col;
     ColumnConfig.internalName := ColumnConfig.internalName col;
     ColumnConfig.type := ColumnConfig.type col;
     ColumnConfig.required := ColumnConfig.required col;
     ColumnConfig.order := ColumnConfig.order col;
     ColumnConfig.options := ColumnConfig.options col;
     ColumnConfig.tableName := ColumnConfig.tableName col;
     ColumnConfig.tableRows := ColumnConfig.tableRows col;
     ColumnConfig.tableColumns := ColumnConfig.tableColumns col;
     ColumnConfig.tableHeaders := ColumnConfig.tableHeaders col;
     ColumnConfig.tableData := ColumnConfig.tableData col;
     ColumnConfig.htmlContent := Some (plainHtmlInput st);
     ColumnConfig.tableColumnDefs := ColumnConfig.tableColumnDefs col |}.

(** [if (b) { f }] on the column under construction. *)
Definition when (b : bool) (f : ColumnConfig.t -> ColumnConfig.t)
    (col : ColumnConfig.t) : ColumnConfig.t :=
  if b then f col else col.

(** The [newColumn] of [_addColumn], after its four conditional
    attachments. *)
Definition newColumn (st : State) : ColumnConfig.t :=
  let col :=
    {| ColumnConfig.label := newColumnName st;
       ColumnConfig.internalName := generatedInternalName st;
       ColumnConfig.type := newColumnType st;
       ColumnConfig.required := required st;
       ColumnConfig.order := orderNumber st;
       ColumnConfig.options := None;
       ColumnConfig.tableName := None;
       ColumnConfig.tableRows := None;
       ColumnConfig.tableColumns := None;
       ColumnConfig.tableHeaders := None;
       ColumnConfig.tableData := None;
       ColumnConfig.htmlContent := None;
       ColumnConfig.tableColumnDefs := None |} in
  let col := when (isChoiceType (newColumnType st)) (attachOptions st) col in
  let col :=
    when (String.eqb (newColumnType st) "htmltable")
      (attachTable st (map ColumnDef.name (tableColumnDefs st))) col in
  let col :=
    when (String.eqb (newColumnType st) "htmlrender")
      (attachTable st (tableHeaders st)) col in
  when (String.eqb (newColumnType st) "plainhtml") (attachHtml st) col.

(** The final [setState] of [_addColumn]: the twelve properties it
    names; the others keep their value. *)
Definition resetAfterAdd (col : ColumnConfig.t) (prev : State) : State :=
  {| formTitle := formTitle prev; description := description prev;
     columns := columns prev ++ [col];
     newColumnName := "";
     newInternalName := "";
     newColumnType := newColumnType prev;
     required := required prev;
     order := "";
     options := [];
     newChoiceValue := newChoiceValue prev;
     tableName := ""; tableRows := ""; tableColumns := "";
     tableHeaders := [];
     currentHeaderInput := "";
     tableData := [];
     plainHtmlInput := "";
     tableColumnDefs := tableColumnDefs prev;
     currentHeaderType := currentHeaderType prev;
     currentHeaderOptions := currentHeaderOptions prev;
     currentHeaderOptionInput := currentHeaderOptionInput prev;
     isFormInfoOpen := isFormInfoOpen prev;
     isFieldsConfigOpen := isFieldsConfigOpen prev |}.

(** [_addColumn]. *)
Definition _addColumn (st : State) : AddColumnResult :=
  if JS.isEmpty (JS.trim (newColumnName st)) then Ignored
  else
    match tableAlert st with
    | Some message => Alert message
    | None => Added (newColumn st) (resetAfterAdd (newColumn st) st)
    end.

(** The [disabled] property of the "Add Column" button. *)
Definition addColumnDisabled (st : State) : bool :=
  JS.isEmpty (newColumnName st)
  || (isChoiceType (newColumnType st)
      && (length (options st) =? 0)%nat)
  || (String.eqb (newColumnType st) "htmltable"
      && (JS.isEmpty (tableName st)
          || JS.isEmpty (tableRows st)
          || JS.isEmpty (tableColumns st)
          || negb (JS.strict_eq (JS.of_nat (length (tableHeaders st)))
                                (Number (tableColumns st))))).

(** A click on the "Add Column" button: a disabled button does not call
    its [onClick]. *)
Definition addField (st : State) : AddColumnResult :=
  if addColumnDisabled st then Ignored else _addColumn st.

(** [sortedColumns] of [_submitForm] (and of the preview). *)
Definition sortedColumns (st : State) : list ColumnConfig.t :=
  JS.sort
    (fun a b => JS.sub (ColumnConfig.order a) (ColumnConfig.order b))
    (columns st).

(** [finalJson] of [_submitForm], as [JSON.stringify] writes it. *)
Definition finalJson (st : State) : JSON.json :=
  JSON.object
    [("formTitle", Some (JSON.JString (formTitle st)));
     ("description", Some (JSON.JString (description st)));
     ("fields", Some (JSON.JArray (ColumnConfig.toJSON <$> sortedColumns st)))].

(** What [_submitForm] does up to the call of the list store: an [alert], or
    [items.add] with the item it passes. *)
Inductive SubmitResult : Type :=
| SubmitAlert (message : string)
| ItemsAdd (Title : string) (ConfigurationJSON : JSON.json) (Status : string).

(** [_submitForm], up to [items.add]. *)
Definition _submitForm (st : State) : SubmitResult :=
  if JS.isEmpty (JS.trim (formTitle st)) then
    SubmitAlert "Form Title is required."
  else if (length (columns st) =? 0)%nat then
    SubmitAlert "Please add at least one field."
  else ItemsAdd (formTitle st) (finalJson st) "Active".

End WithNumber.

(** *** The other handlers of the component

    [set_x v st] is [st] after [this.setState({ x: v })]. *)

Definition set_formTitle (v : string) (st : State) : State :=
  mkState v (description st) (columns st) (newColumnName st)
    (newInternalName st) (newColumnType st) (required st) (order st)
    (options st) (newChoiceValue st) (tableName st) (tableRows st)
    (tableColumns st) (tableHeaders st) (currentHeaderInput st) (tableData
    st) (plainHtmlInput st) (tableColumnDefs st) (currentHeaderType st)
    (currentHeaderOptions st) (currentHeaderOptionInput st) (isFormInfoOpen
    st) (isFieldsConfigOpen st).

Definition set_description (v : string) (st : State) : State :=
  mkState (formTitle st) v (columns st) (newColumnName st) (newInternalName
    st) (newColumnType st) (required st) (order st) (options st)
    (newChoiceValue st) (tableName st) (tableRows st) (tableColumns st)
    (tableHeaders st) (currentHeaderInput st) (tableData st) (plainHtmlInput
    st) (tableColumnDefs st) (currentHeaderType st) (currentHeaderOptions
    st) (currentHeaderOptionInput st) (isFormInfoOpen st)
    (isFieldsConfigOpen st).

Definition set_columns (v : list ColumnConfig.t) (st : State) : State :=
  mkState (formTitle st) (description st) v (newColumnName st)
    (newInternalName st) (newColumnType st) (required st) (order st)
    (options st) (newChoiceValue st) (tableName st) (tableRows st)
    (tableColumns st) (tableHeaders st) (currentHeaderInput st) (tableData
    st) (plainHtmlInput st) (tableColumnDefs st) (currentHeaderType st)
    (currentHeaderOptions st) (currentHeaderOptionInput st) (isFormInfoOpen
    st) (isFieldsConfigOpen st).

Definition set_newColumnName (v : string) (st : State) : State :=
  mkState (formTitle st) (description st) (columns st) v (newInternalName
    st) (newColumnType st) (required st) (order st) (options st)
    (newChoiceValue st) (tableName st) (tableRows st) (tableColumns st)
    (tableHeaders st) (currentHeaderInput st) (tableData st) (plainHtmlInput
    st) (tableColumnDefs st) (currentHeaderType st) (currentHeaderOptions
    st) (currentHeaderOptionInput st) (isFormInfoOpen st)
    (isFieldsConfigOpen st).

Definition set_newInternalName (v : string) (st : State) : State :=
  mkState (formTitle st) (description st) (columns st) (newColumnName st) v
    (newColumnType st) (required st) (order st) (options st) (newChoiceValue
    st) (tableName st) (tableRows st) (tableColumns st) (tableHeaders st)
    (currentHeaderInput st) (tableData st) (plainHtmlInput st)
    (tableColumnDefs st) (currentHeaderType st) (currentHeaderOptions st)
    (currentHeaderOptionInput st) (isFormInfoOpen st) (isFieldsConfigOpen
    st).

Definition set_newColumnType (v : string) (st : State) : State :=
  mkState (formTitle st) (description st) (columns st) (newColumnName st)
    (newInternalName st) v (required st) (order st) (options st)
    (newChoiceValue st) (tableName st) (tableRows st) (tableColumns st)
    (tableHeaders st) (currentHeaderInput st) (tableData st) (plainHtmlInput
    st) (tableColumnDefs st) (currentHeaderType st) (currentHeaderOptions
    st) (currentHeaderOptionInput st) (isFormInfoOpen st)
    (isFieldsConfigOpen st).

Definition set_required (v : bool) (st : State) : State :=
  mkState (formTitle st) (description st) (columns st) (newColumnName st)
    (newInternalName st) (newColumnType st) v (order st) (options st)
    (newChoiceValue st) (tableName st) (tableRows st) (tableColumns st)
    (tableHeaders st) (currentHeaderInput st) (tableData st) (plainHtmlInput
    st) (tableColumnDefs st) (currentHeaderType st) (currentHeaderOptions
    st) (currentHeaderOptionInput st) (isFormInfoOpen st)
    (isFieldsConfigOpen st).

Definition set_order (v : string) (st : State) : State :=
  mkState (formTitle st) (description st) (columns st) (newColumnName st)
    (newInternalName st) (newColumnType st) (required st) v (options st)
    (newChoiceValue st) (tableName st) (tableRows st) (tableColumns st)
    (tableHeaders st) (currentHeaderInput st) (tableData st) (plainHtmlInput
    st) (tableColumnDefs st) (currentHeaderType st) (currentHeaderOptions
    st) (currentHeaderOptionInput st) (isFormInfoOpen st)
    (isFieldsConfigOpen st).

Definition set_options (v : list string) (st : State) : State :=
  mkState (formTitle st) (description st) (columns st) (newColumnName st)
    (newInternalName st) (newColumnType st) (required st) (order st) v
    (newChoiceValue st) (tableName st) (tableRows st) (tableColumns st)
    (tableHeaders st) (currentHeaderInput st) (tableData st) (plainHtmlInput
    st) (tableColumnDefs st) (currentHeaderType st) (currentHeaderOptions
    st) (currentHeaderOptionInput st) (isFormInfoOpen st)
    (isFieldsConfigOpen st).

Definition set_newChoiceValue (v : string) (st : State) : State :=
  mkState (formTitle st) (description st) (columns st) (newColumnName st)
    (newInternalName st) (newColumnType st) (required st) (order st)
    (options st) v (tableName st) (tableRows st) (tableColumns st)
    (tableHeaders st) (currentHeaderInput st) (tableData st) (plainHtmlInput
    st) (tableColumnDefs st) (currentHeaderType st) (currentHeaderOptions
    st) (currentHeaderOptionInput st) (isFormInfoOpen st)
    (isFieldsConfigOpen st).

Definition set_tableName (v : string) (st : State) : State :=
  mkState (formTitle st) (description st) (columns st) (newColumnName st)
    (newInternalName st) (newColumnType st) (required st) (order st)
    (options st) (newChoiceValue st) v (tableRows st) (tableColumns st)
    (tableHeaders st) (currentHeaderInput st) (tableData st) (plainHtmlInput
    st) (tableColumnDefs st) (currentHeaderType st) (currentHeaderOptions
    st) (currentHeaderOptionInput st) (isFormInfoOpen st)
    (isFieldsConfigOpen st).

Definition set_tableRows (v : string) (st : State) : State :=
  mkState (formTitle st) (description st) (columns st) (newColumnName st)
    (newInternalName st) (newColumnType st) (required st) (order st)
    (options st) (newChoiceValue st) (tableName st) v (tableColumns st)
    (tableHeaders st) (currentHeaderInput st) (tableData st) (plainHtmlInput
    st) (tableColumnDefs st) (currentHeaderType st) (currentHeaderOptions
    st) (currentHeaderOptionInput st) (isFormInfoOpen st)
    (isFieldsConfigOpen st).

Definition set_tableColumns (v : string) (st : State) : State :=
  mkState (formTitle st) (description st) (columns st) (newColumnName st)
    (newInternalName st) (newColumnType st) (required st) (order st)
    (options st) (newChoiceValue st) (tableName st) (tableRows st) v
    (tableHeaders st) (currentHeaderInput st) (tableData st) (plainHtmlInput
    st) (tableColumnDefs st) (currentHeaderType st) (currentHeaderOptions
    st) (currentHeaderOptionInput st) (isFormInfoOpen st)
    (isFieldsConfigOpen st).

Definition set_tableHeaders (v : list string) (st : State) : State :=
  mkState (formTitle st) (description st) (columns st) (newColumnName st)
    (newInternalName st) (newColumnType st) (required st) (order st)
    (options st) (newChoiceValue st) (tableName st) (tableRows st)
    (tableColumns st) v (currentHeaderInput st) (tableData st)
    (plainHtmlInput st) (tableColumnDefs st) (currentHeaderType st)
    (currentHeaderOptions st) (currentHeaderOptionInput st) (isFormInfoOpen
    st) (isFieldsConfigOpen st).

Definition set_currentHeaderInput (v : string) (st : State) : State :=
  mkState (formTitle st) (description st) (columns st) (newColumnName st)
    (newInternalName st) (newColumnType st) (required st) (order st)
    (options st) (newChoiceValue st) (tableName st) (tableRows st)
    (tableColumns st) (tableHeaders st) v (tableData st) (plainHtmlInput st)
    (tableColumnDefs st) (currentHeaderType st) (currentHeaderOptions st)
    (currentHeaderOptionInput st) (isFormInfoOpen st) (isFieldsConfigOpen
    st).

Definition set_tableData (v : list (list string)) (st : State) : State :=
  mkState (formTitle st) (description st) (columns st) (newColumnName st)
    (newInternalName st) (newColumnType st) (required st) (order st)
    (options st) (newChoiceValue st) (tableName st) (tableRows st)
    (tableColumns st) (tableHeaders st) (currentHeaderInput st) v
    (plainHtmlInput st) (tableColumnDefs st) (currentHeaderType st)
    (currentHeaderOptions st) (currentHeaderOptionInput st) (isFormInfoOpen
    st) (isFieldsConfigOpen st).

Definition set_plainHtmlInput (v : string) (st : State) : State :=
  mkState (formTitle st) (description st) (columns st) (newColumnName st)
    (newInternalName st) (newColumnType st) (required st) (order st)
    (options st) (newChoiceValue st) (tableName st) (tableRows st)
    (tableColumns st) (tableHeaders st) (currentHeaderInput st) (tableData
    st) v (tableColumnDefs st) (currentHeaderType st) (currentHeaderOptions
    st) (currentHeaderOptionInput st) (isFormInfoOpen st)
    (isFieldsConfigOpen st).

Definition set_tableColumnDefs (v : list ColumnDef.t) (st : State) : State :=
  mkState (formTitle st) (description st) (columns st) (newColumnName st)
    (newInternalName st) (newColumnType st) (required st) (order st)
    (options st) (newChoiceValue st) (tableName st) (tableRows st)
    (tableColumns st) (tableHeaders st) (currentHeaderInput st) (tableData
    st) (plainHtmlInput st) v (currentHeaderType st) (currentHeaderOptions
    st) (currentHeaderOptionInput st) (isFormInfoOpen st)
    (isFieldsConfigOpen st).

Definition set_currentHeaderType (v : string) (st : State) : State :=
  mkState (formTitle st) (description st) (columns st) (newColumnName st)
    (newInternalName st) (newColumnType st) (required st) (order st)
    (options st) (newChoiceValue st) (tableName st) (tableRows st)
    (tableColumns st) (tableHeaders st) (currentHeaderInput st) (tableData
    st) (plainHtmlInput st) (tableColumnDefs st) v (currentHeaderOptions st)
    (currentHeaderOptionInput st) (isFormInfoOpen st) (isFieldsConfigOpen
    st).

Definition set_currentHeaderOptions (v : list string) (st : State) : State :=
  mkState (formTitle st) (description st) (columns st) (newColumnName st)
    (newInternalName st) (newColumnType st) (required st) (order st)
    (options st) (newChoiceValue st) (tableName st) (tableRows st)
    (tableColumns st) (tableHeaders st) (currentHeaderInput st) (tableData
    st) (plainHtmlInput st) (tableColumnDefs st) (currentHeaderType st) v
    (currentHeaderOptionInput st) (isFormInfoOpen st) (isFieldsConfigOpen
    st).

Definition set_currentHeaderOptionInput (v : string) (st : State) : State :=
  mkState (formTitle st) (description st) (columns st) (newColumnName st)
    (newInternalName st) (newColumnType st) (required st) (order st)
    (options st) (newChoiceValue st) (tableName st) (tableRows st)
    (tableColumns st) (tableHeaders st) (currentHeaderInput st) (tableData
    st) (plainHtmlInput st) (tableColumnDefs st) (currentHeaderType st)
    (currentHeaderOptions st) v (isFormInfoOpen st) (isFieldsConfigOpen st).

Definition set_isFormInfoOpen (v : bool) (st : State) : State :=
  mkState (formTitle st) (description st) (columns st) (newColumnName st)
    (newInternalName st) (newColumnType st) (required st) (order st)
    (options st) (newChoiceValue st) (tableName st) (tableRows st)
    (tableColumns st) (tableHeaders st) (currentHeaderInput st) (tableData
    st) (plainHtmlInput st) (tableColumnDefs st) (currentHeaderType st)
    (currentHeaderOptions st) (currentHeaderOptionInput st) v
    (isFieldsConfigOpen st).

Definition set_isFieldsConfigOpen (v : bool) (st : State) : State :=
  mkState (formTitle st) (description st) (columns st) (newColumnName st)
    (newInternalName st) (newColumnType st) (required st) (order st)
    (options st) (newChoiceValue st) (tableName st) (tableRows st)
    (tableColumns st) (tableHeaders st) (currentHeaderInput st) (tableData
    st) (plainHtmlInput st) (tableColumnDefs st) (currentHeaderType st)
    (currentHeaderOptions st) (currentHeaderOptionInput st) (isFormInfoOpen
    st) v.

(** [_addHeaderOption]. *)
Definition _addHeaderOption (st : State) : State :=
  if JS.isEmpty (JS.trim (currentHeaderOptionInput st)) then st
  else
    set_currentHeaderOptions
      (currentHeaderOptions st ++ [JS.trim (currentHeaderOptionInput st)])
      (set_currentHeaderOptionInput "" st).

(** [_removeHeaderOption]. *)
Definition _removeHeaderOption (index : nat) (st : State) : State :=
  set_currentHeaderOptions
    (JS.filter_index_ne index (currentHeaderOptions st)) st.

(** The [onChange] of "Type of information in this column". *)
Definition onChangeColumnType (key : string) (st : State) : State :=
  set_newColumnType key (set_options [] (set_newChoiceValue "" st)).

(** The [onChange] of the type of the header being entered. *)
Definition onChangeHeaderType (key : string) (st : State) : State :=
  set_currentHeaderType key
    (set_currentHeaderOptions [] (set_currentHeaderOptionInput "" st)).

(** The reset of [_submitForm] once [items.add] has resolved. *)
Definition resetAfterSubmit (st : State) : State :=
  set_formTitle ""
    (set_description ""
       (set_columns []
          (set_newColumnName ""
             (set_newInternalName ""
                (set_newColumnType "text"
                   (set_required false
                      (set_order ""
                         (set_options []
                            (set_newChoiceValue ""
                               (set_tableName ""
                                  (set_tableRows ""
                                     (set_tableColumns ""
                                        (set_tableHeaders []
                                           (set_currentHeaderInput ""
                                              st)))))))))))))).

(** The keys of [columnTypes], the options of the type dropdown. *)
Definition columnTypes : list string :=
  ["text"; "multiline"; "number"; "currency"; "date"; "dropdown"; "radio";
   "checkbox"; "yesno"; "person"; "htmltable"; "htmlrender"; "plainhtml"].

(** The keys of the options of the header type dropdown. *)
Definition headerTypes : list string :=
  ["text"; "multiline"; "number"; "currency"; "date"; "dropdown"; "radio";
   "checkbox"; "yesno"].

(** The column definition of cell column [c] in the cell grid of the
    builder: [tableColumnDefs[c] || { name: `Col ${c + 1}`, type: 'text' }]. *)
Definition gridColDef (st : State) (c : nat) : ColumnDef.t :=
  default (ColumnDef.mk ("Col " +:+ pretty (c + 1)%nat) "text" None)
    (tableColumnDefs st !! c).

(** [val] of a cell of that grid:
    [(tableData[r] && tableData[r][c]) || ""], and ["false"] for an empty
    [yesno] cell. *)
Definition gridVal (st : State) (r c : nat) : string :=
  let val :=
    match tableData st !! r with
    | Some row =>
        match row !! c with
        | Some v => v
        | None => ""
        end
    | None => ""
    end in
  if String.eqb (ColumnDef.type (gridColDef st c)) "yesno" && JS.isEmpty val
  then "false" else val.

(** [selections] of a checkbox cell: [val ? val.split(',') : []]. *)
Definition selections (val : string) : list string :=
  if JS.isEmpty val then [] else JS.split_comma val.

(** The value that the [onChange] of the checkbox of option [o] stores:
    [(checked ? [...selections, o] : selections.filter(s => s !== o))
     .join(',')]. *)
Definition toggleSelection (val o : string) (checked : bool) : string :=
  JS.join_comma
    (if checked then selections val ++ [o]
     else JS.filter_ne o (selections val)).

Section UI.
(** The built-in [Number(s)]. *)
Variable Number : string -> JS.number.

(** The [onChange] of "Number of Columns" in the [htmlrender] panel. *)
Definition onChangeRenderColumns (v : string) (prev : State) : State :=
  let cols := if JS.isEmpty v then JS.Num 0 else Number v in
  set_tableColumns v
    (set_tableHeaders []
       (set_currentHeaderInput ""
          (set_currentHeaderType ""
             (set_currentHeaderOptions []
                (set_currentHeaderOptionInput ""
                   (set_tableColumnDefs []
                      (set_tableData
                         (if JS.gt cols (JS.Num 0)
                             && negb (JS.isEmpty (tableRows prev))
                          then replicate
                                 (JS.ToLength (Number (tableRows prev)))
                                 (replicate (JS.ToLength cols) "")
                          else [])
                         prev))))))).

(** The panel of a table type is shown. *)
Definition tablePanel (st : State) : bool :=
  String.eqb (newColumnType st) "htmlrender"
  || String.eqb (newColumnType st) "htmltable".

(** [tableColumns && Number(tableColumns) > 0]: the header inputs are
    shown. *)
Definition headerPanel (st : State) : bool :=
  negb (JS.isEmpty (tableColumns st))
  && JS.gt (Number (tableColumns st)) (JS.Num 0).

(** The [disabled] property of the "Add Header" button. *)
Definition addHeaderDisabled (st : State) : bool :=
  JS.ge (JS.of_nat (length (tableColumnDefs st))) (Number (tableColumns st))
  || (isChoiceType (currentHeaderType st)
      && (length (currentHeaderOptions st) =? 0)%nat).

(** The cell grid of the [htmlrender] panel is shown. *)
Definition cellGrid (st : State) : bool :=
  (0 <? length (tableColumnDefs st))%nat
  && negb (JS.isEmpty (tableColumns st))
  && negb (JS.isEmpty (tableRows st))
  && JS.gt (Number (tableColumns st)) (JS.Num 0)
  && JS.gt (Number (tableRows st)) (JS.Num 0).

(** The [onChange] of the checkbox of option [o] in a [checkbox] cell of
    the cell grid: [_setTableCell(r, c, newSel.join(','))]. *)
Definition onToggleCell (r c : nat) (o : string) (checked : bool)
    (st : State) : option State :=
  _setTableCell Number r c (toggleSelection (gridVal st r c) o checked) st.

(** What the user, or the list store, can do to the component. *)
Inductive Event : Type :=
| ToggleFormInfo
| ToggleFieldsConfig
| ChangeFormTitle (v : string)
| ChangeDescription (v : string)
| ChangeColumnName (v : string)
| ChangeInternalName (v : string)
| ChangeColumnType (key : string)
| ChangeChoiceValue (v : string)
| ClickAddChoice
| ChangePlainHtml (v : string)
| ChangeTableName (v : string)
| ChangeTableRows (v : string)
| ChangeTableColumns (v : string)
| ChangeHeaderInput (v : string)
| ChangeHeaderType (key : string)
| ChangeHeaderOptionInput (v : string)
| ClickAddHeaderOption
| ClickRemoveHeaderOption (idx : nat)
| ClickAddHeader
| ClickRemoveHeader (i : nat)
| ChangeCell (r c : nat) (value : string)
| ChangeOrder (v : string)
| ChangeRequired (checked : bool)
| ClickAddColumn
| ClickSubmit
| SaveResolved
| SaveRejected.

(** The component with the number of [items.add] calls that the list store
    has not answered yet. *)
Record Session : Type := mkSession {
  state : State;
  pending : nat
}.

(** The control of the event is rendered and not disabled (for the two
    answers of the list store: a call is pending). *)
Definition enabled (ev : Event) (s : Session) : bool :=
  let st := state s in
  let inTablePanel := isFieldsConfigOpen st && tablePanel st in
  let inHeaderPanel := inTablePanel && headerPanel st in
  let inOptionPanel := inHeaderPanel && isChoiceType (currentHeaderType st) in
  match ev with
  | ToggleFormInfo | ToggleFieldsConfig => true
  | ChangeFormTitle _ | ChangeDescription _ => isFormInfoOpen st
  | ChangeColumnName _ | ChangeInternalName _ | ChangeOrder _
  | ChangeRequired _ | ClickAddColumn | ClickSubmit => isFieldsConfigOpen st
  | ChangeColumnType key =>
      isFieldsConfigOpen st && JS.includes key columnTypes
  | ChangeChoiceValue _ | ClickAddChoice =>
      isFieldsConfigOpen st && isChoiceType (newColumnType st)
  | ChangePlainHtml _ =>
      isFieldsConfigOpen st && String.eqb (newColumnType st) "plainhtml"
  | ChangeTableName _ | ChangeTableRows _ | ChangeTableColumns _ =>
      inTablePanel
  | ChangeHeaderInput _ => inHeaderPanel
  | ChangeHeaderType key => inHeaderPanel && JS.includes key headerTypes
  | ChangeHeaderOptionInput _ | ClickAddHeaderOption => inOptionPanel
  | ClickRemoveHeaderOption idx =>
      inOptionPanel && (idx <? length (currentHeaderOptions st))%nat
  | ClickAddHeader => inHeaderPanel && negb (addHeaderDisabled st)
  | ClickRemoveHeader i =>
      inHeaderPanel && (i <? length (tableColumnDefs st))%nat
  | ChangeCell r c _ =>
      isFieldsConfigOpen st
      && String.eqb (newColumnType st) "htmlrender"
      && cellGrid st
      && (r <? JS.ToLength (Number (tableRows st)))%nat
      && (c <? JS.ToLength (Number (tableColumns st)))%nat
  | SaveResolved | SaveRejected => (0 <? pending s)%nat
  end.

(** The handler of the event. *)
Definition handle (ev : Event) (s : Session) : Session :=
  let st := state s in
  let next st' := mkSession st' (pending s) in
  match ev with
  | ToggleFormInfo => next (set_isFormInfoOpen (negb (isFormInfoOpen st)) st)
  | ToggleFieldsConfig =>
      next (set_isFieldsConfigOpen (negb (isFieldsConfigOpen st)) st)
  | ChangeFormTitle v => next (set_formTitle v st)
  | ChangeDescription v => next (set_description v st)
  | ChangeColumnName v => next (set_newColumnName v st)
  | ChangeInternalName v => next (set_newInternalName v st)
  | ChangeColumnType key => next (onChangeColumnType key st)
  | ChangeChoiceValue v => next (set_newChoiceValue v st)
  | ClickAddChoice => next (_addChoice st)
  | ChangePlainHtml v => next (set_plainHtmlInput v st)
  | ChangeTableName v => next (set_tableName v st)
  | ChangeTableRows v => next (set_tableRows v st)
  | ChangeTableColumns v =>
      next (if String.eqb (newColumnType st) "htmlrender"
            then onChangeRenderColumns v st
            else onChangeTableColumns v st)
  | ChangeHeaderInput v => next (set_currentHeaderInput v st)
  | ChangeHeaderType key => next (onChangeHeaderType key st)
  | ChangeHeaderOptionInput v => next (set_currentHeaderOptionInput v st)
  | ClickAddHeaderOption => next (_addHeaderOption st)
  | ClickRemoveHeaderOption idx => next (_removeHeaderOption idx st)
  | ClickAddHeader => next (_addTableHeader st)
  | ClickRemoveHeader i => next (_removeTableHeader i st)
  | ChangeCell r c value =>
      next (default st (_setTableCell Number r c value st))
  | ChangeOrder v => next (set_order v st)
  | ChangeRequired checked => next (set_required checked st)
  | ClickAddColumn => next (stateAfter st (addField Number st))
  | ClickSubmit =>
      match _submitForm st with
      | SubmitAlert _ => s
      | ItemsAdd _ _ _ => mkSession st (S (pending s))
      end
  | SaveResolved => mkSession (resetAfterSubmit st) (pending s - 1)
  | SaveRejected => mkSession st (pending s - 1)
  end.

(** One event: nothing happens when its control is not there. *)
Definition fire (s : Session) (ev : Event) : Session :=
  if enabled ev s then handle ev s else s.

(** A sequence of events on the component as the constructor leaves it. *)
Definition run (evs : list Event) : Session :=
  foldl fire (mkSession initialState 0) evs.

End UI.

End NewForm.

(** ** [class Eform]: the renderer *)

Module Eform.

(** A list item of [ConfigList], as far as the component reads it: the
    parsed [ConfigurationJSON], [None] when the item has none. *)
Record ListItem : Type := mkItem {
  ConfigurationJSON : option JSON.json
}.

(** [interface AdminFormState]. *)
Record State : Type := mkState {
  formData : gmap string string;
  config : option ListItem;
  tableConfig : gmap string (nat * nat)
}.

(** The input that [renderCell] returns for one cell of an [htmltable]. *)
Inductive CellInput : Type :=
| NumberInput (name value : string)
| DateInput (name value : string)
| SelectInput (name value : string) (options : list string)
| CheckboxList (selections options : list string)
| YesNoInput (name : string) (checked : bool)
| TextAreaInput (name value : string)
| TextInput (name value : string).

(** The element that [renderDynamicField] returns, one constructor per
    [case] of its [switch]; [key] is [field.internalName]. *)
Inductive Control : Type :=
| TextField (key label : string) (required : bool)
| NumberField (key label : string)
| DateField (key label : string)
| MultilineField (key label : string)
| DropdownField (key label : string) (options : list string)
| RadioField (key label : string) (options : list string)
| CheckboxField (key label : string) (options : list string)
| YesNoField (key label : string)
| CurrencyField (key label : string)
| EditableTable (key : string) (caption : option string)
    (headers : list string) (body : list (list CellInput))
| ReadOnlyTable (key : string) (caption : option string)
    (headers : list string) (body : list (list string))
| PlainHtml (key label html : string).

(** [!v] for a value that is a string or [undefined]. *)
Definition falsy (v : option string) : bool :=
  match v with
  | None => true
  | Some s => JS.isEmpty s
  end.

(** [v || ''] and [v || []]. *)
Definition orEmpty (v : option string) : string := default "" v.
Definition orNil {A} (v : option (list A)) : list A := default [] v.

(** [n || 0] for a number that may be [undefined]. *)
Definition orZero (n : option JS.number) : JS.number :=
  match n with
  | Some n => if JS.truthy n then n else JS.Num 0
  | None => JS.Num 0
  end.

(** [s || fallback] for a string that may be [undefined]. *)
Definition orElse (s : option string) (fallback : string) : string :=
  if falsy s then fallback else orEmpty s.

(** [`Column ${c + 1}`]. *)
Definition columnTitle (c : nat) : string := "Column " +:+ pretty (c + 1)%nat.

(** [{ name: `Column ${c + 1}`, type: 'text' }]. *)
Definition defaultColumnDef (c : nat) : ColumnDef.t :=
  ColumnDef.mk (columnTitle c) "text" None.

(** [`${field.internalName}-${r}-${c}`]. *)
Definition cellName (field : ColumnConfig.t) (r c : nat) : string :=
  ColumnConfig.internalName field +:+ "-" +:+ pretty r +:+ "-" +:+ pretty c.

(** [field.tableName && <td>...</td>]. *)
Definition caption (field : ColumnConfig.t) : option string :=
  match ColumnConfig.tableName field with
  | Some s => if JS.isEmpty s then None else Some s
  | None => None
  end.

(** [Array.from({ length: n }).map((_, i) => f(i))]. *)
Definition tabulate {A} (n : JS.number) (f : nat -> A) : list A :=
  f <$> seq 0 (JS.ToLength n).

(** *** [case "htmltable"] *)

(** [colDefs]: the stored definitions, or text columns named by
    [tableHeaders] for a document without them. *)
Definition colDefs (field : ColumnConfig.t) : list ColumnDef.t :=
  match ColumnConfig.tableColumnDefs field with
  | Some defs => defs
  | None =>
      (fun h => ColumnDef.mk h "text" None)
        <$> orNil (ColumnConfig.tableHeaders field)
  end.

(** [def] of [renderCell]. *)
Definition cellDef (field : ColumnConfig.t) (c : nat) : ColumnDef.t :=
  default (defaultColumnDef c) (colDefs field !! c).

(** The first value of [val] in [renderCell]:
    [formData?.[name] ?? (tableData && tableData[r] ? tableData[r][c] : "")]. *)
Definition storedVal (formData : gmap string string) (field : ColumnConfig.t)
    (r c : nat) : option string :=
  match formData !! cellName field r c with
  | Some v => Some v
  | None =>
      match ColumnConfig.tableData field with
      | Some data =>
          match data !! r with
          | Some row => row !! c
          | None => Some ""
          end
      | None => Some ""
      end
  end.

(** [val] after [if (def.type === 'yesno' && !val) val = 'false']. *)
Definition cellVal (formData : gmap string string) (field : ColumnConfig.t)
    (r c : nat) : option string :=
  let val := storedVal formData field r c in
  if String.eqb (ColumnDef.type (cellDef field c)) "yesno" && falsy val
  then Some "false" else val.

(** [renderCell]. *)
Definition renderCell (formData : gmap string string)
    (field : ColumnConfig.t) (r c : nat) : CellInput :=
  let name := cellName field r c in
  let def := cellDef field c in
  let val := cellVal formData field r c in
  let type := ColumnDef.type def in
  if String.eqb type "number" || String.eqb type "currency" then
    NumberInput name (orEmpty val)
  else if String.eqb type "date" then DateInput name (orEmpty val)
  else if String.eqb type "dropdown" || String.eqb type "radio" then
    SelectInput name (orEmpty val) (orNil (ColumnDef.options def))
  else if String.eqb type "checkbox" then
    CheckboxList
      (if falsy val then [] else JS.split_comma (orEmpty val))
      (orNil (ColumnDef.options def))
  else if String.eqb type "yesno" then
    YesNoInput name (bool_decide (val = Some "true"))
  else if String.eqb type "multiline" then TextAreaInput name (orEmpty val)
  else TextInput name (orEmpty val).

Definition renderHtmlTable (formData : gmap string string)
    (field : ColumnConfig.t) : Control :=
  let rows := orZero (ColumnConfig.tableRows field) in
  let cols := orZero (ColumnConfig.tableColumns field) in
  EditableTable (ColumnConfig.internalName field) (caption field)
    (tabulate cols (fun c =>
       orElse (ColumnDef.name <$> colDefs field !! c) (columnTitle c)))
    (tabulate rows (fun r =>
       tabulate cols (fun c => renderCell formData field r c))).

(** *** [case "htmlrender"] *)

(** [colDef] of a read-only cell. *)
Definition renderColDef (field : ColumnConfig.t) (colIndex : nat)
  : ColumnDef.t :=
  default (defaultColumnDef colIndex)
    (ColumnConfig.tableColumnDefs field ≫= (.!! colIndex)).

(** [cellValue]: the stored cell, [""] when the row or the cell is missing. *)
Definition cellValue (field : ColumnConfig.t) (rowIndex colIndex : nat)
  : string :=
  match orNil (ColumnConfig.tableData field) !! rowIndex with
  | Some row => default "" (row !! colIndex)
  | None => ""
  end.

(** [displayValue]. *)
Definition displayValue (field : ColumnConfig.t) (rowIndex colIndex : nat)
  : string :=
  if String.eqb (ColumnDef.type (renderColDef field colIndex)) "yesno"
     && JS.isEmpty (cellValue field rowIndex colIndex)
  then "false" else cellValue field rowIndex colIndex.

Definition renderHtmlRender (field : ColumnConfig.t) : Control :=
  let renderRows := orZero (ColumnConfig.tableRows field) in
  let renderCols := orZero (ColumnConfig.tableColumns field) in
  let renderHeaders := orNil (ColumnConfig.tableHeaders field) in
  ReadOnlyTable (ColumnConfig.internalName field) (caption field)
    (tabulate renderCols (fun colIndex =>
       orElse (renderHeaders !! colIndex) (columnTitle colIndex)))
    (tabulate renderRows (fun rowIndex =>
       tabulate renderCols (fun colIndex =>
         displayValue field rowIndex colIndex))).

(** *** [renderDynamicField] *)

(** The [case] labels of the [switch]. *)
Definition caseLabels : list string :=
  ["text"; "number"; "date"; "multiline"; "dropdown"; "radio"; "checkbox";
   "yesno"; "currency"; "htmltable"; "htmlrender"; "plainhtml"].

(** What a call of [renderDynamicField] does: the lines it writes with
    [console.warn] and the element it returns ([None] for [null]). *)
Record Rendered : Type := mkRendered {
  warnings : list string;
  element : option Control
}.

Definition returns (c : Control) : Rendered := mkRendered [] (Some c).

Definition renderDynamicField (formData : gmap string string)
    (field : ColumnConfig.t) : Rendered :=
  let key := ColumnConfig.internalName field in
  let label := ColumnConfig.label field in
  let options := orNil (ColumnConfig.options field) in
  let type := ColumnConfig.type field in
  if String.eqb type "text" then
    returns (TextField key label (ColumnConfig.required field))
  else if String.eqb type "number" then returns (NumberField key label)
  else if String.eqb type "date" then returns (DateField key label)
  else if String.eqb type "multiline" then returns (MultilineField key label)
  else if String.eqb type "dropdown" then
    returns (DropdownField key label options)
  else if String.eqb type "radio" then returns (RadioField key label options)
  else if String.eqb type "checkbox" then
    returns (CheckboxField key label options)
  else if String.eqb type "yesno" then returns (YesNoField key label)
  else if String.eqb type "currency" then returns (CurrencyField key label)
  else if String.eqb type "htmltable" then
    returns (renderHtmlTable formData field)
  else if String.eqb type "htmlrender" then returns (renderHtmlRender field)
  else if String.eqb type "plainhtml" then
    returns (PlainHtml key label (orEmpty (ColumnConfig.htmlContent field)))
  else
    mkRendered ["Unsupported field type: " +:+ type] None.

(** *** [render] *)

(** [parsedConfig]. *)
Definition parsedConfig (st : State) : option JSON.json :=
  config st ≫= ConfigurationJSON.

(** [parsedConfig.fields], read as fields of the schema. *)
Definition fields (doc : JSON.json) : option (list ColumnConfig.t) :=
  JSON.field (JSON.as_array ColumnConfig.ofJSON) "fields" doc.

(** [sortedFields]. *)
Definition sortedFields (st : State) : option (list ColumnConfig.t) :=
  doc ← parsedConfig st;
  JS.sort (fun a b => JS.sub (ColumnConfig.order a) (ColumnConfig.order b))
    <$> fields doc.

(** The fields that [render] shows: one call of [renderDynamicField] per
    sorted field. *)
Definition renderedFields (st : State) : option (list Rendered) :=
  fmap (M := list) (renderDynamicField (formData st)) <$> sortedFields st.

(** [setVal] of [renderCell]: the answer of cell [(r, c)] of [field]. *)
Definition setVal (field : ColumnConfig.t) (r c : nat) (v : string)
    (st : State) : State :=
  mkState (<[cellName field r c := v]> (formData st)) (config st)
    (tableConfig st).

(** The [onChange] of the checkbox of option [o] in a [checkbox] cell. *)
Definition onToggleOption (field : ColumnConfig.t) (r c : nat) (o : string)
    (checked : bool) (st : State) : State :=
  let val := cellVal (formData st) field r c in
  setVal field r c
    (NewForm.toggleSelection (orEmpty val) o checked) st.

End Eform.

(** ** [class AdminWEbPart]: the list of the saved forms *)

Module AdminWEbPart.

(** What [_loadItems] makes of the [ConfigurationJSON] of a list item: the
    column is empty ([null], [undefined] or [""]), [JSON.parse] throws on
    its text, or it is a document.  A document is read at the type of the
    persisted record: its [formTitle] and its [description] are strings
    when they are present ([None]: the property is missing, or the
    document is [null]). *)
Inductive ConfigurationJSON : Type :=
| Empty
| Malformed
| Document (formTitle description : option string).

(** A list item of [ConfigList], as far as the component reads it. *)
Record Item : Type := mkItem {
  itemId : Z;
  itemConfigurationJSON : ConfigurationJSON
}.

(** An element of [parsedItems]: [{ Id, formTitle, description }]. *)
Record Summary : Type := mkSummary {
  Id : Z;
  formTitle : string;
  description : string
}.

(** [interface IAdminWEbPartState]. *)
Record State : Type := mkState {
  config : list Summary;
  isViewDialogOpen : bool;
  isEditDialogOpen : bool;
  isNewFormDialogOpen : bool;
  selectedItem : option Summary
}.

Definition initialState : State := mkState [] false false false None.

(** [_onNewFormClick]. *)
Definition _onNewFormClick (st : State) : State :=
  mkState (config st) (isViewDialogOpen st) (isEditDialogOpen st) true
    (selectedItem st).

(** [_onViewClick]. *)
Definition _onViewClick (item : Summary) (st : State) : State :=
  mkState (config st) true (isEditDialogOpen st) (isNewFormDialogOpen st)
    (Some item).

(** [_closeDialogs]. *)
Definition _closeDialogs (st : State) : State :=
  mkState (config st) false false false (selectedItem st).

(** [s || fallback] for a string that may be [undefined]. *)
Definition orString (s : option string) (fallback : string) : string :=
  match s with
  | Some s => if JS.isEmpty s then fallback else s
  | None => fallback
  end.

(** The callback of [items.map] in [_loadItems]; [None] when [JSON.parse]
    throws. *)
Definition parseItem (item : Item) : option Summary :=
  match itemConfigurationJSON item with
  | Malformed => None
  | Empty => Some (mkSummary (itemId item) "Untitled Form" "")
  | Document formTitle description =>
      Some (mkSummary (itemId item) (orString formTitle "Untitled Form")
              (orString description ""))
  end.

Section WithCollation.
(** [a.localeCompare(b, undefined, { sensitivity: "base" })], the collation
    of the host. *)
Variable localeCompare : string -> string -> JS.number.

(** [parsedItems] after the sort. *)
Definition sortedItems (parsedItems : list Summary) : list Summary :=
  JS.sort (fun a b => localeCompare (formTitle a) (formTitle b)) parsedItems.

(** What a call of [_loadItems] leaves: the state and the lines written
    with [console.error]. *)
Record Loaded : Type := mkLoaded {
  loadedState : State;
  errors : list string
}.

(** [_loadItems], for the answer of the list store to the query of the
    active items ([None]: the query failed). *)
Definition _loadItems (answer : option (list Item)) (st : State) : Loaded :=
  match answer ≫= mapM parseItem with
  | Some parsedItems =>
      mkLoaded
        (mkState (sortedItems parsedItems) (isViewDialogOpen st)
           (isEditDialogOpen st) (isNewFormDialogOpen st) (selectedItem st))
        []
  | None => mkLoaded st ["Error fetching ConfigList items:"]
  end.

(** [onSuccess] of the new form dialog: [_closeDialogs] at once, and the
    [_loadItems] of [_refreshData] when the list store has answered. *)
Definition onSuccess (answer : option (list Item)) (st : State) : Loaded :=
  _loadItems answer (_closeDialogs st).

End WithCollation.

End AdminWEbPart.

(** * Vocabulary of the statements *)

Module Spec.

(** The grid of [_setTableCell] after its first loop. *)
Definition grownRows (Number : string → JS.number) (st : NewForm.State)
    (r c : nat) : list (list string) :=
  NewForm.tableData st
  ++ replicate (S r - length (NewForm.tableData st))
       (replicate (NewForm.newRowLength Number st c) "").

(** Row [r] of [_setTableCell] after its second loop and the assignment. *)
Definition paddedRow (c : nat) (value : string) (row : list string)
  : list string :=
  <[c := value]> (row ++ replicate (S c - length row) "").

(** "Each newly created row is sized to the greater of [tableColumns] and
    [col + 1]", for one call of [_setTableCell]. *)
Definition newRowsSizedToMax (Number : string → JS.number)
    (st : NewForm.State) (r c : nat) (value : string) : Prop :=
  ∀ newData i row,
    NewForm.setTableCellData Number st r c value = Some newData →
    (length (NewForm.tableData st) ≤ i)%nat →
    newData !! i = Some row →
    length row
    = (JS.ToLength (Number (NewForm.tableColumns st)) `max` (c + 1))%nat.

(** "Removing all whitespace and all non-alphanumeric characters": the
    letters and digits of a label, in order. *)
Fixpoint lettersAndDigits (s : string) : string :=
  match s with
  | EmptyString => EmptyString
  | String a s' =>
      if JS.isAlphaNum a then String a (lettersAndDigits s')
      else lettersAndDigits s'
  end.

(** A table payload of the declared shape: [tableColumns] column
    definitions and [tableRows] rows of [tableColumns] cells. *)
Definition tableShaped (col : ColumnConfig.t) : Prop :=
  ∃ rows cols defs data,
    ColumnConfig.tableRows col = Some (JS.of_nat rows) ∧
    ColumnConfig.tableColumns col = Some (JS.of_nat cols) ∧
    ColumnConfig.tableColumnDefs col = Some defs ∧
    ColumnConfig.tableData col = Some data ∧
    length defs = cols ∧
    length data = rows ∧
    Forall (λ row, length row = cols) data.

(** "Every [htmltable] or [htmlrender] field accepted by [_addColumn] has a
    table payload of the declared shape", for one call. *)
Definition acceptedTableShaped (Number : string → JS.number)
    (st : NewForm.State) : Prop :=
  ∀ col next,
    NewForm._addColumn Number st = NewForm.Added col next →
    ColumnConfig.type col = "htmltable"
    ∨ ColumnConfig.type col = "htmlrender" →
    tableShaped col.

(** The same with "missing cells default to the empty string" read as
    leave: the payload may hold fewer rows than [tableRows] and fewer cells
    in a row than [tableColumns], never more. *)
Definition looselyShaped (col : ColumnConfig.t) : Prop :=
  ∃ rows cols defs data,
    ColumnConfig.tableRows col = Some (JS.of_nat rows) ∧
    ColumnConfig.tableColumns col = Some (JS.of_nat cols) ∧
    ColumnConfig.tableColumnDefs col = Some defs ∧
    ColumnConfig.tableData col = Some data ∧
    length defs = cols ∧
    (length data ≤ rows)%nat ∧
    Forall (λ row, (length row ≤ cols)%nat) data.

Definition acceptedLooselyShaped (Number : string → JS.number)
    (st : NewForm.State) : Prop :=
  ∀ col next,
    NewForm._addColumn Number st = NewForm.Added col next →
    ColumnConfig.type col = "htmltable"
    ∨ ColumnConfig.type col = "htmlrender" →
    looselyShaped col.

(** A builder state with the given schema and pending inputs, the other
    properties as the constructor sets them. *)
Definition builder (columns : list ColumnConfig.t)
    (newColumnName newInternalName newColumnType order : string)
    (options : list string) (tableName tableRows tableColumns : string)
    (tableHeaders : list string) (tableColumnDefs : list ColumnDef.t)
    (tableData : list (list string)) : NewForm.State :=
  {| NewForm.formTitle := ""; NewForm.description := "";
     NewForm.columns := columns;
     NewForm.newColumnName := newColumnName;
     NewForm.newInternalName := newInternalName;
     NewForm.newColumnType := newColumnType;
     NewForm.required := false;
     NewForm.order := order;
     NewForm.options := options;
     NewForm.newChoiceValue := "";
     NewForm.tableName := tableName;
     NewForm.tableRows := tableRows;
     NewForm.tableColumns := tableColumns;
     NewForm.tableHeaders := tableHeaders;
     NewForm.currentHeaderInput := "";
     NewForm.tableData := tableData;
     NewForm.plainHtmlInput := "";
     NewForm.tableColumnDefs := tableColumnDefs;
     NewForm.currentHeaderType := "text";
     NewForm.currentHeaderOptions := [];
     NewForm.currentHeaderOptionInput := "";
     NewForm.isFormInfoOpen := true;
     NewForm.isFieldsConfigOpen := true |}.

(** The builder after the user chose "HTML Table", typed the label [F], the
    table name [T], two rows and one column, and added the header [A]. *)
Definition tableDraft : NewForm.State :=
  builder [] "F" "" "htmltable" "" [] "T" "2" "1" ["A"]
    [ColumnDef.mk "A" "text" None] [].

(** A text field with the given label and order. *)
Definition textColumn (label : string) (order : Z) : ColumnConfig.t :=
  ColumnConfig.mk label label "text" false (JS.Num order)
    None None None None None None None None.

(** A draft of a text field with the given label, internal name and order
    input, over a schema with the given fields. *)
Definition textDraft (columns : list ColumnConfig.t)
    (label internalName order : string) : NewForm.State :=
  builder columns label internalName "text" order [] "" "" "" [] [] [].

(** A draft of a choice field of the given type with the given options. *)
Definition choiceDraft (label type : string) (options : list string)
  : NewForm.State :=
  builder [] label "" type "" options "" "" "" [] [] [].

(** [tableData] has no cell at [(r, c)] or an empty one. *)
Definition storedEmpty (field : ColumnConfig.t) (r c : nat) : Prop :=
  ∀ data v,
    ColumnConfig.tableData field = Some data →
    JS.cellAt data r c = Some v → v = "".

(** A table cell whose entered or stored value is unset or empty: the
    answer map holds the empty string under the cell's name, or it holds
    nothing and [tableData] has no cell there or an empty one. *)
Definition unsetOrEmpty (formData : gmap string string)
    (field : ColumnConfig.t) (r c : nat) : Prop :=
  formData !! Eform.cellName field r c = Some ""
  ∨ (formData !! Eform.cellName field r c = None ∧ storedEmpty field r c).

(** A table field with one [yesno] column named [Done], two rows and the
    given cell data. *)
Definition yesnoTable (type : string) (data : option (list (list string)))
  : ColumnConfig.t :=
  ColumnConfig.mk "Tasks" "Tasks" type false (JS.Num 1) None
    (Some "Tasks") (Some (JS.Num 2)) (Some (JS.Num 1)) (Some ["Done"])
    data None (Some [ColumnDef.mk "Done" "yesno" None]).

(** The comparator of both sorts, [(a, b) => a.order - b.order]. *)
Definition byOrder (a b : ColumnConfig.t) : JS.number :=
  JS.sub (ColumnConfig.order a) (ColumnConfig.order b).

(** [a] is not after [b] in ascending [order]; both orders are integers. *)
Definition orderLe (a b : ColumnConfig.t) : Prop :=
  match ColumnConfig.order a, ColumnConfig.order b with
  | JS.Num x, JS.Num y => x ≤ y
  | _, _ => False
  end.

(** A number that is not [NaN]. *)
Definition isInteger (n : JS.number) : Prop := ∃ z, n = JS.Num z.


(** The fields of a schema with a given [order], in their sequence. *)
Definition withOrder (k : JS.number) (fields : list ColumnConfig.t)
  : list ColumnConfig.t :=
  filter (λ f, ColumnConfig.order f = k) fields.


(** The renderer's state once the list item with the given document is
    loaded. *)
Definition loaded (formData : gmap string string) (doc : JSON.json)
  : Eform.State :=
  Eform.mkState formData (Some (Eform.mkItem (Some doc))) ∅.

(** ** Vocabulary of the further properties *)

(** A string with a first and a last character that are no white space: it
    is not empty and [trim] leaves it as it is. *)
Definition trimmed (s : string) : Prop := s ≠ "" ∧ JS.trim s = s.

(** The code units of a string, and [trimStart] on them. *)
Fixpoint dropSpaces (l : list ascii) : list ascii :=
  match l with
  | [] => []
  | a :: l' => if JS.isWhiteSpace a then dropSpaces l' else l
  end.

(** A column definition as the header panel builds it: a trimmed name, one
    of the nine header types, and options exactly for a choice type, then
    at least one, each trimmed. *)
Definition defOK (d : ColumnDef.t) : Prop :=
  trimmed (ColumnDef.name d) ∧
  ColumnDef.type d ∈ NewForm.headerTypes ∧
  match ColumnDef.options d with
  | Some l =>
      NewForm.isChoiceType (ColumnDef.type d) = true ∧ l ≠ [] ∧
      Forall trimmed l
  | None => NewForm.isChoiceType (ColumnDef.type d) = false
  end.

(** The pending inputs of the builder are consistent. *)
Definition pendingOK (Number : string → JS.number) (st : NewForm.State)
  : Prop :=
  Forall trimmed (NewForm.options st) ∧
  Forall trimmed (NewForm.currentHeaderOptions st) ∧
  (NewForm.isChoiceType (NewForm.currentHeaderType st) = false →
   NewForm.currentHeaderOptions st = []) ∧
  NewForm.currentHeaderType st ∈ "" :: NewForm.headerTypes ∧
  NewForm.newColumnType st ∈ NewForm.columnTypes ∧
  Forall defOK (NewForm.tableColumnDefs st) ∧
  Forall trimmed (NewForm.tableHeaders st) ∧
  (NewForm.tableColumns st = "" ∨
   NewForm.tableHeaders st = ColumnDef.name <$> NewForm.tableColumnDefs st) ∧
  (NewForm.tableColumns st = "" ∨ NewForm.tableColumnDefs st = [] ∨
   ∃ z, Number (NewForm.tableColumns st) = JS.Num z ∧
        Z.of_nat (length (NewForm.tableColumnDefs st)) ≤ z).

(** The table payload of a stored [htmltable] field. *)
Definition tableOK (f : ColumnConfig.t) : Prop :=
  ∃ name z defs rows data,
    ColumnConfig.tableName f = Some name ∧ JS.trim name ≠ "" ∧
    ColumnConfig.tableColumns f = Some (JS.Num z) ∧ 1 ≤ z ∧
    ColumnConfig.tableColumnDefs f = Some defs ∧
    Z.of_nat (length defs) = z ∧ Forall defOK defs ∧
    ColumnConfig.tableHeaders f = Some (ColumnDef.name <$> defs) ∧
    ColumnConfig.tableRows f = Some rows ∧ JS.lt rows (JS.Num 1) = false ∧
    ColumnConfig.tableData f = Some data.

(** A stored field: a label that is not blank, one of the thirteen types,
    and the payload of its type only. *)
Definition fieldOK (f : ColumnConfig.t) : Prop :=
  JS.trim (ColumnConfig.label f) ≠ "" ∧
  ColumnConfig.type f ∈ NewForm.columnTypes ∧
  match ColumnConfig.options f with
  | Some l =>
      NewForm.isChoiceType (ColumnConfig.type f) = true ∧ l ≠ [] ∧
      Forall trimmed l
  | None => NewForm.isChoiceType (ColumnConfig.type f) = false
  end ∧
  (ColumnConfig.type f = "htmltable" → tableOK f) ∧
  (ColumnConfig.type f = "htmlrender" →
   ∃ defs, ColumnConfig.tableColumnDefs f = Some defs ∧ Forall defOK defs) ∧
  (ColumnConfig.type f ≠ "htmltable" → ColumnConfig.type f ≠ "htmlrender" →
   ColumnConfig.tableName f = None ∧ ColumnConfig.tableRows f = None ∧
   ColumnConfig.tableColumns f = None ∧ ColumnConfig.tableHeaders f = None ∧
   ColumnConfig.tableColumnDefs f = None ∧ ColumnConfig.tableData f = None) ∧
  (is_Some (ColumnConfig.htmlContent f) ↔ ColumnConfig.type f = "plainhtml").

(** The invariant of the builder. *)
Definition sessionOK (Number : string → JS.number) (s : NewForm.Session)
  : Prop :=
  pendingOK Number (NewForm.state s) ∧
  Forall fieldOK (NewForm.columns (NewForm.state s)).

(** A grid of [rows] rows of [cols] cells. *)
Definition rectangular (rows cols : nat) (data : list (list string)) : Prop :=
  length data = rows ∧ Forall (λ row, length row = cols) data.

(** A cell edit [(r, c, value)] of the cell grid, and a sequence of them. *)
Definition editCell (Number : string → JS.number) (st : NewForm.State)
    (edit : nat * nat * string) : NewForm.State :=
  let '(r, c, value) := edit in
  default st (NewForm._setTableCell Number r c value st).

(** A string without a comma. *)
Fixpoint commaFree (s : string) : bool :=
  match s with
  | EmptyString => true
  | String a s' => negb (Ascii.eqb a ","%char) && commaFree s'
  end.

(** An option that a checkbox cell can store: not empty, no comma. *)
Definition storable (o : string) : Prop := o ≠ "" ∧ commaFree o = true.

(** A string of decimal digits. *)
Fixpoint allDigits (s : string) : bool :=
  match s with
  | EmptyString => true
  | String a s' => bool_decide (is_Some (Ascii.is_nat a)) && allDigits s'
  end.

(** The comparator never puts two strings in both orders, and "not after"
    is transitive: what any collation gives. *)
Definition collation (cmp : string → string → JS.number) : Prop :=
  (∀ a b, JS.gt (cmp a b) (JS.Num 0) = true →
          JS.gt (cmp b a) (JS.Num 0) = false) ∧
  (∀ a b c, JS.gt (cmp a b) (JS.Num 0) = false →
            JS.gt (cmp b c) (JS.Num 0) = false →
            JS.gt (cmp a c) (JS.Num 0) = false).

(** The comparison of two strings by their lengths: a collation, for the
    concrete lists. *)
Definition byLength (a b : string) : JS.number :=
  JS.Num (Z.of_nat (String.length a) - Z.of_nat (String.length b)).


(** The events of a user who starts an [htmlrender] field with two rows
    and three columns, which fills the cell grid, and who then makes it an
    [htmltable] field with the table name [T] and the one column [A]. *)
Definition wideSession : list NewForm.Event :=
  [NewForm.ChangeColumnType "htmlrender"; NewForm.ChangeColumnName "F";
   NewForm.ChangeTableRows "2"; NewForm.ChangeTableColumns "3";
   NewForm.ChangeColumnType "htmltable"; NewForm.ChangeTableName "T";
   NewForm.ChangeTableColumns "1"; NewForm.ChangeHeaderInput "A";
   NewForm.ClickAddHeader].

(** The events of a user who adds the field [a] with the order [2^53] and
    then the field [b] with no order. *)
Definition orderSession : list NewForm.Event :=
  [NewForm.ChangeColumnName "a"; NewForm.ChangeOrder "9007199254740992";
   NewForm.ClickAddColumn; NewForm.ChangeColumnName "b";
   NewForm.ClickAddColumn].

(** The events of a user who enters an [htmltable] field [F] with the
    table name [T], two rows and the one column [A], and who then adds
    it. *)
Definition headerSession : list NewForm.Event :=
  [NewForm.ChangeColumnType "htmltable"; NewForm.ChangeColumnName "F";
   NewForm.ChangeTableName "T"; NewForm.ChangeTableRows "2";
   NewForm.ChangeTableColumns "1"; NewForm.ChangeHeaderInput " A ";
   NewForm.ClickAddHeader].

Definition tableSession : list NewForm.Event :=
  headerSession ++ [NewForm.ClickAddColumn].

(** The field that [tableSession] adds. *)
Definition tableField : ColumnConfig.t :=
  ColumnConfig.mk "F" "F" "htmltable" false (JS.Num 1) None (Some "T")
    (Some (JS.Num 2)) (Some (JS.Num 1)) (Some ["A"]) (Some []) None
    (Some [ColumnDef.mk "A" "text" None]).

(** The three messages of the table checks that come before the count of
    the headers. *)
Definition tableMessages : list string :=
  ["Table name is required for HTML Table fields.";
   "Number of rows must be at least 1.";
   "Number of columns must be at least 1."].

(** The stored value of a checkbox cell after a sequence of clicks
    [(o, checked)] on its options, from the empty cell. *)
Definition toggled (clicks : list (string * bool)) : string :=
  foldl (λ val click, NewForm.toggleSelection val click.1 click.2) ""
    clicks.

(** A click [(o, checked)] on an option of the checkbox cell [(r, c)]: in
    the cell grid of the builder, and in the editable table of [field] in
    the renderer. *)
Definition clickCell (Number : string → JS.number) (r c : nat)
    (st : NewForm.State) (click : string * bool) : NewForm.State :=
  default st (NewForm.onToggleCell Number r c click.1 click.2 st).

Definition clickOption (field : ColumnConfig.t) (r c : nat)
    (st : Eform.State) (click : string * bool) : Eform.State :=
  Eform.onToggleOption field r c click.1 click.2 st.

(** A draft of an [htmlrender] field with one [checkbox] column and no
    cell yet, and a stored [htmltable] field with such a column. *)
Definition checkDraft : NewForm.State :=
  builder [] "G" "" "htmlrender" "" [] "" "1" "1" ["Pick"]
    [ColumnDef.mk "Pick" "checkbox" (Some ["a"; "b"])] [].

Definition checkTable : ColumnConfig.t :=
  ColumnConfig.mk "Tasks" "Tasks" "htmltable" false (JS.Num 1) None
    (Some "Tasks") (Some (JS.Num 1)) (Some (JS.Num 1)) (Some ["Pick"])
    None None (Some [ColumnDef.mk "Pick" "checkbox" (Some ["a"; "b"])]).

(** The last click on option [o] has checked it. *)
Definition lastChecked (o : string) (clicks : list (string * bool)) : bool :=
  foldl (λ b click, if String.eqb click.1 o then click.2 else b) false
    clicks.

(** [a] is not put after [b] by the comparator. *)
Definition notAfter {A} (cmp : A → A → JS.number) (a b : A) : Prop :=
  JS.gt (cmp a b) (JS.Num 0) = false.

(** The comparator of [_loadItems] on two summaries. *)
Definition byTitle (localeCompare : string → string → JS.number)
    (a b : AdminWEbPart.Summary) : JS.number :=
  localeCompare (AdminWEbPart.formTitle a) (AdminWEbPart.formTitle b).

(** The summary that [_loadItems] shows for an item. *)
Definition summaryOf (item : AdminWEbPart.Item) (s : AdminWEbPart.Summary)
  : Prop :=
  AdminWEbPart.Id s = AdminWEbPart.itemId item ∧
  AdminWEbPart.formTitle s ≠ "" ∧
  match AdminWEbPart.itemConfigurationJSON item with
  | AdminWEbPart.Document (Some title) _ =>
      AdminWEbPart.formTitle s
      = if decide (title = "") then "Untitled Form" else title
  | _ => AdminWEbPart.formTitle s = "Untitled Form"
  end ∧
  match AdminWEbPart.itemConfigurationJSON item with
  | AdminWEbPart.Document _ (Some description) =>
      AdminWEbPart.description s = description
  | _ => AdminWEbPart.description s = ""
  end.

(** A draft of an [htmlrender] field with two rows, before the number of
    its columns is entered. *)
Definition gridDraft : NewForm.State :=
  builder [] "G" "" "htmlrender" "" [] "" "2" "" [] [] [].

(** A draft of an [htmlrender] field with one [yesno] column and one empty
    cell. *)
Definition yesnoDraft : NewForm.State :=
  builder [] "G" "" "htmlrender" "" [] "" "1" "1" ["Done"]
    [ColumnDef.mk "Done" "yesno" None] [[""]].

(** A document whose fields are not in the order of their [order]. *)
Definition unsortedDocument : JSON.json :=
  JSON.JObject
    [("fields",
      JSON.JArray
        (ColumnConfig.toJSON <$> [textColumn "b" 2; textColumn "a" 1]))].

(** Three items of [ConfigList]: a titled form, an item without a
    document and an item whose text does not parse. *)
Definition titledItem : AdminWEbPart.Item :=
  AdminWEbPart.mkItem 1 (AdminWEbPart.Document (Some "Leave") None).
Definition emptyItem : AdminWEbPart.Item :=
  AdminWEbPart.mkItem 2 AdminWEbPart.Empty.
Definition malformedItem : AdminWEbPart.Item :=
  AdminWEbPart.mkItem 3 AdminWEbPart.Malformed.

End Spec.

(** * Properties *)

Import Spec.

(** ** Arrays and strings *)

Section Arrays.
Context {A : Type}.
Implicit Types (l : list A) (x : A).

(** With enough fuel the loop [while (arr.length <= k) arr.push(x)] stops
    because its condition fails, having pushed [k + 1 - arr.length] times. *)
Lemma push_while_replicate fuel k x l :
  (S k - length l ≤ fuel)%nat →
  JS.push_while fuel k x l = l ++ replicate (S k - length l) x.
Proof.
  revert l. induction fuel as [|fuel IH]; intros l Hfuel; simpl.
  - replace (S k - length l)%nat with O by lia. by rewrite app_nil_r.
  - destruct (Nat.leb_spec (length l) k) as [Hle|Hgt].
    + rewrite IH; rewrite ?length_app; simpl; [|lia].
      replace (S k - length l)%nat with (S (k - length l)) by lia.
      replace (k - (length l + 1))%nat with (k - length l - 1)%nat by lia.
      rewrite <- app_assoc. simpl. do 2 f_equal. f_equal. lia.
    + replace (S k - length l)%nat with O by lia. by rewrite app_nil_r.
Qed.

Lemma push_while_length k x l :
  length (JS.push_while (S k) k x l) = (length l `max` S k)%nat.
Proof.
  rewrite push_while_replicate by lia.
  rewrite length_app, length_replicate. lia.
Qed.

End Arrays.

(** ** Strings and numbers *)

Lemma isWhiteSpace_not_alphanumeric a :
  JS.isWhiteSpace a = true → JS.isAlphaNum a = false.
Proof. by destruct a as [[] [] [] [] [] [] [] []]. Qed.

(** The two [replace] calls of [generatedInternalName] keep the letters and
    digits of the label. *)
Lemma removeAll_lettersAndDigits s :
  JS.removeAll (λ a, negb (JS.isAlphaNum a)) (JS.removeAll JS.isWhiteSpace s)
  = lettersAndDigits s.
Proof.
  induction s as [|a s IH]; [done|]. simpl.
  destruct (JS.isWhiteSpace a) eqn:Hspace.
  - by rewrite (isWhiteSpace_not_alphanumeric a Hspace).
  - simpl. rewrite IH. by destruct (JS.isAlphaNum a).
Qed.

(** [Math.max] of integers is the greatest of them. *)
Lemma Math_max_integers (a : Z) (zs : list Z) :
  ∃ m, JS.Math_max (JS.Num a) (JS.Num <$> zs) = JS.Num m ∧
       m ∈ a :: zs ∧ ∀ z, z ∈ a :: zs → z ≤ m.
Proof.
  unfold JS.Math_max. revert a.
  induction zs as [|b zs IH]; intros a; simpl.
  - exists a. split_and!; [done|by apply elem_of_cons; left|].
    intros z ?%list_elem_of_singleton. lia.
  - destruct (IH (Z.max a b)) as (m & Hm & Hin & Hmax).
    exists m. split; [exact Hm|].
    assert (Z.max a b ≤ m) as Hab by (apply Hmax, elem_of_cons; by left).
    apply elem_of_cons in Hin. split.
    + apply elem_of_cons. destruct Hin as [->|Hin].
      * destruct (Z.max_spec a b) as [[_ ->]|[_ ->]];
          [right; apply elem_of_cons|]; by left.
      * right. apply elem_of_cons. by right.
    + intros z Hz. apply elem_of_cons in Hz as [->|Hz]; [lia|].
      apply elem_of_cons in Hz as [->|Hz]; [lia|].
      apply Hmax, elem_of_cons. by right.
Qed.

(** The integers up to [2^53] in absolute value are doubles. *)
Lemma round_exact z : Z.abs z ≤ 2 ^ 53 → JS.round z = z.
Proof.
  intros Hz. unfold JS.round.
  destruct (Z.ltb_spec (Z.abs z) (2 ^ 53)) as [|Hge]; [done|].
  assert (z = 2 ^ 53 ∨ z = - 2 ^ 53) as [-> | ->] by lia;
    vm_compute; reflexivity.
Qed.

(** Rounding keeps the sign: a comparator that subtracts puts two numbers
    in the order of their values. *)
Lemma round_pos z : 0 < JS.round z ↔ 0 < z.
Proof.
  unfold JS.round.
  destruct (Z.ltb_spec (Z.abs z) (2 ^ 53)) as [|Hge]; [done|].
  set (a := Z.abs z) in *. set (e := Z.log2 a - 52).
  assert (0 < a) as Ha by lia.
  assert (53 ≤ Z.log2 a) as Hlog.
  { rewrite <- (Z.log2_pow2 53) by lia. by apply Z.log2_le_mono. }
  assert (0 < 2 ^ e) as Hpow by (apply Z.pow_pos_nonneg; lia).
  assert (2 ^ e ≤ a) as Hle.
  { trans (2 ^ Z.log2 a); [apply Z.pow_le_mono_r; lia|].
    by apply Z.log2_spec. }
  assert (0 < a / 2 ^ e) as Hq by (apply Z.div_str_pos; lia).
  set (q := a / 2 ^ e) in *.
  assert (0 < (if a mod 2 ^ e <? 2 ^ (e - 1) then q
               else if 2 ^ (e - 1) <? a mod 2 ^ e then q + 1
               else if Z.even q then q else q + 1)) as Hq'.
  { repeat case_match; lia. }
  set (q' := if a mod 2 ^ e <? 2 ^ (e - 1) then _ else _) in *.
  assert (0 < q' * 2 ^ e) as Hp by (by apply Z.mul_pos_pos).
  destruct (Z.sgn_spec z) as [[? ->]|[[? ->]|[? ->]]]; lia.
Qed.

(** ** [_setTableCell] *)

Section SetTableCell.
Variable Number : string → JS.number.
Implicit Types (st : NewForm.State) (r c i j : nat) (value : string).

Lemma grownRows_length st r c :
  length (grownRows Number st r c) = (length (NewForm.tableData st) `max` S r)%nat.
Proof. unfold grownRows. rewrite length_app, length_replicate. lia. Qed.

(** The updater never reads a missing row: it returns the grown grid with
    the padded target row in place. *)
Lemma setTableCellData_grown st r c value :
  ∃ row, grownRows Number st r c !! r = Some row ∧
    NewForm.setTableCellData Number st r c value
    = Some (<[r := paddedRow c value row]> (grownRows Number st r c)).
Proof.
  unfold NewForm.setTableCellData.
  rewrite push_while_replicate by lia. fold (grownRows Number st r c).
  destruct (lookup_lt_is_Some_2 (grownRows Number st r c) r) as [row Hrow].
  { rewrite grownRows_length. lia. }
  exists row. split; [done|]. rewrite Hrow.
  by rewrite push_while_replicate by lia.
Qed.

Lemma paddedRow_lookup c value row j :
  paddedRow c value row !! j
  = if decide (j = c) then Some value
    else if decide (j < length row)%nat then row !! j
    else if decide (j < c)%nat then Some "" else None.
Proof.
  unfold paddedRow. destruct (decide (j = c)) as [->|Hne].
  - apply list_lookup_insert_eq. rewrite length_app, length_replicate. lia.
  - rewrite list_lookup_insert_ne by done.
    destruct (decide (j < length row)%nat) as [Hlt|Hge].
    + by rewrite lookup_app_l.
    + rewrite lookup_app_r by lia.
      destruct (decide (j < c)%nat).
      * apply lookup_replicate_2. lia.
      * apply lookup_replicate_None. lia.
Qed.

Lemma grownRows_lookup st r c i :
  grownRows Number st r c !! i
  = if decide (i < length (NewForm.tableData st))%nat
    then NewForm.tableData st !! i
    else if decide (i ≤ r)%nat
    then Some (replicate (NewForm.newRowLength Number st c) "")
    else None.
Proof.
  unfold grownRows.
  destruct (decide (i < length (NewForm.tableData st))%nat) as [Hlt|Hge].
  - by rewrite lookup_app_l.
  - rewrite lookup_app_r by lia. destruct (decide (i ≤ r)%nat).
    + apply lookup_replicate_2. lia.
    + apply lookup_replicate_None. lia.
Qed.

Lemma setTableCellData_lookup st r c value :
  ∃ newData row,
    NewForm.setTableCellData Number st r c value = Some newData ∧
    grownRows Number st r c !! r = Some row ∧
    length newData = (length (NewForm.tableData st) `max` S r)%nat ∧
    ∀ i, newData !! i
         = if decide (i = r) then Some (paddedRow c value row)
           else grownRows Number st r c !! i.
Proof.
  destruct (setTableCellData_grown st r c value) as (row & Hrow & ->).
  exists (<[r := paddedRow c value row]> (grownRows Number st r c)), row.
  split_and!; [done|done| |].
  - by rewrite length_insert, grownRows_length.
  - intros i. destruct (decide (i = r)) as [->|Hne].
    + apply list_lookup_insert_eq. by eapply lookup_lt_Some.
    + by rewrite list_lookup_insert_ne.
Qed.

(** How long a row created by [_setTableCell] is: [Number(tableColumns)]
    when that is a positive number, [c + 1] when it is [0] or [NaN], and
    [0] when it is negative; the greater of [tableColumns] and [c + 1]
    unless [tableColumns] lies strictly between [0] and [c + 1]. *)
Lemma newRowLength_cases st c :
  match Number (NewForm.tableColumns st) with
  | JS.NaN => NewForm.newRowLength Number st c = (c + 1)%nat
  | JS.Num z =>
      (0 < z → NewForm.newRowLength Number st c = Z.to_nat z) ∧
      (z = 0 → NewForm.newRowLength Number st c = (c + 1)%nat) ∧
      (z < 0 → NewForm.newRowLength Number st c = O) ∧
      (z = 0 ∨ Z.of_nat (c + 1) ≤ z →
       NewForm.newRowLength Number st c = (Z.to_nat z `max` (c + 1))%nat)
  end.
Proof.
  unfold NewForm.newRowLength.
  destruct (Number (NewForm.tableColumns st)) as [|z]; simpl.
  - f_equal. lia.
  - destruct (Z.eqb_spec z 0) as [->|Hz]; simpl.
    + split_and!; intros; lia.
    + split_and!; intros; try lia; done.
Qed.

(** The cells of the new grid: the target cell, the cells that existed and
    the cells that the call created. *)
Lemma setTableCellData_cells st r c value :
  ∃ newData,
    NewForm.setTableCellData Number st r c value = Some newData ∧
    length newData = (length (NewForm.tableData st) `max` S r)%nat ∧
    JS.cellAt newData r c = Some value ∧
    (∀ i j x, (i, j) ≠ (r, c) →
       JS.cellAt (NewForm.tableData st) i j = Some x →
       JS.cellAt newData i j = Some x) ∧
    (∀ i j x, (i, j) ≠ (r, c) →
       JS.cellAt (NewForm.tableData st) i j = None →
       JS.cellAt newData i j = Some x → x = "").
Proof.
  destruct (setTableCellData_lookup st r c value)
    as (newData & row & Hset & Hrow & Hlen & Hnew).
  exists newData. unfold JS.cellAt.
  split_and!; [done|done| | |].
  - rewrite Hnew, decide_True by done. simpl.
    rewrite paddedRow_lookup. by rewrite decide_True.
  - intros i j x Hij Hold. rewrite Hnew.
    destruct (NewForm.tableData st !! i) as [old|] eqn:Hi; [|done].
    simpl in Hold. pose proof (lookup_lt_Some _ _ _ Hi) as Hlt.
    assert (grownRows Number st r c !! i = Some old) as Hg.
    { by rewrite grownRows_lookup, decide_True. }
    destruct (decide (i = r)) as [->|Hne]; simpl; [|by rewrite Hg].
    rewrite Hg in Hrow. simplify_eq. rewrite paddedRow_lookup.
    rewrite decide_False by congruence.
    rewrite decide_True; [done|]. by eapply lookup_lt_Some.
  - intros i j x Hij Hold. rewrite Hnew.
    rewrite grownRows_lookup in Hrow |- *.
    destruct (decide (i = r)) as [->|Hne]; simpl.
    + rewrite paddedRow_lookup, decide_False by congruence.
      destruct (decide (r < length (NewForm.tableData st))%nat).
      * rewrite Hrow in Hold. simpl in Hold.
        apply lookup_ge_None in Hold.
        rewrite decide_False by lia.
        case_decide; by intros [=].
      * rewrite decide_True in Hrow by lia. simplify_eq.
        case_decide as Hj; [|case_decide; by intros [=]].
        intros Hx. by apply lookup_replicate in Hx as [-> _].
    + destruct (decide (i < length (NewForm.tableData st))%nat).
      * intros Hx. congruence.
      * destruct (decide (i ≤ r)%nat); simpl; [|by intros [=]].
        intros Hx. by apply lookup_replicate in Hx as [-> _].
Qed.

(** C10. Frame of [_setTableCell(r, c, value)], for every pending grid:
    the call does not fail and changes [tableData] only; the new grid has
    the old rows and the rows up to index [r], none beyond; cell [(r, c)]
    holds [value]; every other cell that existed keeps its value; every
    other cell of the new grid that did not exist holds the empty string. *)
Theorem setTableCell_frame st r c value :
  ∃ newData,
    NewForm._setTableCell Number r c value st
    = Some (NewForm.setTableData newData st) ∧
    length newData = (length (NewForm.tableData st) `max` S r)%nat ∧
    JS.cellAt newData r c = Some value ∧
    (∀ i j x, (i, j) ≠ (r, c) →
       JS.cellAt (NewForm.tableData st) i j = Some x →
       JS.cellAt newData i j = Some x) ∧
    (∀ i j x, (i, j) ≠ (r, c) →
       JS.cellAt (NewForm.tableData st) i j = None →
       JS.cellAt newData i j = Some x → x = "").
Proof.
  destruct (setTableCellData_cells st r c value) as (newData & Hset & H).
  exists newData. unfold NewForm._setTableCell. by rewrite Hset.
Qed.

(** C4 (as amended). [_setTableCell(r, c, value)] does not fail and grows
    the pending grid to at least [r + 1] rows.  A row created before row
    [r] is [newRowLength] empty strings long: [Number(tableColumns)] when
    that is a positive number, [c + 1] when it is [0] or [NaN]; that is the
    greater of the two when [tableColumns] is [0] or at least [c + 1], as
    in the calls of the cell grid, and not otherwise.  Row [r] is padded with empty strings to at least
    [c + 1] cells, so a created row [r] has the greater of [newRowLength]
    and [c + 1] cells, and [value] is assigned at [(r, c)].  On an empty
    grid with [tableColumns = 3], row [r] has at least [c + 1] cells, cell
    [(r, c)] is [value] and every other cell is the empty string. *)
Theorem setTableCell_grows st r c value :
  ∃ newData,
    NewForm._setTableCell Number r c value st
    = Some (NewForm.setTableData newData st) ∧
    (r + 1 ≤ length newData)%nat ∧
    (∀ i, (length (NewForm.tableData st) ≤ i)%nat → (i < r)%nat →
       newData !! i
       = Some (replicate (NewForm.newRowLength Number st c) "")) ∧
    ((length (NewForm.tableData st) ≤ r)%nat →
       newData !! r
       = Some (<[c := value]>
                 (replicate (NewForm.newRowLength Number st c `max` (c + 1))
                    ""))) ∧
    (∀ row, NewForm.tableData st !! r = Some row →
       newData !! r
       = Some (<[c := value]> (row ++ replicate (c + 1 - length row) ""))) ∧
    match Number (NewForm.tableColumns st) with
    | JS.NaN => NewForm.newRowLength Number st c = (c + 1)%nat
    | JS.Num z =>
        (0 < z → NewForm.newRowLength Number st c = Z.to_nat z) ∧
        (z = 0 → NewForm.newRowLength Number st c = (c + 1)%nat) ∧
        (z < 0 → NewForm.newRowLength Number st c = O) ∧
        (z = 0 ∨ Z.of_nat (c + 1) ≤ z →
         NewForm.newRowLength Number st c = (Z.to_nat z `max` (c + 1))%nat)
    end ∧
    (NewForm.tableData st = [] →
     Number (NewForm.tableColumns st) = JS.Num 3 →
     ∃ row, newData !! r = Some row ∧ (c + 1 ≤ length row)%nat ∧
       JS.cellAt newData r c = Some value ∧
       ∀ i j x, (i, j) ≠ (r, c) → JS.cellAt newData i j = Some x → x = "").
Proof.
  destruct (setTableCellData_lookup st r c value)
    as (newData & row & Hset & Hrow & Hlen & Hnew).
  destruct (setTableCellData_cells st r c value)
    as (newData' & Hset' & _ & Hrc & _ & Hpad).
  assert (newData' = newData) as -> by congruence.
  exists newData. unfold NewForm._setTableCell. rewrite Hset.
  rewrite grownRows_lookup in Hrow.
  split_and!; [done|lia| | | |apply newRowLength_cases|].
  - intros i Hi Hr. rewrite Hnew, decide_False by lia.
    rewrite grownRows_lookup, decide_False, decide_True by lia. done.
  - intros Hr. rewrite decide_False, decide_True in Hrow by lia.
    simplify_eq. rewrite Hnew, decide_True by done.
    unfold paddedRow. rewrite length_replicate, <- replicate_add.
    do 3 f_equal. lia.
  - intros old Hold. pose proof (lookup_lt_Some _ _ _ Hold).
    rewrite decide_True, Hold in Hrow by done. simplify_eq.
    rewrite Hnew, decide_True by done. unfold paddedRow.
    do 4 f_equal. lia.
  - intros Hnil H3. rewrite Hnil in Hrow. simpl in Hrow.
    rewrite decide_True in Hrow by lia. simplify_eq.
    exists (paddedRow c value
              (replicate (NewForm.newRowLength Number st c) "")).
    split_and!; [by rewrite Hnew, decide_True| |done|].
    + unfold paddedRow.
      rewrite length_insert, length_app, !length_replicate. lia.
    + intros i j x Hij. apply Hpad; [done|].
      unfold JS.cellAt. by rewrite Hnil.
Qed.

End SetTableCell.

(** C4, a counterexample to the claim as stated.  With [tableColumns = 3]
    and an empty grid, [_setTableCell(1, 5, "x")] creates row [0] with three
    cells, where the greater of [tableColumns] and [col + 1] is six. *)
Lemma setTableCell_new_row_not_max :
  ¬ newRowsSizedToMax JS.Number
      (NewForm.onChangeTableColumns "3" NewForm.initialState) 1 5 "x".
Proof.
  intros Hmax.
  specialize (Hmax [["";"";""]; ["";"";"";"";"";"x"]] O ["";"";""]).
  vm_compute in Hmax. specialize (Hmax eq_refl (le_n _) eq_refl). lia.
Qed.

Lemma setTableCell_frame_witness :
  ∃ newData,
    NewForm._setTableCell JS.Number 0 2 "v"
      (NewForm.setTableData [["a"; "b"]; ["c"]] NewForm.initialState)
    = Some (NewForm.setTableData newData NewForm.initialState) ∧
    length newData = 2%nat ∧
    JS.cellAt newData 0 2 = Some "v" ∧
    JS.cellAt newData 0 1 = Some "b" ∧
    JS.cellAt newData 1 0 = Some "c".
Proof.
  destruct (setTableCell_frame JS.Number
              (NewForm.setTableData [["a"; "b"]; ["c"]] NewForm.initialState)
              0 2 "v")
    as (newData & Hset & Hlen & Hcell & Hkeep & _).
  exists newData. split_and!; [exact Hset|exact Hlen|exact Hcell| |].
  - apply Hkeep; [discriminate|reflexivity].
  - apply Hkeep; [discriminate|reflexivity].
Defined.

Lemma setTableCell_grows_witness :
  ∃ newData,
    NewForm._setTableCell JS.Number 1 1 "v"
      (NewForm.onChangeTableColumns "3" NewForm.initialState)
    = Some (NewForm.setTableData newData
              (NewForm.onChangeTableColumns "3" NewForm.initialState)) ∧
    ∃ row, newData !! 1%nat = Some row ∧ (1 + 1 ≤ length row)%nat ∧
      JS.cellAt newData 1 1 = Some "v" ∧
      ∀ i j x, (i, j) ≠ (1%nat, 1%nat) →
        JS.cellAt newData i j = Some x → x = "".
Proof.
  destruct (setTableCell_grows JS.Number
              (NewForm.onChangeTableColumns "3" NewForm.initialState)
              1 1 "v")
    as (newData & Hset & _ & _ & _ & _ & _ & Hempty).
  exists newData. split; [exact Hset|]. apply Hempty; reflexivity.
Defined.

Example setTableCell_empty_grid :
  NewForm.setTableCellData JS.Number
    (NewForm.onChangeTableColumns "3" NewForm.initialState) 1 1 "v"
  = Some [[""; ""; ""]; [""; "v"; ""]].
Proof. reflexivity. Qed.

(** ** [_addColumn] *)

Section AddColumn.
Variable Number : string → JS.number.
Implicit Types (st next : NewForm.State) (col : ColumnConfig.t).

(** An accepted call: the label is not blank, no table check failed, the
    field is [newColumn] and the next state is the reset one. *)
Lemma addColumn_Added st col next :
  NewForm._addColumn Number st = NewForm.Added col next →
  JS.isEmpty (JS.trim (NewForm.newColumnName st)) = false ∧
  NewForm.tableAlert Number st = None ∧
  col = NewForm.newColumn Number st ∧
  next = NewForm.resetAfterAdd col st.
Proof.
  unfold NewForm._addColumn. intros H.
  destruct (JS.isEmpty _); [done|].
  destruct (NewForm.tableAlert Number st); [done|]. by simplify_eq.
Qed.

Lemma addColumn_accepts st :
  JS.isEmpty (JS.trim (NewForm.newColumnName st)) = false →
  NewForm.tableAlert Number st = None →
  NewForm._addColumn Number st
  = NewForm.Added (NewForm.newColumn Number st)
      (NewForm.resetAfterAdd (NewForm.newColumn Number st) st).
Proof. unfold NewForm._addColumn. by intros -> ->. Qed.

(** The attachments of [newColumn] leave the five base properties alone. *)
Lemma newColumn_base st :
  ColumnConfig.label (NewForm.newColumn Number st) = NewForm.newColumnName st ∧
  ColumnConfig.internalName (NewForm.newColumn Number st)
  = NewForm.generatedInternalName st ∧
  ColumnConfig.type (NewForm.newColumn Number st) = NewForm.newColumnType st ∧
  ColumnConfig.required (NewForm.newColumn Number st) = NewForm.required st ∧
  ColumnConfig.order (NewForm.newColumn Number st)
  = NewForm.orderNumber Number st.
Proof.
  unfold NewForm.newColumn, NewForm.when.
  by repeat match goal with |- context [if ?b then _ else _] => destruct b end.
Qed.

Lemma newColumn_options st :
  ColumnConfig.options (NewForm.newColumn Number st)
  = if NewForm.isChoiceType (NewForm.newColumnType st)
    then Some (NewForm.options st) else None.
Proof.
  unfold NewForm.newColumn, NewForm.when.
  destruct (NewForm.isChoiceType _);
    by repeat match goal with
              | |- context [if String.eqb ?a ?b then _ else _] =>
                  destruct (String.eqb a b)
              end.
Qed.

(** The table payload of an [htmltable] field. *)
Lemma newColumn_htmltable st :
  NewForm.newColumnType st = "htmltable" →
  NewForm.newColumn Number st
  = NewForm.attachTable Number st
      (ColumnDef.name <$> NewForm.tableColumnDefs st)
      (ColumnConfig.mk (NewForm.newColumnName st)
         (NewForm.generatedInternalName st) "htmltable"
         (NewForm.required st) (NewForm.orderNumber Number st)
         None None None None None None None None).
Proof. unfold NewForm.newColumn. by intros ->. Qed.

(** The table payload of an [htmlrender] field. *)
Lemma newColumn_htmlrender st :
  NewForm.newColumnType st = "htmlrender" →
  NewForm.newColumn Number st
  = NewForm.attachTable Number st (NewForm.tableHeaders st)
      (ColumnConfig.mk (NewForm.newColumnName st)
         (NewForm.generatedInternalName st) "htmlrender"
         (NewForm.required st) (NewForm.orderNumber Number st)
         None None None None None None None None).
Proof. unfold NewForm.newColumn. by intros ->. Qed.

(** What the final [setState] of [_addColumn] resets and what it keeps. *)
Lemma addColumn_reset st col next :
  NewForm._addColumn Number st = NewForm.Added col next →
  NewForm.columns next = NewForm.columns st ++ [col] ∧
  NewForm.options next = [] ∧
  NewForm.tableHeaders next = [] ∧
  NewForm.tableData next = [] ∧
  NewForm.tableColumnDefs next = NewForm.tableColumnDefs st.
Proof. intros (_ & _ & _ & ->)%addColumn_Added. done. Qed.

(** C1 (as amended).  [_addColumn] stores the field it accepts at the end
    of the schema.  An accepted [htmltable] field has [tableColumns] at
    least [1] and equal to the number of pending header names, [tableRows]
    not below [1], and the pending column definitions and the pending cell
    grid as they stand, whatever their shape: the definitions number
    [tableColumns] when they are in step with the header names, and no
    check relates the cell grid to [tableRows] and [tableColumns].  An
    accepted [htmlrender] field stores the pending table inputs as they
    stand. *)
Theorem addColumn_table_payload st col next :
  NewForm._addColumn Number st = NewForm.Added col next →
  NewForm.columns next = NewForm.columns st ++ [col] ∧
  (NewForm.newColumnType st = "htmltable" →
   ∃ cols : Z,
     Number (NewForm.tableColumns st) = JS.Num cols ∧
     ColumnConfig.tableColumns col = Some (JS.Num cols) ∧
     1 ≤ cols ∧
     Z.of_nat (length (NewForm.tableHeaders st)) = cols ∧
     ColumnConfig.tableRows col = Some (Number (NewForm.tableRows st)) ∧
     JS.lt (Number (NewForm.tableRows st)) (JS.Num 1) = false ∧
     ColumnConfig.tableColumnDefs col = Some (NewForm.tableColumnDefs st) ∧
     ColumnConfig.tableHeaders col
     = Some (ColumnDef.name <$> NewForm.tableColumnDefs st) ∧
     ColumnConfig.tableData col = Some (NewForm.tableData st) ∧
     (length (NewForm.tableColumnDefs st) = length (NewForm.tableHeaders st) →
      ∃ defs, ColumnConfig.tableColumnDefs col = Some defs ∧
              Z.of_nat (length defs) = cols)) ∧
  (NewForm.newColumnType st = "htmlrender" →
   ColumnConfig.tableRows col = Some (Number (NewForm.tableRows st)) ∧
   ColumnConfig.tableColumns col = Some (Number (NewForm.tableColumns st)) ∧
   ColumnConfig.tableColumnDefs col = Some (NewForm.tableColumnDefs st) ∧
   ColumnConfig.tableHeaders col = Some (NewForm.tableHeaders st) ∧
   ColumnConfig.tableData col = Some (NewForm.tableData st)).
Proof.
  intros Hadded. split; [by destruct (addColumn_reset st col next Hadded)|].
  apply addColumn_Added in Hadded as (_ & Halert & -> & _).
  split; intros Htype.
  - rewrite newColumn_htmltable by done. simpl.
    unfold NewForm.tableAlert in Halert. rewrite Htype in Halert.
    simpl in Halert.
    destruct (JS.isEmpty (JS.trim _)); [done|].
    destruct (JS.isEmpty (NewForm.tableRows st)); [done|].
    destruct (JS.lt (Number (NewForm.tableRows st)) _) eqn:Hrows; [done|].
    destruct (JS.isEmpty (NewForm.tableColumns st)); [done|].
    simpl in Halert.
    destruct (Number (NewForm.tableColumns st)) as [|cols] eqn:Hcols;
      [done|].
    simpl in Halert.
    destruct (Z.ltb_spec cols 1); [done|].
    destruct (Z.eqb_spec (Z.of_nat (length (NewForm.tableHeaders st))) cols);
      [|done].
    exists cols. split_and!; try done.
    intros Hstep. eexists. split; [done|]. by rewrite Hstep.
  - by rewrite newColumn_htmlrender.
Qed.

(** C6. [_addColumn] stores the field it accepts at the end of the
    schema.  With no explicit internal name the stored field has the
    letters and digits of its label as [internalName]; an explicit internal
    name is stored as it is. *)
Theorem addColumn_internalName st col next :
  NewForm._addColumn Number st = NewForm.Added col next →
  NewForm.columns next = NewForm.columns st ++ [col] ∧
  (NewForm.newInternalName st = "" →
   ColumnConfig.internalName col
   = lettersAndDigits (NewForm.newColumnName st)) ∧
  (NewForm.newInternalName st ≠ "" →
   ColumnConfig.internalName col = NewForm.newInternalName st).
Proof.
  intros Hadded. split; [by destruct (addColumn_reset st col next Hadded)|].
  apply addColumn_Added in Hadded as (_ & _ & -> & _).
  destruct (newColumn_base st) as (_ & -> & _).
  unfold NewForm.generatedInternalName.
  split; intros Hname.
  - rewrite Hname. simpl. apply removeAll_lettersAndDigits.
  - by destruct (NewForm.newInternalName st).
Qed.

(** C7 (as amended).  [_addColumn] stores the field it accepts at the end
    of the schema.  With an explicit order the stored field has
    [Number(order)] as [order].  With no explicit order it has [1] over an
    empty schema, and over a schema of integer orders with the greatest
    order [m] it has the double nearest to [m + 1]: that is [m + 1] as
    long as [m + 1] is at most [2^53] in absolute value. *)
Theorem addColumn_order st col next :
  NewForm._addColumn Number st = NewForm.Added col next →
  NewForm.columns next = NewForm.columns st ++ [col] ∧
  (NewForm.order st ≠ "" →
   ColumnConfig.order col = Number (NewForm.order st)) ∧
  (NewForm.order st = "" → NewForm.columns st = [] →
   ColumnConfig.order col = JS.Num 1) ∧
  (NewForm.order st = "" →
   ∀ zs : list Z, zs ≠ [] →
     ColumnConfig.order <$> NewForm.columns st = JS.Num <$> zs →
     ∃ m, m ∈ zs ∧ (∀ z, z ∈ zs → z ≤ m) ∧
          ColumnConfig.order col = JS.Num (JS.round (m + 1)) ∧
          (Z.abs (m + 1) ≤ 2 ^ 53 →
           ColumnConfig.order col = JS.Num (m + 1))).
Proof.
  intros Hadded. split; [by destruct (addColumn_reset st col next Hadded)|].
  apply addColumn_Added in Hadded as (_ & _ & -> & _).
  destruct (newColumn_base st) as (_ & _ & _ & _ & ->).
  unfold NewForm.orderNumber. split_and!.
  - intros Horder. by destruct (NewForm.order st).
  - by intros -> ->.
  - intros -> zs Hzs Horders. cbn [JS.isEmpty negb].
    change (map ColumnConfig.order (NewForm.columns st))
      with (ColumnConfig.order <$> NewForm.columns st).
    rewrite Horders. destruct zs as [|a zs]; [done|].
    destruct (Math_max_integers a zs) as (m & Hm & Hin & Hmax).
    exists m.
    assert (JS.add (JS.Math_max (JS.Num a) (JS.Num <$> zs)) (JS.Num 1)
            = JS.Num (JS.round (m + 1))) as Hadd by (by rewrite Hm).
    split_and!; [done|done|exact Hadd|].
    intros Hsafe. rewrite <- (round_exact (m + 1)) by done. exact Hadd.
Qed.

(** C5. A click on "Add Column" for a [dropdown], [radio] or [checkbox]
    draft does nothing when no option was added.  With at least one option
    and a label that is not blank, it appends a field whose [options] are
    the pending option list of the moment, and the pending list is empty
    afterwards. *)
Theorem addField_choice st :
  NewForm.newColumnType st = "dropdown"
  ∨ NewForm.newColumnType st = "radio"
  ∨ NewForm.newColumnType st = "checkbox" →
  (NewForm.options st = [] → NewForm.addField Number st = NewForm.Ignored) ∧
  (NewForm.options st ≠ [] → JS.trim (NewForm.newColumnName st) ≠ "" →
   ∃ col next,
     NewForm.addField Number st = NewForm.Added col next ∧
     ColumnConfig.options col = Some (NewForm.options st) ∧
     NewForm.columns next = NewForm.columns st ++ [col] ∧
     NewForm.options next = []).
Proof.
  intros Htype.
  assert (NewForm.isChoiceType (NewForm.newColumnType st) = true) as Hchoice.
  { by destruct Htype as [->|[->| ->]]. }
  assert (String.eqb (NewForm.newColumnType st) "htmltable" = false) as Htable.
  { by destruct Htype as [->|[->| ->]]. }
  unfold NewForm.addField, NewForm.addColumnDisabled.
  rewrite Hchoice, Htable. split.
  - intros ->. simpl. by rewrite orb_true_r.
  - intros Hopts Hlabel.
    assert (JS.isEmpty (JS.trim (NewForm.newColumnName st)) = false) as Htrim.
    { by destruct (JS.trim _). }
    assert (JS.isEmpty (NewForm.newColumnName st) = false) as ->.
    { by destruct (NewForm.newColumnName st). }
    assert ((length (NewForm.options st) =? 0)%nat = false) as ->.
    { by destruct (NewForm.options st). }
    simpl. rewrite addColumn_accepts; [|done|].
    + eexists _, _. split; [done|].
      by rewrite newColumn_options, Hchoice.
    + unfold NewForm.tableAlert. by rewrite Htable.
Qed.

End AddColumn.

(** ** The header names and the column definitions *)

Section InStep.
Variable Number : string → JS.number.
Implicit Types (st next : NewForm.State).

Lemma filter_index_go_fmap {A B} (f : A → B) i index (l : list A) :
  JS.filter_index_go i index (f <$> l) = f <$> JS.filter_index_go i index l.
Proof.
  revert i. induction l as [|x l IH]; intros i; simpl; [done|].
  destruct (Nat.eqb i index); simpl; by rewrite IH.
Qed.

(** [_addTableHeader] and [_removeTableHeader] keep the header names equal
    to the names of the column definitions. *)
Lemma addTableHeader_in_step st :
  NewForm.tableHeaders st = ColumnDef.name <$> NewForm.tableColumnDefs st →
  NewForm.tableHeaders (NewForm._addTableHeader st)
  = ColumnDef.name <$> NewForm.tableColumnDefs (NewForm._addTableHeader st).
Proof.
  intros Hstep. unfold NewForm._addTableHeader.
  destruct (JS.isEmpty _); [done|]. simpl. by rewrite fmap_app, Hstep.
Qed.

Lemma removeTableHeader_in_step index st :
  NewForm.tableHeaders st = ColumnDef.name <$> NewForm.tableColumnDefs st →
  NewForm.tableHeaders (NewForm._removeTableHeader index st)
  = ColumnDef.name
      <$> NewForm.tableColumnDefs (NewForm._removeTableHeader index st).
Proof.
  intros Hstep. simpl. unfold JS.filter_index_ne.
  by rewrite Hstep, filter_index_go_fmap.
Qed.

(** A field accepted through the button is accepted by [_addColumn]. *)
Lemma addField_Added st col next :
  NewForm.addField Number st = NewForm.Added col next →
  NewForm._addColumn Number st = NewForm.Added col next.
Proof. unfold NewForm.addField. by destruct (NewForm.addColumnDisabled _ _). Qed.

End InStep.

(** [_addColumn] itself has no check of the options: only the button has. *)
Example addColumn_without_options :
  ∃ col next,
    NewForm._addColumn JS.Number (choiceDraft "Answer" "dropdown" [])
    = NewForm.Added col next ∧
    ColumnConfig.options col = Some [].
Proof. by eexists _, _. Qed.

(** *** The claims at concrete drafts *)

(** C1, two counterexamples to the claim as stated.  The [htmltable]
    draft [tableDraft] declares two rows and no cell was edited: the field
    is accepted with an empty [tableData].  After the events of
    [wideSession] the cell grid holds two rows of three cells, left by the
    [htmlrender] panel, and the accepted [htmltable] field declares one
    column: its rows are longer than [tableColumns], so that the payload
    is not of the declared shape even when missing cells are read as
    empty. *)
Lemma addColumn_table_not_shaped :
  ¬ acceptedTableShaped JS.Number tableDraft ∧
  ¬ acceptedLooselyShaped JS.Number
      (NewForm.state (NewForm.run JS.Number wideSession)).
Proof.
  split.
  - intros Hshape.
    destruct (Hshape _ _ eq_refl (or_introl eq_refl))
      as (rows & cols & defs & data & Hrows & _ & _ & Hdata & _ & Hlen & _).
    vm_compute in Hrows, Hdata. simplify_eq.
  - set (st := NewForm.state (NewForm.run JS.Number wideSession)).
    intros Hshape.
    assert (NewForm._addColumn JS.Number st
            = NewForm.Added (NewForm.newColumn JS.Number st)
                (NewForm.resetAfterAdd (NewForm.newColumn JS.Number st) st))
      as Hadded by (apply addColumn_accepts; vm_compute; reflexivity).
    destruct (Hshape _ _ Hadded)
      as (rows & cols & defs & data & _ & Hcols & _ & Hdata & _ & _ & Hall).
    { left. vm_compute. reflexivity. }
    assert (ColumnConfig.tableColumns (NewForm.newColumn JS.Number st)
            = Some (JS.Num 1)) as Hone by (vm_compute; reflexivity).
    assert (ColumnConfig.tableData (NewForm.newColumn JS.Number st)
            = Some [[""; ""; ""]; [""; ""; ""]]) as Hgrid
      by (vm_compute; reflexivity).
    rewrite Hone in Hcols. rewrite Hgrid in Hdata.
    injection Hcols as Hcols. injection Hdata as <-.
    apply Forall_cons in Hall as [Hrow _]. simpl in Hrow. lia.
Qed.

Lemma addColumn_table_payload_witness :
  ∃ col next,
    NewForm._addColumn JS.Number tableDraft = NewForm.Added col next ∧
    NewForm.columns next = [col] ∧
    ColumnConfig.tableColumns col = Some (JS.Num 1) ∧
    ColumnConfig.tableRows col = Some (JS.Num 2) ∧
    ColumnConfig.tableColumnDefs col = Some [ColumnDef.mk "A" "text" None] ∧
    ColumnConfig.tableData col = Some [].
Proof.
  eexists _, _. split; [reflexivity|].
  destruct (addColumn_table_payload JS.Number tableDraft _ _ eq_refl)
    as (Hstored & Htable & _).
  destruct (Htable eq_refl)
    as (cols & _ & Hcols & _ & Hlen & Hrows & _ & Hdefs & _ & Hdata & _).
  split_and!; [exact Hstored|by rewrite Hcols, <- Hlen|exact Hrows|
               exact Hdefs|exact Hdata].
Defined.

(** C2, the code at the failing input.  [_addColumn] on [tableDraft] appends
    the field and empties the pending options, header names and cell grid,
    and leaves the pending column definition [A] in [tableColumnDefs]. *)
Theorem addColumn_keeps_tableColumnDefs :
  ∃ col next,
    NewForm._addColumn JS.Number tableDraft = NewForm.Added col next ∧
    NewForm.columns next = NewForm.columns tableDraft ++ [col] ∧
    NewForm.options next = [] ∧
    NewForm.tableHeaders next = [] ∧
    NewForm.tableData next = [] ∧
    NewForm.tableColumnDefs next = [ColumnDef.mk "A" "text" None].
Proof. eexists _, _. split; [reflexivity|]. by split_and!. Qed.

(** The handler of "Number of Columns" does empty both lists. *)
Lemma onChangeTableColumns_resets v st :
  NewForm.tableHeaders (NewForm.onChangeTableColumns v st) = [] ∧
  NewForm.tableColumnDefs (NewForm.onChangeTableColumns v st) = [].
Proof. done. Qed.

Lemma addField_choice_witness :
  NewForm.addField JS.Number (choiceDraft "Answer" "dropdown" [])
  = NewForm.Ignored ∧
  ∃ col next,
    NewForm.addField JS.Number (choiceDraft "Answer" "dropdown" ["Yes"])
    = NewForm.Added col next ∧
    ColumnConfig.options col = Some ["Yes"] ∧
    NewForm.columns next = [col] ∧
    NewForm.options next = [].
Proof.
  split.
  - apply (addField_choice JS.Number (choiceDraft "Answer" "dropdown" []));
      [by left|reflexivity].
  - apply (addField_choice JS.Number (choiceDraft "Answer" "dropdown" ["Yes"]));
      [by left|discriminate|discriminate].
Defined.

Lemma addColumn_internalName_witness :
  ∃ col next,
    NewForm._addColumn JS.Number (textDraft [] "Employee Name!" "" "")
    = NewForm.Added col next ∧
    NewForm.columns next = [col] ∧
    ColumnConfig.internalName col = "EmployeeName".
Proof.
  eexists _, _. split; [reflexivity|].
  destruct (addColumn_internalName JS.Number
              (textDraft [] "Employee Name!" "" "") _ _ eq_refl)
    as (Hstored & Hgenerated & _).
  split; [exact Hstored|exact (Hgenerated eq_refl)].
Defined.

Example addColumn_explicit_internalName :
  ColumnConfig.internalName
    (NewForm.newColumn JS.Number (textDraft [] "Employee Name!" "emp_name" ""))
  = "emp_name".
Proof. reflexivity. Qed.

Lemma addColumn_order_witness :
  ∃ col next,
    NewForm._addColumn JS.Number
      (textDraft [textColumn "a" 1; textColumn "b" 3] "c" "" "")
    = NewForm.Added col next ∧
    NewForm.columns next = [textColumn "a" 1; textColumn "b" 3; col] ∧
    ColumnConfig.order col = JS.Num 4.
Proof.
  eexists _, _. split; [reflexivity|].
  destruct (addColumn_order JS.Number
              (textDraft [textColumn "a" 1; textColumn "b" 3] "c" "" "")
              _ _ eq_refl)
    as (Hstored & _ & _ & Hmax).
  split; [exact Hstored|].
  destruct (Hmax eq_refl [1; 3] ltac:(discriminate) eq_refl)
    as (m & Hin & Hle & _ & Hsafe).
  assert (m = 3) as ->.
  { assert (3 ≤ m) as Hmax3.
    { apply Hle, elem_of_cons. right. apply elem_of_cons. by left. }
    apply elem_of_cons in Hin as [Hm|Hm]; [lia|].
    apply list_elem_of_singleton in Hm. exact Hm. }
  apply Hsafe. vm_compute. discriminate.
Defined.

(** C7, a counterexample to the claim as stated.  Over a field of order
    [2^53], which the order input delivers, the field added with no order
    has the order [2^53] again, not one more: [2^53 + 1] is no double and
    the sum is rounded.  After the events of [orderSession] the schema
    holds two fields of that one order. *)
Lemma addColumn_order_not_above :
  (∃ col next,
     NewForm._addColumn JS.Number
       (textDraft [textColumn "a" (2 ^ 53)] "b" "" "")
     = NewForm.Added col next ∧
     NewForm.columns next = [textColumn "a" (2 ^ 53); col] ∧
     ColumnConfig.order col = JS.Num (2 ^ 53) ∧
     ColumnConfig.order col ≠ JS.Num (2 ^ 53 + 1)) ∧
  ColumnConfig.order
    <$> NewForm.columns (NewForm.state (NewForm.run JS.Number orderSession))
  = [JS.Num (2 ^ 53); JS.Num (2 ^ 53)].
Proof.
  split; [|vm_compute; reflexivity].
  eexists _, _. split; [reflexivity|].
  split_and!; [reflexivity|vm_compute; reflexivity|vm_compute; discriminate].
Qed.

Example addColumn_order_1_3 :
  NewForm._addColumn JS.Number
    (textDraft [textColumn "a" 1; textColumn "b" 3] "c" "" "")
  = NewForm.Added
      (textColumn "c" 4)
      (textDraft [textColumn "a" 1; textColumn "b" 3; textColumn "c" 4]
         "" "" "").
Proof. reflexivity. Qed.

Example addColumn_explicit_order :
  ColumnConfig.order
    (NewForm.newColumn JS.Number
       (textDraft [textColumn "a" 1; textColumn "b" 3] "c" "" "2"))
  = JS.Num 2.
Proof. reflexivity. Qed.

(** ** The sort by [order] *)

Section Sorting.
Implicit Types (x y : ColumnConfig.t) (l : list ColumnConfig.t).
Local Arguments JS.gt : simpl never.

(** The comparator is positive exactly on two integer orders that descend. *)
Lemma byOrder_gt x y :
  JS.gt (byOrder x y) (JS.Num 0) = true ↔
  ∃ a b, ColumnConfig.order x = JS.Num a ∧ ColumnConfig.order y = JS.Num b
         ∧ b < a.
Proof.
  unfold byOrder, JS.gt, JS.lt, JS.sub.
  destruct (ColumnConfig.order x) as [|a], (ColumnConfig.order y) as [|b];
    try (split; [done|by intros (? & ? & ? & ? & ?)]).
  rewrite Z.ltb_lt, round_pos. split.
  - intros ?. exists a, b. split_and!; [done|done|lia].
  - intros (? & ? & ? & ? & ?). simplify_eq. lia.
Qed.

Lemma orderLe_trans x y z : orderLe x y → orderLe y z → orderLe x z.
Proof.
  unfold orderLe.
  destruct (ColumnConfig.order x), (ColumnConfig.order y),
    (ColumnConfig.order z); try done. lia.
Qed.

Lemma sort_insert_perm x l : JS.sort_insert byOrder x l ≡ₚ x :: l.
Proof.
  induction l as [|y l IH]; simpl; [done|].
  destruct (JS.gt (byOrder x y) (JS.Num 0)); [|done]. rewrite IH. apply Permutation_swap.
Qed.

Lemma sort_perm l : JS.sort byOrder l ≡ₚ l.
Proof.
  induction l as [|x l IH]; simpl; [done|].
  fold (JS.sort byOrder l). by rewrite sort_insert_perm, IH.
Qed.

(** Stability of one insertion: the fields of each order keep their
    sequence. *)
Lemma sort_insert_withOrder k x l :
  withOrder k (JS.sort_insert byOrder x l) = withOrder k (x :: l).
Proof.
  unfold withOrder. induction l as [|y l IH]; simpl; [done|].
  destruct (JS.gt (byOrder x y) (JS.Num 0)) eqn:Hgt; [|done].
  apply byOrder_gt in Hgt as (a & b & Hx & Hy & Hlt).
  rewrite !filter_cons in *.
  destruct (decide (ColumnConfig.order y = k)) as [Hk|Hk].
  - rewrite IH. destruct (decide (ColumnConfig.order x = k)); [|done].
    assert (a = b) by congruence. lia.
  - by rewrite IH.
Qed.

Lemma sort_withOrder k l : withOrder k (JS.sort byOrder l) = withOrder k l.
Proof.
  induction l as [|x l IH]; simpl; [done|]. fold (JS.sort byOrder l).
  rewrite sort_insert_withOrder. unfold withOrder in *.
  by rewrite !filter_cons, IH.
Qed.

Lemma sort_insert_sorted x l :
  isInteger (ColumnConfig.order x) →
  Forall (λ y, isInteger (ColumnConfig.order y)) l →
  StronglySorted orderLe l →
  StronglySorted orderLe (JS.sort_insert byOrder x l).
Proof.
  intros [a Hx] Hint Hsorted.
  induction l as [|y l IH]; simpl; [by repeat constructor|].
  apply Forall_cons in Hint as [[b Hy] Hint].
  apply StronglySorted_inv in Hsorted as [Hsorted Hle].
  destruct (JS.gt (byOrder x y) (JS.Num 0)) eqn:Hgt.
  - apply byOrder_gt in Hgt as (a' & b' & Ha' & Hb' & Hlt).
    constructor; [by apply IH|].
    rewrite sort_insert_perm. constructor; [|done].
    unfold orderLe. rewrite Ha', Hb'. lia.
  - assert (orderLe x y) as Hxy.
    { unfold orderLe. rewrite Hx, Hy.
      destruct (Z.le_gt_cases a b) as [|Hba]; [done|].
      assert (JS.gt (byOrder x y) (JS.Num 0) = true) as Hgt'; [|congruence].
      apply byOrder_gt. by exists a, b. }
    constructor; [by constructor|]. constructor; [done|].
    eapply Forall_impl; [exact Hle|]. intros z. by apply orderLe_trans.
Qed.

Lemma sort_sorted l :
  Forall (λ y, isInteger (ColumnConfig.order y)) l →
  StronglySorted orderLe (JS.sort byOrder l).
Proof.
  induction 1 as [|x l Hx Hl IH]; simpl; [constructor|].
  fold (JS.sort byOrder l). apply sort_insert_sorted; [done| |done].
  by rewrite sort_perm.
Qed.






End Sorting.

(** ** The JSON document *)

Section Documents.










End Documents.

(** ** [_submitForm] and [render]: the saved document *)

Section SavedDocument.
Implicit Types (st : NewForm.State) (formData : gmap string string).





(** [_submitForm] passes that document to the list store, once the form
    has a title and a field. *)
Lemma submitForm_saves st :
  JS.trim (NewForm.formTitle st) ≠ "" → NewForm.columns st ≠ [] →
  NewForm._submitForm st
  = NewForm.ItemsAdd (NewForm.formTitle st) (NewForm.finalJson st) "Active".
Proof.
  intros Htitle Hcols. unfold NewForm._submitForm.
  destruct (JS.trim (NewForm.formTitle st)); [done|].
  by destruct (NewForm.columns st).
Qed.

End SavedDocument.


Example submitForm_document :
  NewForm._submitForm
    (NewForm.onChangeFormTitle "Leave"
       (textDraft [textColumn "b" 2; textColumn "a" 1] "" "" ""))
  = NewForm.ItemsAdd "Leave"
      (JSON.JObject
         [("formTitle", JSON.JString "Leave");
          ("description", JSON.JString "");
          ("fields",
            JSON.JArray
              [JSON.JObject
                 [("label", JSON.JString "a");
                  ("internalName", JSON.JString "a");
                  ("type", JSON.JString "text");
                  ("required", JSON.JBool false);
                  ("order", JSON.JNumber 1)];
               JSON.JObject
                 [("label", JSON.JString "b");
                  ("internalName", JSON.JString "b");
                  ("type", JSON.JString "text");
                  ("required", JSON.JBool false);
                  ("order", JSON.JNumber 2)]])])
      "Active".
Proof. reflexivity. Qed.

(** ** [renderDynamicField] *)

(** *** The grids that the renderer shows *)

Lemma tabulate_length {A} n (f : nat → A) :
  length (Eform.tabulate n f) = JS.ToLength n.
Proof. unfold Eform.tabulate. by rewrite length_fmap, length_seq. Qed.

Lemma tabulate_lookup {A} n (f : nat → A) i :
  (i < JS.ToLength n)%nat → Eform.tabulate n f !! i = Some (f i).
Proof.
  intros Hi. unfold Eform.tabulate.
  by rewrite list_lookup_fmap, lookup_seq_lt.
Qed.

(** Both table renderers show [tableRows] rows of [tableColumns] cells,
    whatever the shape of the stored [tableData]; cell [(r, c)] of the
    read-only grid is [displayValue] and that of the fill-in grid is
    [renderCell]. *)
Lemma rendered_grid formData field r c :
  (r < JS.ToLength (Eform.orZero (ColumnConfig.tableRows field)))%nat →
  (c < JS.ToLength (Eform.orZero (ColumnConfig.tableColumns field)))%nat →
  (∃ caption headers body,
     Eform.renderHtmlTable formData field
     = Eform.EditableTable (ColumnConfig.internalName field) caption headers
         body ∧
     length body = JS.ToLength (Eform.orZero (ColumnConfig.tableRows field)) ∧
     JS.cellAt body r c = Some (Eform.renderCell formData field r c)) ∧
  (∃ caption headers body,
     Eform.renderHtmlRender field
     = Eform.ReadOnlyTable (ColumnConfig.internalName field) caption headers
         body ∧
     length body = JS.ToLength (Eform.orZero (ColumnConfig.tableRows field)) ∧
     JS.cellAt body r c = Some (Eform.displayValue field r c)).
Proof.
  intros Hr Hc. split; eexists _, _, _; (split; [reflexivity|]);
    (split; [apply tabulate_length|]); unfold JS.cellAt;
    rewrite tabulate_lookup by done; simpl; by rewrite tabulate_lookup.
Qed.

Lemma falsy_storedVal formData field r c :
  unsetOrEmpty formData field r c →
  Eform.falsy (Eform.storedVal formData field r c) = true.
Proof.
  unfold Eform.storedVal. intros [->|[-> Hempty]]; [done|].
  unfold storedEmpty, JS.cellAt in Hempty.
  destruct (ColumnConfig.tableData field) as [data|]; [|done].
  specialize (Hempty data). destruct (data !! r) as [row|]; [|done].
  simpl in *. destruct (row !! c) as [v|]; [|done].
  by rewrite (Hempty v).
Qed.

Lemma cellValue_storedEmpty field r c :
  storedEmpty field r c → Eform.cellValue field r c = "".
Proof.
  unfold storedEmpty, Eform.cellValue, JS.cellAt. intros Hempty.
  destruct (ColumnConfig.tableData field) as [data|]; [|done].
  specialize (Hempty data). simpl in *.
  destruct (data !! r) as [row|]; [|done].
  simpl in *. destruct (row !! c) as [v|]; [|done]. simpl. by apply Hempty.
Qed.

(** C8. A [yesno] cell whose value is unset or empty has the value
    ["false"].  For an [htmltable] field, [renderDynamicField] returns the
    fill-in grid, and the cell of every row and column of that grid whose
    column is a [yesno] column and whose value is unset or empty is an
    unchecked yes/no input, [val] being ["false"].  For an [htmlrender]
    field it returns the read-only grid, and the cell of every row and
    column of that grid whose column is a [yesno] column and whose stored
    value is missing or empty shows ["false"]. *)
Theorem yesno_cell_false formData field r c :
  (r < JS.ToLength (Eform.orZero (ColumnConfig.tableRows field)))%nat →
  (c < JS.ToLength (Eform.orZero (ColumnConfig.tableColumns field)))%nat →
  (ColumnConfig.type field = "htmltable" →
   ColumnDef.type (Eform.cellDef field c) = "yesno" →
   unsetOrEmpty formData field r c →
   Eform.cellVal formData field r c = Some "false" ∧
   ∃ caption headers body,
     Eform.renderDynamicField formData field
     = Eform.returns
         (Eform.EditableTable (ColumnConfig.internalName field) caption
            headers body) ∧
     JS.cellAt body r c
     = Some (Eform.YesNoInput (Eform.cellName field r c) false)) ∧
  (ColumnConfig.type field = "htmlrender" →
   ColumnDef.type (Eform.renderColDef field c) = "yesno" →
   storedEmpty field r c →
   ∃ caption headers body,
     Eform.renderDynamicField formData field
     = Eform.returns
         (Eform.ReadOnlyTable (ColumnConfig.internalName field) caption
            headers body) ∧
     JS.cellAt body r c = Some "false").
Proof.
  intros Hr Hc.
  destruct (rendered_grid formData field r c Hr Hc) as [Htable Hrender].
  split.
  - intros Hfield Htype Hunset%falsy_storedVal.
    assert (Eform.cellVal formData field r c = Some "false") as Hval.
    { unfold Eform.cellVal. by rewrite Htype, Hunset. }
    split; [done|].
    destruct Htable as (caption & headers & body & Hgrid & _ & Hcell).
    exists caption, headers, body. split.
    + unfold Eform.renderDynamicField. rewrite Hfield. simpl.
      by rewrite Hgrid.
    + rewrite Hcell. unfold Eform.renderCell. by rewrite Hval, Htype.
  - intros Hfield Htype Hempty%cellValue_storedEmpty.
    destruct Hrender as (caption & headers & body & Hgrid & _ & Hcell).
    exists caption, headers, body. split.
    + unfold Eform.renderDynamicField. rewrite Hfield. simpl.
      by rewrite Hgrid.
    + rewrite Hcell. unfold Eform.displayValue. by rewrite Htype, Hempty.
Qed.

Lemma yesno_cell_false_witness :
  (∃ caption headers body,
     Eform.renderDynamicField ∅ (yesnoTable "htmltable" None)
     = Eform.returns (Eform.EditableTable "Tasks" caption headers body) ∧
     JS.cellAt body 0 0 = Some (Eform.YesNoInput "Tasks-0-0" false)) ∧
  (∃ caption headers body,
     Eform.renderDynamicField ∅
       (yesnoTable "htmlrender" (Some [["true"]; [""]]))
     = Eform.returns (Eform.ReadOnlyTable "Tasks" caption headers body) ∧
     JS.cellAt body 1 0 = Some "false").
Proof.
  split.
  - destruct (yesno_cell_false ∅ (yesnoTable "htmltable" None) 0 0)
      as [Htable _]; [vm_compute; lia|vm_compute; lia|].
    destruct Htable as [_ Hshown]; [reflexivity|reflexivity| |exact Hshown].
    right. split; [reflexivity|]. intros data v Hdata. discriminate Hdata.
  - destruct (yesno_cell_false ∅
                (yesnoTable "htmlrender" (Some [["true"]; [""]])) 1 0)
      as [_ Hrender]; [vm_compute; lia|vm_compute; lia|].
    apply Hrender; [reflexivity|reflexivity|].
    intros data v [= <-] [= <-]. reflexivity.
Defined.

Example yesno_htmltable_rendered :
  Eform.renderDynamicField ∅ (yesnoTable "htmltable" None)
  = Eform.returns
      (Eform.EditableTable "Tasks" (Some "Tasks") ["Done"]
         [[Eform.YesNoInput "Tasks-0-0" false];
          [Eform.YesNoInput "Tasks-1-0" false]]).
Proof. reflexivity. Qed.

Example yesno_htmlrender_rendered :
  Eform.renderDynamicField ∅ (yesnoTable "htmlrender" (Some [["true"]; [""]]))
  = Eform.returns
      (Eform.ReadOnlyTable "Tasks" (Some "Tasks") ["Done"]
         [["true"]; ["false"]]).
Proof. reflexivity. Qed.

Lemma caseLabels_elem (type : string) :
  type ∈ Eform.caseLabels ↔
  Exists (λ label, String.eqb type label = true) Eform.caseLabels.
Proof.
  rewrite Exists_exists. split.
  - intros Hin. exists type. split; [done|]. by apply String.eqb_eq.
  - by intros (label & Hin & ->%String.eqb_eq).
Qed.

(** C9. For a field whose [type] is none of the [case] labels,
    [renderDynamicField] writes one warning that names the type and returns
    [null]: it is a total function, no input makes it fail. *)
Theorem renderDynamicField_unknown formData field :
  ColumnConfig.type field ∉ Eform.caseLabels →
  Eform.renderDynamicField formData field
  = Eform.mkRendered
      ["Unsupported field type: " +:+ ColumnConfig.type field] None.
Proof.
  rewrite caseLabels_elem. unfold Eform.caseLabels.
  rewrite !Exists_cons, Exists_nil. intros Hnot.
  unfold Eform.renderDynamicField.
  repeat match goal with
         | |- context [String.eqb ?a ?b] =>
             destruct (String.eqb a b); [exfalso; apply Hnot; tauto|]
         end.
  done.
Qed.

Lemma renderDynamicField_unknown_witness :
  Eform.renderDynamicField ∅ (textColumn "Owner" 1)
  <> Eform.mkRendered ["Unsupported field type: text"] None ∧
  Eform.renderDynamicField ∅
    (ColumnConfig.mk "Owner" "Owner" "unknown" false (JS.Num 1)
       None None None None None None None None)
  = Eform.mkRendered ["Unsupported field type: unknown"] None.
Proof.
  split; [discriminate|].
  apply (renderDynamicField_unknown ∅
           (ColumnConfig.mk "Owner" "Owner" "unknown" false (JS.Num 1)
              None None None None None None None None)).
  unfold Eform.caseLabels. rewrite !elem_of_cons, elem_of_nil.
  intros H. repeat (destruct H as [H|H]; [discriminate H|]). exact H.
Defined.

(** A registered kind of the builder that the renderer has no [case] for. *)
Example renderDynamicField_person :
  Eform.renderDynamicField ∅
    (ColumnConfig.mk "Owner" "Owner" "person" false (JS.Num 1)
       None None None None None None None None)
  = Eform.mkRendered ["Unsupported field type: person"] None.
Proof. reflexivity. Qed.

(** A field of one of the [case] labels is rendered without a warning. *)
Lemma renderDynamicField_known formData field :
  ColumnConfig.type field ∈ Eform.caseLabels →
  ∃ control,
    Eform.renderDynamicField formData field = Eform.returns control.
Proof.
  unfold Eform.caseLabels. rewrite !elem_of_cons, elem_of_nil.
  unfold Eform.renderDynamicField.
  intros H. repeat (destruct H as [->|H]; [by eexists|]). done.
Qed.

(** * Further properties *)

(** ** [trim] *)

Section Trim.
Implicit Types (s : string) (l : list ascii).

Lemma rev_app_chars s1 s2 :
  String.rev_app s1 s2
  = string_of_list_ascii
      (rev (list_ascii_of_string s1) ++ list_ascii_of_string s2).
Proof.
  revert s2. induction s1 as [|a s1 IH]; intros s2; simpl.
  - by rewrite string_of_list_ascii_of_string.
  - rewrite IH. simpl. by rewrite <- app_assoc.
Qed.

Lemma rev_chars s :
  list_ascii_of_string (String.rev s) = rev (list_ascii_of_string s).
Proof.
  unfold String.rev. rewrite rev_app_chars. simpl.
  by rewrite app_nil_r, list_ascii_of_string_of_list_ascii.
Qed.

Lemma trimStart_chars s :
  list_ascii_of_string (JS.trimStart s) = dropSpaces (list_ascii_of_string s).
Proof.
  induction s as [|a s IH]; simpl; [done|]. by destruct (JS.isWhiteSpace a).
Qed.

Lemma trim_chars s :
  list_ascii_of_string (JS.trim s)
  = rev (dropSpaces (rev (dropSpaces (list_ascii_of_string s)))).
Proof.
  unfold JS.trim. by rewrite rev_chars, trimStart_chars, rev_chars,
    trimStart_chars.
Qed.

Lemma dropSpaces_suffix l : ∃ spaces, l = spaces ++ dropSpaces l.
Proof.
  induction l as [|a l [spaces IH]]; simpl; [by exists []|].
  destruct (JS.isWhiteSpace a); [|by exists []].
  exists (a :: spaces). simpl. by rewrite <- IH.
Qed.

Lemma dropSpaces_idemp l : dropSpaces (dropSpaces l) = dropSpaces l.
Proof.
  induction l as [|a l IH]; simpl; [done|].
  destruct (JS.isWhiteSpace a) eqn:Ha; [done|]. simpl. by rewrite Ha.
Qed.

Lemma dropSpaces_head l a l' :
  dropSpaces l = a :: l' → JS.isWhiteSpace a = false.
Proof.
  induction l as [|b l IH]; simpl; [done|].
  destruct (JS.isWhiteSpace b) eqn:Hb; [done|]. by intros [= <- _].
Qed.

Lemma dropSpaces_clean a l :
  JS.isWhiteSpace a = false → dropSpaces (a :: l) = a :: l.
Proof. simpl. by intros ->. Qed.

(** Trimming the end of a list that starts clean keeps its start clean. *)
Lemma dropSpaces_rev_clean l :
  dropSpaces l = l → dropSpaces (rev (dropSpaces (rev l))) = rev (dropSpaces (rev l)).
Proof.
  intros Hclean.
  destruct (dropSpaces_suffix (rev l)) as [spaces Hsplit].
  destruct (rev (dropSpaces (rev l))) as [|a x] eqn:Hx; [done|].
  apply dropSpaces_clean.
  assert (l = (a :: x) ++ rev spaces) as Hl.
  { rewrite <- Hx, <- rev_app_distr, <- Hsplit. by rewrite rev_involutive. }
  rewrite Hl in Hclean. simpl in Hclean.
  destruct (JS.isWhiteSpace a) eqn:Ha; [|done].
  exfalso. destruct (dropSpaces_suffix (x ++ rev spaces)) as [sp Hsp].
  rewrite Hclean in Hsp. apply (f_equal length) in Hsp.
  rewrite !length_app in Hsp. simpl in Hsp. rewrite !length_app in Hsp. lia.
Qed.

(** [trim] is idempotent. *)
Lemma trim_idemp s : JS.trim (JS.trim s) = JS.trim s.
Proof.
  rewrite <- (string_of_list_ascii_of_string (JS.trim (JS.trim s))).
  rewrite <- (string_of_list_ascii_of_string (JS.trim s)) at 2.
  f_equal. rewrite (trim_chars (JS.trim s)), trim_chars.
  set (u := dropSpaces (list_ascii_of_string s)).
  assert (dropSpaces u = u) as Hu by apply dropSpaces_idemp.
  rewrite (dropSpaces_rev_clean u Hu), rev_involutive.
  by rewrite dropSpaces_idemp.
Qed.

(** What [trim] returns, when it is not empty, is trimmed. *)
Lemma trim_trimmed s : JS.isEmpty (JS.trim s) = false → trimmed (JS.trim s).
Proof.
  intros Hs. split; [|apply trim_idemp]. by destruct (JS.trim s).
Qed.

Lemma trimmed_not_blank s : trimmed s → JS.trim s ≠ "".
Proof. by intros [? ->]. Qed.

End Trim.

(** ** The builder as a state machine *)

Section Arrays2.
Context {A : Type}.
Implicit Types (l : list A).

Lemma filter_index_go_delete i index l :
  JS.filter_index_go i index l
  = if decide (i ≤ index)%nat then delete (index - i)%nat l else l.
Proof.
  revert i. induction l as [|x l IH]; intros i; simpl.
  - by case_decide.
  - destruct (Nat.eqb_spec i index) as [->|Hne].
    + rewrite IH, decide_False, decide_True by lia.
      by replace (index - index)%nat with O by lia.
    + rewrite IH. destruct (decide (i ≤ index)%nat) as [Hle|Hgt].
      * rewrite decide_True by lia.
        replace (index - i)%nat with (S (index - S i)) by lia. done.
      * by rewrite decide_False by lia.
Qed.

(** [arr.filter((_, i) => i !== index)] deletes the entry at [index]. *)
Lemma filter_index_ne_delete index l :
  JS.filter_index_ne index l = delete index l.
Proof.
  unfold JS.filter_index_ne. rewrite filter_index_go_delete.
  rewrite decide_True by lia. by rewrite Nat.sub_0_r.
Qed.

Lemma delete_ge index l : (length l ≤ index)%nat → delete index l = l.
Proof.
  revert index. induction l as [|x l IH]; intros [|index] Hlen;
    simpl in *; try done; try lia.
  f_equal. apply IH. lia.
Qed.

Lemma delete_length_le index l : (length (delete index l) ≤ length l)%nat.
Proof.
  destruct (decide (index < length l)%nat) as [Hlt|Hge].
  - rewrite length_delete by (by apply lookup_lt_is_Some_2). lia.
  - rewrite delete_ge by lia. done.
Qed.

End Arrays2.

(** Membership in a list of string literals, by evaluation. *)
Ltac in_list := apply (bool_decide_unpack _); vm_compute; exact I.

Lemma includes_elem s l : JS.includes s l = true → s ∈ l.
Proof.
  unfold JS.includes. intros (x & Hx & ->%String.eqb_eq)%existsb_exists.
  by apply list_elem_of_In.
Qed.

Section Machine.
Variable Number : string → JS.number.
Implicit Types (st : NewForm.State) (s : NewForm.Session) (ev : NewForm.Event).

(** The invariant of the pending inputs reads seven properties of the
    state. *)
Lemma pendingOK_agree st st' :
  NewForm.options st' = NewForm.options st →
  NewForm.currentHeaderOptions st' = NewForm.currentHeaderOptions st →
  NewForm.currentHeaderType st' = NewForm.currentHeaderType st →
  NewForm.newColumnType st' = NewForm.newColumnType st →
  NewForm.tableColumnDefs st' = NewForm.tableColumnDefs st →
  NewForm.tableHeaders st' = NewForm.tableHeaders st →
  NewForm.tableColumns st' = NewForm.tableColumns st →
  pendingOK Number st → pendingOK Number st'.
Proof. unfold pendingOK. by intros -> -> -> -> -> -> ->. Qed.

Lemma setTableCell_agree st r c value :
  ∃ newData,
    NewForm._setTableCell Number r c value st
    = Some (NewForm.setTableData newData st).
Proof.
  destruct (setTableCellData_cells Number st r c value) as (newData & Hset & _).
  exists newData. unfold NewForm._setTableCell. by rewrite Hset.
Qed.

Lemma initial_sessionOK :
  sessionOK Number (NewForm.mkSession NewForm.initialState 0).
Proof.
  split; [|by constructor]. unfold pendingOK. simpl.
  split_and!; try done; try (by constructor); in_list.
Qed.

Ltac pending_agree H :=
  eapply pendingOK_agree; [reflexivity..|exact H].

Lemma addChoice_pendingOK st :
  pendingOK Number st → pendingOK Number (NewForm._addChoice st).
Proof.
  intros H. unfold NewForm._addChoice.
  destruct (JS.isEmpty (JS.trim (NewForm.newChoiceValue st))) eqn:Hv; [done|].
  destruct H as (Hopt & H). split; [|exact H]. simpl.
  apply Forall_app. split; [done|]. constructor; [|done]. by apply trim_trimmed.
Qed.

Lemma onChangeColumnType_pendingOK key st :
  key ∈ NewForm.columnTypes →
  pendingOK Number st → pendingOK Number (NewForm.onChangeColumnType key st).
Proof.
  intros Hkey (Hopt & Hhopt & HK & Hhtype & Htype & Hdefs & Hheaders & Hstep
          & Hcount).
  unfold pendingOK. simpl.
  split_and!; try done; by constructor.
Qed.

Lemma onChangeHeaderType_pendingOK key st :
  key ∈ NewForm.headerTypes →
  pendingOK Number st → pendingOK Number (NewForm.onChangeHeaderType key st).
Proof.
  intros Hkey (Hopt & Hhopt & HK & Hhtype & Htype & Hdefs & Hheaders & Hstep
          & Hcount).
  unfold pendingOK. simpl.
  split_and!; try done. apply elem_of_cons. by right.
Qed.

Lemma addHeaderOption_pendingOK st :
  NewForm.isChoiceType (NewForm.currentHeaderType st) = true →
  pendingOK Number st → pendingOK Number (NewForm._addHeaderOption st).
Proof.
  intros Hchoice H. unfold NewForm._addHeaderOption.
  destruct (JS.isEmpty (JS.trim (NewForm.currentHeaderOptionInput st)))
    eqn:Hv; [done|].
  destruct H as (Hopt & Hhopt & HK & Hhtype & Htype & Hdefs & Hheaders & Hstep
          & Hcount).
  unfold pendingOK. simpl.
  split_and!; try done.
  - apply Forall_app. split; [done|]. constructor; [|done].
    by apply trim_trimmed.
  - intros Hno. congruence.
Qed.

Lemma removeHeaderOption_pendingOK idx st :
  NewForm.isChoiceType (NewForm.currentHeaderType st) = true →
  pendingOK Number st → pendingOK Number (NewForm._removeHeaderOption idx st).
Proof.
  intros Hchoice (Hopt & Hhopt & HK & Hhtype & Htype & Hdefs & Hheaders & Hstep
          & Hcount).
  unfold pendingOK. simpl.
  split_and!; try done.
  - rewrite filter_index_ne_delete. by apply Forall_delete.
  - intros Hno. congruence.
Qed.

Lemma onChangeTableColumns_pendingOK v st :
  pendingOK Number st →
  pendingOK Number (NewForm.onChangeTableColumns v st) ∧
  pendingOK Number (NewForm.onChangeRenderColumns Number v st).
Proof.
  intros (Hopt & _ & _ & _ & Htype & _). unfold pendingOK. simpl.
  split; (split_and!; try done; try (by constructor); try (by right);
          try (by right; left); by apply elem_of_cons; left).
Qed.

Lemma resetAfterAdd_pendingOK col st :
  pendingOK Number st → pendingOK Number (NewForm.resetAfterAdd col st).
Proof.
  intros (Hopt & Hhopt & HK & Hhtype & Htype & Hdefs & Hheaders & Hstep
          & Hcount).
  unfold pendingOK. simpl. split_and!; try done; try (by constructor); by left.
Qed.

Lemma resetAfterSubmit_pendingOK st :
  pendingOK Number st → pendingOK Number (NewForm.resetAfterSubmit st).
Proof.
  intros (Hopt & Hhopt & HK & Hhtype & Htype & Hdefs & Hheaders & Hstep
          & Hcount).
  unfold pendingOK. simpl.
  split_and!; try done; try (by constructor); try (by left); try in_list.
Qed.

Lemma removeTableHeader_pendingOK i st :
  pendingOK Number st → pendingOK Number (NewForm._removeTableHeader i st).
Proof.
  intros (Hopt & Hhopt & HK & Hhtype & Htype & Hdefs & Hheaders & Hstep
          & Hcount).
  unfold pendingOK. simpl. rewrite !filter_index_ne_delete.
  split_and!; try done; try (by apply Forall_delete).
  - destruct Hstep as [?|Hstep]; [by left|right].
    by rewrite Hstep, list_fmap_delete.
  - destruct Hcount as [?|[Hnil|(z & Hz & Hle)]]; [by left| |].
    + right. left. by rewrite Hnil.
    + right. right. exists z. split; [done|].
      pose proof (delete_length_le i (NewForm.tableColumnDefs st)). lia.
Qed.

Lemma addTableHeader_pendingOK st :
  NewForm.headerPanel Number st = true →
  NewForm.addHeaderDisabled Number st = false →
  pendingOK Number st → pendingOK Number (NewForm._addTableHeader st).
Proof.
  intros Hpanel Hdisabled H. unfold NewForm._addTableHeader.
  destruct (JS.isEmpty (JS.trim (NewForm.currentHeaderInput st))) eqn:Hv;
    [done|].
  destruct H as (Hopt & Hhopt & HK & Hhtype & Htype & Hdefs & Hheaders & Hstep
                 & Hcount).
  unfold NewForm.headerPanel in Hpanel.
  apply andb_true_iff in Hpanel as [Hcols Hpos].
  unfold NewForm.addHeaderDisabled in Hdisabled.
  apply orb_false_iff in Hdisabled as [Hfull Hguard].
  assert (NewForm.tableColumns st ≠ "") as Hne.
  { intros Heq. by rewrite Heq in Hcols. }
  pose proof (trim_trimmed _ Hv) as Hname.
  unfold pendingOK. simpl. split_and!; try done; try (by constructor).
  - in_list.
  - apply Forall_app. split; [done|]. constructor; [|done].
    split; [done|]. simpl. split.
    + destruct (NewForm.currentHeaderType st) eqn:Htype'; simpl; [in_list|].
      rewrite <- Htype'. rewrite <- Htype' in Hhtype.
      apply elem_of_cons in Hhtype as [Hempty|?]; [|done].
      by rewrite Htype' in Hempty.
    + assert (NewForm.isChoiceType
                (if JS.isEmpty (NewForm.currentHeaderType st) then "text"
                 else NewForm.currentHeaderType st)
              = NewForm.isChoiceType (NewForm.currentHeaderType st)) as ->.
      { by destruct (NewForm.currentHeaderType st). }
      destruct (NewForm.currentHeaderOptions st) as [|o opts] eqn:Hopts;
        simpl.
      * simpl in Hguard. by rewrite andb_true_r in Hguard.
      * split_and!; [|done|done].
        destruct (NewForm.isChoiceType (NewForm.currentHeaderType st))
          eqn:Hchoice; [done|]. by specialize (HK eq_refl).
  - apply Forall_app. split; [done|]. by constructor.
  - right. destruct Hstep as [?|Hstep]; [done|].
    by rewrite fmap_app, Hstep.
  - right. right.
    destruct (Number (NewForm.tableColumns st)) as [|z] eqn:Hz; [done|].
    exists z. split; [done|]. rewrite length_app. simpl.
    unfold JS.ge, JS.of_nat in Hfull. apply Z.leb_gt in Hfull. lia.
Qed.

(** Every event keeps the pending inputs consistent. *)
Lemma fire_pendingOK s ev :
  pendingOK Number (NewForm.state s) →
  pendingOK Number (NewForm.state (NewForm.fire Number s ev)).
Proof.
  intros H. unfold NewForm.fire.
  destruct (NewForm.enabled Number ev s) eqn:Hen; [|done].
  destruct s as [st pending]. simpl in H.
  destruct ev; simpl in Hen |- *; try (pending_agree H).
  - apply onChangeColumnType_pendingOK; [|done].
    apply andb_true_iff in Hen as [_ Hkey]. by apply includes_elem.
  - by apply addChoice_pendingOK.
  - destruct (onChangeTableColumns_pendingOK v st H).
    by destruct (String.eqb _ _).
  - apply onChangeHeaderType_pendingOK; [|done].
    apply andb_true_iff in Hen as [_ Hkey]. by apply includes_elem.
  - apply addHeaderOption_pendingOK; [|done].
    by apply andb_true_iff in Hen as [_ ?].
  - apply removeHeaderOption_pendingOK; [|done].
    apply andb_true_iff in Hen as [Hen _].
    by apply andb_true_iff in Hen as [_ ?].
  - apply andb_true_iff in Hen as [Hen Hdisabled].
    apply andb_true_iff in Hen as [_ Hpanel].
    apply addTableHeader_pendingOK; [done| |done].
    by apply negb_true_iff.
  - by apply removeTableHeader_pendingOK.
  - destruct (setTableCell_agree st r c value) as [newData ->]. simpl.
    pending_agree H.
  - destruct (NewForm.addField Number st) as [| |col next] eqn:Hadd;
      simpl; [done|done|].
    apply addField_Added, addColumn_Added in Hadd as (_ & _ & _ & ->).
    by apply resetAfterAdd_pendingOK.
  - by destruct (NewForm._submitForm st).
  - by apply resetAfterSubmit_pendingOK.
Qed.

Lemma newColumn_no_table st :
  NewForm.newColumnType st ≠ "htmltable" →
  NewForm.newColumnType st ≠ "htmlrender" →
  ColumnConfig.tableName (NewForm.newColumn Number st) = None ∧
  ColumnConfig.tableRows (NewForm.newColumn Number st) = None ∧
  ColumnConfig.tableColumns (NewForm.newColumn Number st) = None ∧
  ColumnConfig.tableHeaders (NewForm.newColumn Number st) = None ∧
  ColumnConfig.tableColumnDefs (NewForm.newColumn Number st) = None ∧
  ColumnConfig.tableData (NewForm.newColumn Number st) = None.
Proof.
  intros Htable Hrender. unfold NewForm.newColumn, NewForm.when.
  destruct (String.eqb_spec (NewForm.newColumnType st) "htmltable"); [done|].
  destruct (String.eqb_spec (NewForm.newColumnType st) "htmlrender"); [done|].
  by destruct (NewForm.isChoiceType _), (String.eqb _ "plainhtml").
Qed.

Lemma newColumn_htmlContent st :
  is_Some (ColumnConfig.htmlContent (NewForm.newColumn Number st))
  ↔ NewForm.newColumnType st = "plainhtml".
Proof.
  unfold NewForm.newColumn, NewForm.when.
  destruct (String.eqb_spec (NewForm.newColumnType st) "plainhtml")
    as [Heq|Hne].
  - rewrite Heq. simpl. split; [done|]. by eexists.
  - destruct (NewForm.isChoiceType _), (String.eqb _ "htmltable"),
      (String.eqb _ "htmlrender"); simpl;
      (split; [by intros [? [=]]|done]).
Qed.

(** The table checks of [_addColumn], read off an accepted draft. *)
Lemma tableAlert_None st :
  NewForm.newColumnType st = "htmltable" →
  NewForm.tableAlert Number st = None →
  JS.trim (NewForm.tableName st) ≠ "" ∧
  NewForm.tableColumns st ≠ "" ∧
  JS.lt (Number (NewForm.tableRows st)) (JS.Num 1) = false ∧
  ∃ z, Number (NewForm.tableColumns st) = JS.Num z ∧ 1 ≤ z ∧
       Z.of_nat (length (NewForm.tableHeaders st)) = z.
Proof.
  intros Htype. unfold NewForm.tableAlert. rewrite Htype. simpl.
  destruct (JS.trim (NewForm.tableName st)) eqn:Hname; [done|]. simpl.
  destruct (NewForm.tableRows st); [done|]. simpl.
  destruct (JS.lt (Number _) _) eqn:Hrows; [done|].
  destruct (NewForm.tableColumns st) eqn:Hcols; [done|]. simpl.
  rewrite <- Hcols.
  destruct (Number (NewForm.tableColumns st)) as [|z]; [done|]. simpl.
  destruct (Z.ltb_spec z 1); [done|].
  destruct (Z.eqb_spec (Z.of_nat (length (NewForm.tableHeaders st))) z);
    [|done].
  intros _. split_and!; try done. by rewrite Hcols. by exists z.
Qed.

(** A field accepted through the button, on consistent pending inputs, is
    well formed. *)
Lemma addField_fieldOK st col next :
  pendingOK Number st →
  NewForm.addField Number st = NewForm.Added col next →
  fieldOK col.
Proof.
  intros (Hopt & Hhopt & HK & Hhtype & Htype & Hdefs & Hheaders & Hstep
          & Hcount) Hadd.
  assert (NewForm.addColumnDisabled Number st = false) as Hguard.
  { unfold NewForm.addField in Hadd.
    by destruct (NewForm.addColumnDisabled Number st). }
  apply addField_Added, addColumn_Added in Hadd as (Hlabel & Halert & -> & _).
  destruct (newColumn_base Number st) as (Hl & _ & Ht & _).
  unfold fieldOK. rewrite Hl, Ht, newColumn_options.
  split_and!.
  - by destruct (JS.trim (NewForm.newColumnName st)).
  - done.
  - destruct (NewForm.isChoiceType (NewForm.newColumnType st)) eqn:Hchoice;
      [|done].
    split_and!; [done| |done].
    unfold NewForm.addColumnDisabled in Hguard. rewrite Hchoice in Hguard.
    destruct (NewForm.options st); [|done].
    simpl in Hguard. by rewrite orb_true_r in Hguard.
  - intros Htable.
    destruct (tableAlert_None st Htable Halert)
      as (Hname & Hcols & Hrows & z & Hz & Hpos & Hlen).
    rewrite newColumn_htmltable by done. unfold tableOK. simpl.
    destruct Hstep as [?|Hstep]; [done|].
    exists (NewForm.tableName st), z, (NewForm.tableColumnDefs st),
      (Number (NewForm.tableRows st)), (NewForm.tableData st).
    rewrite Hz. split_and!; try done.
    by rewrite <- Hlen, Hstep, length_fmap.
  - intros Hrender. rewrite newColumn_htmlrender by done. simpl.
    by eexists.
  - apply newColumn_no_table.
  - apply newColumn_htmlContent.
Qed.

(** Every event keeps the schema well formed. *)
Lemma fire_sessionOK s ev :
  sessionOK Number s → sessionOK Number (NewForm.fire Number s ev).
Proof.
  intros [Hpending Hfields]. split; [by apply fire_pendingOK|].
  unfold NewForm.fire.
  destruct (NewForm.enabled Number ev s) eqn:Hen; [|done].
  destruct s as [st pending]. simpl in Hpending, Hfields.
  destruct ev; simpl; try done;
    try (unfold NewForm._addChoice, NewForm._addHeaderOption,
           NewForm._addTableHeader;
         by match goal with |- context [JS.isEmpty ?x] =>
              destruct (JS.isEmpty x) end).
  - by destruct (String.eqb _ _).
  - by destruct (setTableCell_agree st r c value) as [newData ->].
  - destruct (NewForm.addField Number st) as [| |col next] eqn:Hadd;
      simpl; [done|done|].
    pose proof (addField_fieldOK st col next Hpending Hadd) as Hcol.
    apply addField_Added, addColumn_Added in Hadd as (_ & _ & _ & ->).
    simpl. apply Forall_app. split; [done|]. by constructor.
  - by destruct (NewForm._submitForm st).
Qed.

(** The invariant holds after every sequence of events. *)
Lemma run_sessionOK evs : sessionOK Number (NewForm.run Number evs).
Proof.
  unfold NewForm.run.
  induction evs as [|ev evs IH] using rev_ind; simpl;
    [apply initial_sessionOK|].
  rewrite foldl_app. simpl. by apply fire_sessionOK.
Qed.

(** X1. After every sequence of events, every pending choice option,
    every pending header option and every pending header name is trimmed:
    none is blank and none has white space around it. *)
Theorem run_pending_trimmed evs :
  Forall trimmed (NewForm.options (NewForm.state (NewForm.run Number evs))) ∧
  Forall trimmed
    (NewForm.currentHeaderOptions (NewForm.state (NewForm.run Number evs))) ∧
  Forall trimmed
    (NewForm.tableHeaders (NewForm.state (NewForm.run Number evs))).
Proof.
  destruct (run_sessionOK evs)
    as [(Hopt & Hhopt & _ & _ & _ & _ & Hheaders & _) _].
  done.
Qed.

(** X2. After every sequence of events, when a number of columns is
    entered, the pending header names are the names of the pending column
    definitions, in their sequence.  When [Number(tableColumns)] is a
    whole number there are no more definitions than that number, and when
    it is [NaN] there is none.  (For a number of columns with a fraction,
    which [JS.number] does not hold, "Add Header" stays enabled until the
    definitions outnumber it: the statement is on whole numbers.) *)
Theorem run_headers_in_step evs st :
  st = NewForm.state (NewForm.run Number evs) →
  NewForm.tableColumns st ≠ "" →
  NewForm.tableHeaders st = ColumnDef.name <$> NewForm.tableColumnDefs st ∧
  (Number (NewForm.tableColumns st) = JS.NaN →
   NewForm.tableColumnDefs st = []) ∧
  (∀ z, Number (NewForm.tableColumns st) = JS.Num z →
        Z.of_nat (length (NewForm.tableColumnDefs st)) ≤ Z.max 0 z).
Proof.
  intros -> Hcols.
  destruct (run_sessionOK evs)
    as [(_ & _ & _ & _ & _ & _ & _ & Hstep & Hcount) _].
  destruct Hstep as [?|Hstep]; [done|]. split; [done|].
  destruct Hcount as [?|[Hnone|(z' & Hz' & Hle)]]; [done| |].
  - rewrite Hnone. split; [done|]. intros z _. simpl. lia.
  - split; [by rewrite Hz'|]. intros z Hz. rewrite Hz' in Hz.
    injection Hz as <-. lia.
Qed.

(** X3. After every sequence of events, every field of the schema has a
    label that is not blank and one of the thirteen types of the builder;
    it has options exactly when its type is a choice type, then at least
    one, each trimmed; it has a table payload only for the two table
    types, and [htmlContent] exactly for [plainhtml]. *)
Theorem run_fields_wellformed evs f :
  f ∈ NewForm.columns (NewForm.state (NewForm.run Number evs)) →
  JS.trim (ColumnConfig.label f) ≠ "" ∧
  ColumnConfig.type f ∈ NewForm.columnTypes ∧
  match ColumnConfig.options f with
  | Some l =>
      NewForm.isChoiceType (ColumnConfig.type f) = true ∧ l ≠ [] ∧
      Forall trimmed l
  | None => NewForm.isChoiceType (ColumnConfig.type f) = false
  end ∧
  (ColumnConfig.type f ≠ "htmltable" → ColumnConfig.type f ≠ "htmlrender" →
   ColumnConfig.tableName f = None ∧ ColumnConfig.tableRows f = None ∧
   ColumnConfig.tableColumns f = None ∧ ColumnConfig.tableHeaders f = None ∧
   ColumnConfig.tableColumnDefs f = None ∧ ColumnConfig.tableData f = None) ∧
  (is_Some (ColumnConfig.htmlContent f) ↔ ColumnConfig.type f = "plainhtml").
Proof.
  intros Hf. destruct (run_sessionOK evs) as [_ Hfields].
  rewrite Forall_forall in Hfields.
  destruct (Hfields f Hf) as (? & ? & ? & _ & _ & ? & ?). done.
Qed.

(** X4. After every sequence of events, every [htmltable] field of the
    schema has a table name that is not blank, a number of columns that is
    at least [1] and is the number of its column definitions, header names
    that are the names of these definitions, and a number of rows that is
    not below [1]. *)
Theorem run_htmltable_fields evs f :
  f ∈ NewForm.columns (NewForm.state (NewForm.run Number evs)) →
  ColumnConfig.type f = "htmltable" →
  ∃ name z defs rows data,
    ColumnConfig.tableName f = Some name ∧ JS.trim name ≠ "" ∧
    ColumnConfig.tableColumns f = Some (JS.Num z) ∧ 1 ≤ z ∧
    ColumnConfig.tableColumnDefs f = Some defs ∧
    Z.of_nat (length defs) = z ∧
    ColumnConfig.tableHeaders f = Some (ColumnDef.name <$> defs) ∧
    ColumnConfig.tableRows f = Some rows ∧ JS.lt rows (JS.Num 1) = false ∧
    ColumnConfig.tableData f = Some data.
Proof.
  intros Hf Htype. destruct (run_sessionOK evs) as [_ Hfields].
  rewrite Forall_forall in Hfields.
  destruct (Hfields f Hf) as (_ & _ & _ & Htable & _).
  destruct (Htable Htype)
    as (name & z & defs & rows & data & ? & ? & ? & ? & ? & ? & _ & ? & ?
        & ? & ?).
  by exists name, z, defs, rows, data.
Qed.

(** X5. After every sequence of events, every column definition of a table
    field of the schema has a trimmed name and one of the nine header
    types, and it has options exactly when that type is a choice type,
    then at least one, each trimmed. *)
Theorem run_column_defs evs f defs d :
  f ∈ NewForm.columns (NewForm.state (NewForm.run Number evs)) →
  ColumnConfig.tableColumnDefs f = Some defs → d ∈ defs →
  trimmed (ColumnDef.name d) ∧
  ColumnDef.type d ∈ NewForm.headerTypes ∧
  match ColumnDef.options d with
  | Some l =>
      NewForm.isChoiceType (ColumnDef.type d) = true ∧ l ≠ [] ∧
      Forall trimmed l
  | None => NewForm.isChoiceType (ColumnDef.type d) = false
  end.
Proof.
  intros Hf Hdefs Hd. destruct (run_sessionOK evs) as [_ Hfields].
  rewrite Forall_forall in Hfields.
  destruct (Hfields f Hf) as (_ & _ & _ & Htable & Hrender & Hother & _).
  assert (Forall defOK defs) as Hok.
  { destruct (decide (ColumnConfig.type f = "htmltable")) as [Ht|Ht].
    - destruct (Htable Ht)
        as (? & ? & defs' & ? & ? & _ & _ & _ & _ & Hd' & _ & Hok & _).
      by simplify_eq.
    - destruct (decide (ColumnConfig.type f = "htmlrender")) as [Hr|Hr].
      + destruct (Hrender Hr) as (defs' & Hd' & Hok). by simplify_eq.
      + destruct (Hother Ht Hr) as (_ & _ & _ & _ & Hnone & _). congruence. }
  rewrite Forall_forall in Hok. by apply Hok.
Qed.

(** The header of column [c] that the renderer shows is the name of its
    definition, for definitions with names that are not empty. *)
Lemma header_names (defs : list ColumnDef.t) :
  Forall defOK defs →
  (λ c, Eform.orElse (ColumnDef.name <$> defs !! c) (Eform.columnTitle c))
    <$> seq 0 (length defs)
  = ColumnDef.name <$> defs.
Proof.
  intros Hok. apply list_eq. intros i. rewrite !list_lookup_fmap.
  destruct (defs !! i) as [d|] eqn:Hi; simpl.
  - rewrite lookup_seq_lt by (by eapply lookup_lt_Some). simpl.
    rewrite Hi. simpl. unfold Eform.orElse. simpl.
    rewrite Forall_forall in Hok.
    destruct (Hok d) as [[Hname _] _]; [by eapply list_elem_of_lookup_2|].
    by destruct (ColumnDef.name d).
  - rewrite lookup_seq_ge; [done|]. by apply lookup_ge_None.
Qed.

(** X6. After every sequence of events, the renderer shows an [htmltable]
    field of the schema as an editable grid under its table name, with
    the header names that were added as its headers, and with one cell
    per column in every row. *)
Theorem run_htmltable_rendered evs formData f :
  f ∈ NewForm.columns (NewForm.state (NewForm.run Number evs)) →
  ColumnConfig.type f = "htmltable" →
  ∃ name defs body,
    ColumnConfig.tableName f = Some name ∧
    ColumnConfig.tableColumnDefs f = Some defs ∧
    ColumnConfig.tableHeaders f = Some (ColumnDef.name <$> defs) ∧
    Eform.renderDynamicField formData f
    = Eform.returns
        (Eform.EditableTable (ColumnConfig.internalName f) (Some name)
           (ColumnDef.name <$> defs) body) ∧
    length body
    = JS.ToLength (Eform.orZero (ColumnConfig.tableRows f)) ∧
    Forall (λ row, length row = length defs) body.
Proof.
  intros Hf Htype. destruct (run_sessionOK evs) as [_ Hfields].
  rewrite Forall_forall in Hfields.
  destruct (Hfields f Hf) as (_ & _ & _ & Htable & _).
  destruct (Htable Htype)
    as (name & z & defs & rows & data & Hname & Hblank & Hcols & Hpos
        & Hdefs & Hlen & Hok & Hheaders & Hrows & _).
  assert (Eform.orZero (ColumnConfig.tableColumns f) = JS.Num z) as Hz.
  { rewrite Hcols. simpl. by destruct (Z.eqb_spec z 0); [lia|]. }
  assert (JS.ToLength (JS.Num z) = length defs) as Hn.
  { simpl. lia. }
  exists name, defs,
    (Eform.tabulate (Eform.orZero (ColumnConfig.tableRows f)) (λ r,
       Eform.tabulate (JS.Num z) (λ c, Eform.renderCell formData f r c))).
  split_and!; try done.
  - unfold Eform.renderDynamicField. rewrite Htype. simpl.
    unfold Eform.renderHtmlTable. rewrite Hz. f_equal. f_equal.
    + unfold Eform.caption. rewrite Hname.
      destruct name; [|done]. by vm_compute in Hblank.
    + unfold Eform.tabulate, Eform.colDefs. rewrite Hdefs, Hn.
      by apply header_names.
  - apply tabulate_length.
  - apply Forall_forall. intros row Hrow. unfold Eform.tabulate in Hrow.
    apply list_elem_of_fmap in Hrow as (r & -> & _).
    by rewrite length_fmap, length_seq.
Qed.

(** X7. After every sequence of events, the renderer returns an element
    for every field of the schema but the fields of type [person], which
    the builder offers and the renderer has no case for. *)
Theorem run_fields_rendered evs formData f :
  f ∈ NewForm.columns (NewForm.state (NewForm.run Number evs)) →
  Eform.element (Eform.renderDynamicField formData f) = None
  ↔ ColumnConfig.type f = "person".
Proof.
  intros Hf. destruct (run_sessionOK evs) as [_ Hfields].
  rewrite Forall_forall in Hfields.
  destruct (Hfields f Hf) as (_ & Htype & _).
  unfold NewForm.columnTypes in Htype.
  rewrite !elem_of_cons, elem_of_nil in Htype.
  unfold Eform.renderDynamicField.
  repeat (destruct Htype as [Htype|Htype];
          [rewrite Htype; simpl; by split|]).
  done.
Qed.

(** X8. An event leaves the fields of the schema as they are, or appends
    one field to them, or, when a save is answered, removes them all: no
    event changes or removes a single field. *)
Theorem fire_columns s ev :
  let before := NewForm.columns (NewForm.state s) in
  let after := NewForm.columns (NewForm.state (NewForm.fire Number s ev)) in
  after = before ∨ (∃ col, after = before ++ [col])
  ∨ (ev = NewForm.SaveResolved ∧ after = []).
Proof.
  simpl. unfold NewForm.fire.
  destruct (NewForm.enabled Number ev s) eqn:Hen; [|by left].
  destruct s as [st pending].
  destruct ev; simpl; try (by left);
    try (unfold NewForm._addChoice, NewForm._addHeaderOption,
           NewForm._addTableHeader; left;
         by match goal with |- context [JS.isEmpty ?x] =>
              destruct (JS.isEmpty x) end).
  - left. by destruct (String.eqb _ _).
  - left. by destruct (setTableCell_agree st r c value) as [newData ->].
  - destruct (NewForm.addField Number st) as [| |col next] eqn:Hadd;
      simpl; [by left|by left|].
    apply addField_Added, addColumn_Added in Hadd as (_ & _ & _ & ->).
    right. left. by exists col.
  - left. by destruct (NewForm._submitForm st).
  - right. by right.
Qed.

(** X9. A click on "Add Column" never shows the message about the number
    of headers: the button is disabled as long as that number is wrong.
    The messages it can show are those of a blank table name and of a
    number of rows or of columns below [1]. *)
Theorem addField_alert st message :
  NewForm.addField Number st = NewForm.Alert message →
  NewForm.newColumnType st = "htmltable" ∧
  message ∈ tableMessages ∧
  message ≠ "Please provide exactly " +:+ NewForm.tableColumns st
             +:+ " column header(s).".
Proof.
  intros Hadd. unfold NewForm.addField in Hadd.
  destruct (NewForm.addColumnDisabled Number st) eqn:Hguard; [done|].
  unfold NewForm._addColumn in Hadd.
  destruct (JS.isEmpty (JS.trim (NewForm.newColumnName st))); [done|].
  destruct (NewForm.tableAlert Number st) as [msg|] eqn:Halert; [|done].
  injection Hadd as ->.
  unfold NewForm.tableAlert in Halert.
  unfold NewForm.addColumnDisabled in Hguard.
  destruct (String.eqb_spec (NewForm.newColumnType st) "htmltable")
    as [Htype|Htype]; [|done].
  apply orb_false_iff in Hguard as [_ Hguard].
  rewrite andb_true_l in Hguard.
  apply orb_false_iff in Hguard as [_ Heq]. rewrite Heq in Halert.
  assert (∀ m, m ∈ tableMessages →
            m ≠ "Please provide exactly " +:+ NewForm.tableColumns st
                 +:+ " column header(s).") as Hother.
  { intros m Hm Heq'. unfold tableMessages in Hm.
    rewrite !elem_of_cons, elem_of_nil in Hm.
    destruct Hm as [->|[->|[->|[]]]]; vm_compute in Heq'; discriminate. }
  assert (message ∈ tableMessages) as Hin.
  { repeat match type of Halert with
           | (if ?b then _ else _) = _ => destruct b
           end; simplify_eq; in_list. }
  split_and!; [done|done|by apply Hother].
Qed.

End Machine.

(** *** The builder at a concrete session *)

Example tableSession_columns :
  NewForm.columns (NewForm.state (NewForm.run JS.Number tableSession))
  = [tableField].
Proof. vm_compute. reflexivity. Qed.

Example headerSession_pending :
  let st := NewForm.state (NewForm.run JS.Number headerSession) in
  NewForm.tableHeaders st = ["A"] ∧
  NewForm.tableColumnDefs st = [ColumnDef.mk "A" "text" None] ∧
  NewForm.addHeaderDisabled JS.Number st = true.
Proof. vm_compute. done. Qed.

Lemma tableField_added :
  tableField
  ∈ NewForm.columns (NewForm.state (NewForm.run JS.Number tableSession)).
Proof. vm_compute. apply elem_of_cons. left. reflexivity. Defined.

Lemma run_headers_in_step_witness :
  NewForm.tableHeaders (NewForm.state (NewForm.run JS.Number headerSession))
  = ColumnDef.name
      <$> NewForm.tableColumnDefs
            (NewForm.state (NewForm.run JS.Number headerSession)) ∧
  Z.of_nat
    (length
       (NewForm.tableColumnDefs
          (NewForm.state (NewForm.run JS.Number headerSession))))
  ≤ Z.max 0 1.
Proof.
  destruct (run_headers_in_step JS.Number headerSession _ eq_refl)
    as (Hnames & _ & Hcount).
  - vm_compute. discriminate.
  - split; [exact Hnames|]. apply Hcount. vm_compute. reflexivity.
Defined.

Lemma run_fields_wellformed_witness :
  JS.trim (ColumnConfig.label tableField) ≠ "" ∧
  ColumnConfig.type tableField ∈ NewForm.columnTypes.
Proof.
  destruct (run_fields_wellformed JS.Number tableSession tableField
              tableField_added) as (Hlabel & Htype & _).
  split; [exact Hlabel|exact Htype].
Defined.

Lemma run_htmltable_fields_witness :
  ∃ name z defs,
    ColumnConfig.tableName tableField = Some name ∧
    ColumnConfig.tableColumns tableField = Some (JS.Num z) ∧
    ColumnConfig.tableColumnDefs tableField = Some defs ∧
    Z.of_nat (length defs) = z.
Proof.
  destruct (run_htmltable_fields JS.Number tableSession tableField
              tableField_added eq_refl)
    as (name & z & defs & rows & data & Hname & _ & Hcols & _ & Hdefs & Hlen
        & _).
  exists name, z, defs. split_and!; [exact Hname|exact Hcols|exact Hdefs|].
  exact Hlen.
Defined.

Lemma run_column_defs_witness :
  trimmed "A" ∧ "text" ∈ NewForm.headerTypes.
Proof.
  destruct (run_column_defs JS.Number tableSession tableField
              [ColumnDef.mk "A" "text" None] (ColumnDef.mk "A" "text" None)
              tableField_added eq_refl)
    as (Hname & Htype & _).
  - apply elem_of_cons. left. reflexivity.
  - split; [exact Hname|exact Htype].
Defined.

Lemma run_htmltable_rendered_witness :
  ∃ body,
    Eform.renderDynamicField ∅ tableField
    = Eform.returns (Eform.EditableTable "F" (Some "T") ["A"] body) ∧
    length body = 2%nat.
Proof.
  destruct (run_htmltable_rendered JS.Number tableSession ∅ tableField
              tableField_added eq_refl)
    as (name & defs & body & Hname & Hdefs & _ & Hrender & Hlen & _).
  injection Hname as <-. injection Hdefs as <-.
  exists body. split; [exact Hrender|exact Hlen].
Defined.

Lemma run_fields_rendered_witness :
  Eform.element (Eform.renderDynamicField ∅ tableField) ≠ None.
Proof.
  intros Hnone.
  apply (run_fields_rendered JS.Number tableSession ∅ tableField
           tableField_added) in Hnone.
  discriminate Hnone.
Defined.

Lemma addField_alert_witness :
  NewForm.addField JS.Number
    (builder [] "F" "" "htmltable" "" [] "T" "0" "0" [] [] [])
  = NewForm.Alert "Number of rows must be at least 1." ∧
  "Number of rows must be at least 1." ∈ tableMessages.
Proof.
  split; [reflexivity|].
  apply (addField_alert JS.Number
           (builder [] "F" "" "htmltable" "" [] "T" "0" "0" [] [] [])).
  reflexivity.
Defined.

(** ** The header lists and the cell grid of the builder *)

Section Grid.
Variable Number : string → JS.number.
Implicit Types (st : NewForm.State) (r c : nat) (value : string).

(** X10. "Remove" on header [i] deletes entry [i] of the header names and
    of the column definitions and keeps the other entries in their order;
    an index past the end of both lists changes nothing. *)
Theorem removeTableHeader_delete i st :
  NewForm.tableHeaders (NewForm._removeTableHeader i st)
  = delete i (NewForm.tableHeaders st) ∧
  NewForm.tableColumnDefs (NewForm._removeTableHeader i st)
  = delete i (NewForm.tableColumnDefs st) ∧
  (∀ j, (j < i)%nat →
     NewForm.tableColumnDefs (NewForm._removeTableHeader i st) !! j
     = NewForm.tableColumnDefs st !! j) ∧
  (∀ j, (i ≤ j)%nat →
     NewForm.tableColumnDefs (NewForm._removeTableHeader i st) !! j
     = NewForm.tableColumnDefs st !! S j) ∧
  ((length (NewForm.tableHeaders st) ≤ i)%nat →
   (length (NewForm.tableColumnDefs st) ≤ i)%nat →
   NewForm._removeTableHeader i st = st).
Proof.
  unfold NewForm._removeTableHeader. simpl.
  rewrite !filter_index_ne_delete. split_and!; try done.
  - intros j Hj. by apply list_lookup_delete_lt.
  - intros j Hj. by apply list_lookup_delete_ge.
  - intros Hh Hd. rewrite !delete_ge by done. by destruct st.
Qed.

(** A cell of a row that is there and long enough is overwritten in
    place. *)
Lemma setTableCellData_in_grid st r c value row :
  NewForm.tableData st !! r = Some row → (c < length row)%nat →
  NewForm.setTableCellData Number st r c value
  = Some (<[r := <[c := value]> row]> (NewForm.tableData st)).
Proof.
  intros Hrow Hc. unfold NewForm.setTableCellData.
  pose proof (lookup_lt_Some _ _ _ Hrow) as Hr.
  rewrite push_while_replicate by lia.
  replace (S r - length (NewForm.tableData st))%nat with O by lia.
  cbn [replicate]. rewrite app_nil_r, Hrow.
  rewrite push_while_replicate by lia.
  replace (S c - length row)%nat with O by lia.
  cbn [replicate]. by rewrite app_nil_r.
Qed.

Lemma editCell_rectangular st edit rows cols :
  rectangular rows cols (NewForm.tableData st) →
  (edit.1.1 < rows)%nat → (edit.1.2 < cols)%nat →
  rectangular rows cols (NewForm.tableData (editCell Number st edit)) ∧
  NewForm.tableRows (editCell Number st edit) = NewForm.tableRows st ∧
  NewForm.tableColumns (editCell Number st edit) = NewForm.tableColumns st ∧
  JS.cellAt (NewForm.tableData (editCell Number st edit)) edit.1.1 edit.1.2
  = Some edit.2.
Proof.
  destruct edit as [[r c] value]. simpl. intros [Hlen Hrows] Hr Hc.
  destruct (lookup_lt_is_Some_2 (NewForm.tableData st) r) as [row Hrow];
    [lia|].
  assert (length row = cols) as Hrowlen.
  { by apply (Forall_lookup_1 _ _ _ _ Hrows Hrow). }
  unfold NewForm._setTableCell.
  rewrite (setTableCellData_in_grid st r c value row) by (done || lia).
  simpl. split_and!; try done.
  - split; [by rewrite length_insert|].
    apply Forall_insert; [done|]. by rewrite length_insert.
  - unfold JS.cellAt. rewrite list_lookup_insert_eq by lia. simpl.
    apply list_lookup_insert_eq. lia.
Qed.

(** X11. Once "Number of Columns" of the HTML Render panel holds a
    positive number while "Number of Rows" is filled in, the cell grid has
    [Number(tableRows)] rows of [Number(tableColumns)] cells, and it keeps
    that shape through every sequence of edits of cells inside it. *)
Theorem render_grid_rectangular v prev edits :
  v ≠ "" → JS.gt (Number v) (JS.Num 0) = true →
  NewForm.tableRows prev ≠ "" →
  Forall (λ edit : nat * nat * string,
            (edit.1.1 < JS.ToLength (Number (NewForm.tableRows prev)))%nat ∧
            (edit.1.2 < JS.ToLength (Number v))%nat) edits →
  rectangular (JS.ToLength (Number (NewForm.tableRows prev)))
    (JS.ToLength (Number v))
    (NewForm.tableData
       (foldl (editCell Number) (NewForm.onChangeRenderColumns Number v prev)
          edits)).
Proof.
  intros Hv Hpos Hrows Hedits.
  set (R := JS.ToLength (Number (NewForm.tableRows prev))) in *.
  set (C := JS.ToLength (Number v)) in *.
  assert (rectangular R C
            (NewForm.tableData (NewForm.onChangeRenderColumns Number v prev)))
    as Hinit.
  { subst R C. unfold NewForm.onChangeRenderColumns.
    destruct v as [|a v]; [done|]. cbn [JS.isEmpty]. rewrite Hpos.
    destruct (NewForm.tableRows prev) as [|b rows] eqn:Heq; [done|].
    cbn [JS.isEmpty negb andb]. simpl NewForm.tableData.
    split; [by rewrite length_replicate|].
    apply Forall_replicate. by rewrite length_replicate. }
  revert Hinit. generalize (NewForm.onChangeRenderColumns Number v prev).
  induction Hedits as [|edit edits [Hr Hc] _ IH]; intros st Hst; [done|].
  simpl. apply IH.
  by destruct (editCell_rectangular st edit R C Hst Hr Hc) as (? & _).
Qed.

(** X12. The value that the cell grid of the builder shows in a cell is
    the value that the read-only table of the renderer shows there for the
    field that "Add Column" builds from the same inputs: the cell as
    entered, ["false"] for an empty [yesno] cell and [""] for a missing
    one. *)
Theorem preview_is_display st r c :
  NewForm.newColumnType st = "htmlrender" →
  NewForm.gridVal st r c
  = Eform.displayValue (NewForm.newColumn Number st) r c.
Proof.
  intros Htype. rewrite newColumn_htmlrender by done.
  unfold NewForm.gridVal, Eform.displayValue, Eform.cellValue,
    Eform.renderColDef, NewForm.gridColDef, NewForm.attachTable. simpl.
  destruct (NewForm.tableColumnDefs st !! c) as [def|] eqn:Hdef; simpl;
    destruct (NewForm.tableData st !! r) as [row|]; simpl; try done;
    by destruct (row !! c).
Qed.

End Grid.

(** ** The selections of a checkbox cell *)

Section Selections.
Implicit Types (s o cur val : string) (sel : list string).

(** A string without a comma is one piece. *)
Lemma split_go_commaFree cur o :
  commaFree o = true → JS.split_go cur o = [String.rev_app cur o].
Proof.
  revert cur. induction o as [|a o IH]; intros cur Hfree; simpl in *; [done|].
  apply andb_prop in Hfree as [Ha Hfree].
  apply negb_true_iff in Ha. rewrite Ha. by rewrite IH.
Qed.

(** The first comma ends the first piece. *)
Lemma split_go_comma cur o rest :
  commaFree o = true →
  JS.split_go cur (o +:+ String "," rest)
  = String.rev_app cur o :: JS.split_go "" rest.
Proof.
  revert cur. induction o as [|a o IH]; intros cur Hfree; simpl in *; [done|].
  apply andb_prop in Hfree as [Ha Hfree].
  apply negb_true_iff in Ha. rewrite Ha. by rewrite IH.
Qed.

(** The pieces of a split have no comma. *)
Lemma split_go_pieces cur s piece :
  commaFree cur = true → piece ∈ JS.split_go cur s →
  commaFree piece = true.
Proof.
  assert (∀ s1 s2, commaFree s1 = true → commaFree s2 = true →
                   commaFree (String.rev_app s1 s2) = true) as Hrev.
  { induction s1 as [|a s1 IH]; intros s2 H1 H2; simpl in *; [done|].
    apply andb_prop in H1 as [Ha H1]. apply IH; [done|]. simpl.
    by rewrite Ha, H2. }
  revert cur. induction s as [|a s IH]; intros cur Hcur; simpl.
  - intros ->%list_elem_of_singleton. by apply Hrev.
  - destruct (Ascii.eqb a ",") eqn:Ha.
    + intros [->|Hin]%elem_of_cons; [by apply Hrev|]. by apply (IH "").
    + apply IH. simpl. by rewrite Ha, Hcur.
Qed.

Lemma join_comma_cons o o' sel :
  JS.join_comma (o :: o' :: sel)
  = o +:+ String "," (JS.join_comma (o' :: sel)).
Proof. done. Qed.

Lemma split_join sel :
  sel ≠ [] → Forall (λ o, commaFree o = true) sel →
  JS.split_comma (JS.join_comma sel) = sel.
Proof.
  unfold JS.split_comma. intros Hne Hfree.
  induction Hfree as [|o sel Ho Hsel IH]; [done|].
  destruct sel as [|o' sel].
  - simpl. by rewrite split_go_commaFree.
  - rewrite join_comma_cons, split_go_comma by done.
    rewrite IH by done. done.
Qed.

Lemma join_comma_empty sel :
  Forall storable sel →
  JS.isEmpty (JS.join_comma sel) = bool_decide (sel = []).
Proof.
  intros Hsel. destruct Hsel as [|o sel [Ho _] _]; [done|].
  destruct o as [|a o]; [done|]. by destruct sel.
Qed.

Lemma selections_join sel :
  Forall storable sel → NewForm.selections (JS.join_comma sel) = sel.
Proof.
  intros Hsel. unfold NewForm.selections.
  rewrite join_comma_empty by done. destruct sel as [|o sel]; [done|].
  rewrite bool_decide_eq_false_2 by done. apply split_join; [done|].
  eapply Forall_impl; [exact Hsel|]. by intros ? [_ ?].
Qed.

Lemma includes_app o sel1 sel2 :
  JS.includes o (sel1 ++ sel2) = JS.includes o sel1 || JS.includes o sel2.
Proof. unfold JS.includes. apply existsb_app. Qed.

Lemma includes_filter_ne o o' sel :
  JS.includes o (JS.filter_ne o' sel)
  = if String.eqb o' o then false else JS.includes o sel.
Proof.
  unfold JS.includes, JS.filter_ne.
  induction sel as [|x sel IH]; simpl; [by destruct (String.eqb o' o)|].
  destruct (String.eqb_spec x o') as [->|Hx]; simpl.
  - rewrite IH. destruct (String.eqb_spec o' o) as [->|Hne]; [done|].
    destruct (String.eqb_spec o o') as [->|_]; done.
  - rewrite IH. destruct (String.eqb_spec o' o) as [->|Hne]; [|done].
    destruct (String.eqb_spec o x) as [->|_]; done.
Qed.

(** What the clicks store: the options in the order of their checking,
    all of them storable. *)
Lemma toggled_join clicks :
  Forall (λ click : string * bool, storable click.1) clicks →
  ∃ sel, toggled clicks = JS.join_comma sel ∧ Forall storable sel ∧
         ∀ o, JS.includes o sel = lastChecked o clicks.
Proof.
  intros Hclicks. unfold toggled, lastChecked.
  induction clicks as [|[o' checked] clicks IH] using rev_ind.
  - by exists [].
  - apply Forall_app in Hclicks as [Hclicks Ho'].
    rewrite Forall_singleton in Ho'. simpl in Ho'.
    destruct (IH Hclicks) as (sel & Hval & Hsel & Hshown).
    rewrite !foldl_app. simpl. rewrite Hval.
    unfold NewForm.toggleSelection. rewrite selections_join by done.
    destruct checked.
    + exists (sel ++ [o']). split_and!; [done| |].
      * apply Forall_app. split; [done|by constructor].
      * intros o. rewrite foldl_app, includes_app, Hshown. simpl.
        unfold JS.includes. simpl. rewrite orb_false_r.
        rewrite String.eqb_sym.
        destruct (String.eqb o' o); [apply orb_true_r|apply orb_false_r].
    + exists (JS.filter_ne o' sel). split_and!; [done| |].
      * apply Forall_forall. intros x Hx. unfold JS.filter_ne in Hx.
        rewrite list_elem_of_In, filter_In, <- list_elem_of_In in Hx.
        destruct Hx as [Hx _]. by apply (proj1 (Forall_forall _ _) Hsel).
      * intros o. rewrite foldl_app, includes_filter_ne, Hshown. done.
Qed.

(** The selections that are read back from what the clicks have stored. *)
Lemma selections_toggled clicks o :
  Forall (λ click : string * bool, storable click.1) clicks →
  JS.includes o (NewForm.selections (toggled clicks))
  = lastChecked o clicks.
Proof.
  intros Hclicks.
  destruct (toggled_join clicks Hclicks) as (sel & -> & Hsel & Hshown).
  by rewrite selections_join.
Qed.

(** A [checkbox] cell of the cell grid shows what [_setTableCell] has
    stored in it. *)
Lemma setTableCell_gridVal Number (st : NewForm.State) r c v :
  ColumnDef.type (NewForm.gridColDef st c) = "checkbox" →
  ∃ st', NewForm._setTableCell Number r c v st = Some st' ∧
         NewForm.gridVal st' r c = v ∧
         NewForm.gridColDef st' c = NewForm.gridColDef st c.
Proof.
  intros Htype.
  destruct (setTableCellData_cells Number st r c v)
    as (newData & Hset & _ & Hcell & _).
  exists (NewForm.setTableData newData st).
  unfold NewForm._setTableCell. rewrite Hset. split_and!; [done| |done].
  unfold NewForm.gridVal.
  change (NewForm.gridColDef (NewForm.setTableData newData st) c)
    with (NewForm.gridColDef st c).
  rewrite Htype. simpl. unfold JS.cellAt in Hcell.
  destruct (newData !! r) as [row|]; [|done]. simpl in Hcell.
  by rewrite Hcell.
Qed.

(** A [checkbox] cell of an editable table shows the selections of its
    value. *)
Lemma renderCell_checkbox formData field r c :
  ColumnDef.type (Eform.cellDef field c) = "checkbox" →
  Eform.cellVal formData field r c = Eform.storedVal formData field r c ∧
  Eform.renderCell formData field r c
  = Eform.CheckboxList
      (NewForm.selections
         (Eform.orEmpty (Eform.storedVal formData field r c)))
      (Eform.orNil (ColumnDef.options (Eform.cellDef field c))).
Proof.
  intros Htype.
  assert (Eform.cellVal formData field r c
          = Eform.storedVal formData field r c) as Hval.
  { unfold Eform.cellVal. by rewrite Htype. }
  split; [done|]. unfold Eform.renderCell. rewrite Hval, Htype. simpl.
  unfold NewForm.selections.
  by destruct (Eform.storedVal formData field r c) as [[|a v]|].
Qed.

(** X13. A checkbox cell stores its selections so that they are read
    back, in the builder and in the renderer.  After any sequence of
    clicks on options that are not empty and hold no comma, in a cell that
    was empty before, the cell grid of the builder and the editable table
    of the renderer show the box of an option checked exactly when the
    last click on that option checked it. *)
Theorem checkbox_shows_last_click clicks o :
  Forall (λ click : string * bool, storable click.1) clicks →
  (∀ Number (st : NewForm.State) r c,
     ColumnDef.type (NewForm.gridColDef st c) = "checkbox" →
     NewForm.gridVal st r c = "" →
     JS.includes o
       (NewForm.selections
          (NewForm.gridVal (foldl (clickCell Number r c) st clicks) r c))
     = lastChecked o clicks) ∧
  (∀ (st : Eform.State) field r c,
     ColumnDef.type (Eform.cellDef field c) = "checkbox" →
     unsetOrEmpty (Eform.formData st) field r c →
     ∃ sel,
       Eform.renderCell
         (Eform.formData (foldl (clickOption field r c) st clicks)) field r c
       = Eform.CheckboxList sel
           (Eform.orNil (ColumnDef.options (Eform.cellDef field c))) ∧
       JS.includes o sel = lastChecked o clicks).
Proof.
  intros Hclicks. split.
  - intros Number st r c Htype Hempty.
    rewrite <- (selections_toggled clicks o Hclicks). do 2 f_equal.
    clear Hclicks.
    cut (NewForm.gridVal (foldl (clickCell Number r c) st clicks) r c
         = toggled clicks
         ∧ NewForm.gridColDef (foldl (clickCell Number r c) st clicks) c
           = NewForm.gridColDef st c); [by intros [? _]|].
    induction clicks as [|[o' checked] clicks [IHval IHdef]] using rev_ind;
      [done|].
    unfold toggled in *. rewrite !foldl_app. simpl.
    unfold clickCell at 1 3, NewForm.onToggleCell. simpl.
    rewrite <- IHdef in Htype.
    destruct (setTableCell_gridVal Number _ r c
                (NewForm.toggleSelection
                   (NewForm.gridVal (foldl (clickCell Number r c) st clicks)
                      r c) o' checked) Htype)
      as (st' & -> & Hval & Hdef).
    simpl. rewrite Hval, Hdef, IHval. done.
  - intros st field r c Htype Hunset.
    destruct (renderCell_checkbox
                (Eform.formData (foldl (clickOption field r c) st clicks))
                field r c Htype) as [_ ->].
    eexists. split; [done|].
    rewrite <- (selections_toggled clicks o Hclicks). do 2 f_equal.
    clear Hclicks.
    induction clicks as [|[o' checked] clicks IH] using rev_ind.
    + simpl. apply falsy_storedVal in Hunset.
      by destruct (Eform.storedVal _ _ _ _) as [[|a v]|].
    + unfold toggled in *. rewrite !foldl_app.
      set (prev := foldl (clickOption field r c) st clicks) in *. simpl.
      unfold clickOption, Eform.onToggleOption, Eform.setVal.
      unfold Eform.storedVal at 1. simpl. rewrite lookup_insert_eq. simpl.
      destruct (renderCell_checkbox (Eform.formData prev) field r c Htype)
        as [-> _].
      by rewrite IH.
Qed.

(** X14. The box of an option that holds a comma is never shown checked,
    whatever the cell stores: checking it stores its pieces. *)
Theorem checkbox_comma_never_checked val o :
  commaFree o = false →
  JS.includes o (NewForm.selections val) = false.
Proof.
  intros Hcomma. apply not_true_is_false. intros Hin%includes_elem.
  unfold NewForm.selections in Hin.
  destruct (JS.isEmpty val); [by apply elem_of_nil in Hin|].
  apply split_go_pieces in Hin; [|done]. congruence.
Qed.

End Selections.

(** ** The answers of the cells of an editable table *)

Section Cells.
Implicit Types (s d : string) (field : ColumnConfig.t) (r c : nat).

Lemma append_assoc s1 s2 s3 : (s1 +:+ s2) +:+ s3 = s1 +:+ s2 +:+ s3.
Proof.
  induction s1 as [|a s1 IH]; [done|].
  cbv [String.append]. fold String.append. by rewrite IH.
Qed.

Lemma allDigits_pretty_N_go x s :
  allDigits s = true → allDigits (pretty_N_go x s) = true.
Proof.
  revert s. induction (N.lt_wf_0 x) as [x _ IH]; intros s Hs.
  assert (x = 0 ∨ 0 < x)%N as [->|?] by lia.
  - by rewrite pretty_N_go_0.
  - rewrite pretty_N_go_step by done. apply IH; [by apply N.div_lt|].
    simpl. rewrite Hs, andb_true_r.
    unfold pretty_N_char. by repeat case_match.
Qed.

Lemma allDigits_pretty (n : nat) : allDigits (pretty n) = true.
Proof.
  unfold pretty, pretty_nat, pretty, pretty_N.
  case_decide; [done|]. by apply allDigits_pretty_N_go.
Qed.

(** A string that holds a dash is not a string of digits. *)
Lemma allDigits_dash s d : allDigits (s +:+ String "-" d) = false.
Proof.
  induction s as [|a s IH]; [done|].
  cbv [String.append]. fold String.append. simpl.
  rewrite IH. apply andb_false_r.
Qed.

(** The number after the last dash, and what is before that dash. *)
Lemma dash_digits_inj s s' d d' :
  allDigits d = true → allDigits d' = true →
  s +:+ String "-" d = s' +:+ String "-" d' → s = s' ∧ d = d'.
Proof.
  intros Hd Hd'. revert s'.
  induction s as [|a s IH]; intros [|a' s'] Heq;
    cbv [String.append] in Heq; fold String.append in Heq.
  - by simplify_eq.
  - simplify_eq. by rewrite allDigits_dash in Hd.
  - simplify_eq. by rewrite allDigits_dash in Hd'.
  - injection Heq as -> Heq. by destruct (IH _ Heq) as [-> ->].
Qed.

(** Two cells have one name only when they are the same cell of fields
    with the same internal name. *)
Lemma cellName_inj field field' r c r' c' :
  Eform.cellName field r c = Eform.cellName field' r' c' →
  ColumnConfig.internalName field = ColumnConfig.internalName field' ∧
  r = r' ∧ c = c'.
Proof.
  unfold Eform.cellName. intros Heq.
  change ("-" +:+ pretty r +:+ "-" +:+ pretty c)
    with (String "-" (pretty r) +:+ String "-" (pretty c)) in Heq.
  change ("-" +:+ pretty r' +:+ "-" +:+ pretty c')
    with (String "-" (pretty r') +:+ String "-" (pretty c')) in Heq.
  rewrite <- !append_assoc in Heq.
  apply dash_digits_inj in Heq as [Heq Hc]; [|apply allDigits_pretty..].
  apply dash_digits_inj in Heq as [Hname Hr]; [|apply allDigits_pretty..].
  split_and!; [done|by apply (inj pretty)..].
Qed.

(** X15. Typing into a cell of an editable table stores the answer of
    that cell, and the input of every other cell of the form is rendered
    as before: two cells share an answer only when they are the same cell
    of fields with the same internal name. *)
Theorem setVal_one_cell field r c v st :
  Eform.storedVal (Eform.formData (Eform.setVal field r c v st)) field r c
  = Some v ∧
  ∀ field' r' c',
    (ColumnConfig.internalName field', r', c')
    ≠ (ColumnConfig.internalName field, r, c) →
    Eform.renderCell (Eform.formData (Eform.setVal field r c v st))
      field' r' c'
    = Eform.renderCell (Eform.formData st) field' r' c'.
Proof.
  split.
  - unfold Eform.storedVal, Eform.setVal. simpl.
    by rewrite lookup_insert_eq.
  - intros field' r' c' Hne.
    assert (Eform.cellName field r c ≠ Eform.cellName field' r' c') as Hname.
    { intros (? & ? & ?)%cellName_inj. apply Hne. congruence. }
    unfold Eform.renderCell, Eform.cellVal, Eform.storedVal, Eform.setVal.
    simpl. by rewrite lookup_insert_ne.
Qed.

End Cells.

(** ** Sorting with a comparator *)

Section SortBy.
Context {A : Type} (cmp : A → A → JS.number).
Implicit Types (x y : A) (l : list A).
Local Arguments JS.gt : simpl never.

Hypothesis cmp_asym : ∀ a b,
  JS.gt (cmp a b) (JS.Num 0) = true → JS.gt (cmp b a) (JS.Num 0) = false.
Hypothesis cmp_trans : ∀ a b c,
  notAfter cmp a b → notAfter cmp b c → notAfter cmp a c.

Lemma sort_insert_by_perm x l : JS.sort_insert cmp x l ≡ₚ x :: l.
Proof.
  induction l as [|y l IH]; simpl; [done|].
  destruct (JS.gt (cmp x y) (JS.Num 0)); [|done].
  rewrite IH. apply Permutation_swap.
Qed.

Lemma sort_by_perm l : JS.sort cmp l ≡ₚ l.
Proof.
  induction l as [|x l IH]; simpl; [done|].
  fold (JS.sort cmp l). by rewrite sort_insert_by_perm, IH.
Qed.

Lemma sort_insert_by_sorted x l :
  StronglySorted (notAfter cmp) l →
  StronglySorted (notAfter cmp) (JS.sort_insert cmp x l).
Proof.
  induction 1 as [|y l Hsorted IH Hle]; simpl; [by repeat constructor|].
  destruct (JS.gt (cmp x y) (JS.Num 0)) eqn:Hgt.
  - constructor; [done|]. rewrite sort_insert_by_perm.
    constructor; [|done]. by apply cmp_asym.
  - constructor; [by constructor|]. constructor; [done|].
    eapply Forall_impl; [exact Hle|]. intros z. by apply cmp_trans.
Qed.

Lemma sort_by_sorted l : StronglySorted (notAfter cmp) (JS.sort cmp l).
Proof.
  induction l as [|x l IH]; simpl; [constructor|].
  fold (JS.sort cmp l). by apply sort_insert_by_sorted.
Qed.

End SortBy.

(** ** The renderer on any stored document *)

Section AnyDocument.
Implicit Types (st : Eform.State) (doc : JSON.json) (l : list ColumnConfig.t).

(** X16. The renderer shows the fields of any stored document whose
    orders are integers in ascending order, the fields of one order in the
    sequence of the document, none lost and none twice, and it calls
    [renderDynamicField] once per field in that sequence. *)
Theorem sortedFields_ascending st doc l :
  Eform.parsedConfig st = Some doc → Eform.fields doc = Some l →
  Forall (λ f, isInteger (ColumnConfig.order f)) l →
  ∃ l', Eform.sortedFields st = Some l' ∧ l' ≡ₚ l ∧
        StronglySorted orderLe l' ∧
        (∀ k, withOrder k l' = withOrder k l) ∧
        Eform.renderedFields st
        = Some (Eform.renderDynamicField (Eform.formData st) <$> l').
Proof.
  intros Hdoc Hfields Hint. exists (JS.sort byOrder l).
  assert (Eform.sortedFields st = Some (JS.sort byOrder l)) as Hsorted.
  { unfold Eform.sortedFields. rewrite Hdoc. simpl. by rewrite Hfields. }
  split_and!; [done|apply sort_perm|by apply sort_sorted| |].
  - intros k. apply sort_withOrder.
  - unfold Eform.renderedFields. by rewrite Hsorted.
Qed.

End AnyDocument.

(** ** The list of the saved forms *)

Section Listing.
Variable localeCompare : string → string → JS.number.
Implicit Types (st : AdminWEbPart.State) (item : AdminWEbPart.Item)
  (items : list AdminWEbPart.Item).

Lemma parseItem_summaryOf item s :
  AdminWEbPart.parseItem item = Some s → summaryOf item s.
Proof.
  unfold AdminWEbPart.parseItem, summaryOf, AdminWEbPart.orString.
  destruct (AdminWEbPart.itemConfigurationJSON item)
    as [| |[[|a title]|] [[|b description]|]];
    intros; simplify_eq; simpl; done.
Qed.

(** X17. One item whose [ConfigurationJSON] does not parse, or a query
    that fails, leaves the component as it was, the list of the forms
    included, and writes one line to the console: no form of that answer
    is listed. *)
Theorem loadItems_rejects answer st :
  (answer = None ∨
   ∃ items item, answer = Some items ∧ item ∈ items ∧
     AdminWEbPart.itemConfigurationJSON item = AdminWEbPart.Malformed) →
  AdminWEbPart._loadItems localeCompare answer st
  = AdminWEbPart.mkLoaded st ["Error fetching ConfigList items:"].
Proof.
  intros [->|(items & item & -> & Hin & Hbad)]; [done|].
  unfold AdminWEbPart._loadItems. simpl.
  destruct (mapM AdminWEbPart.parseItem items) as [parsed|] eqn:Hparsed;
    [|done].
  assert (is_Some (mapM AdminWEbPart.parseItem items)) as Hsome by eauto.
  apply mapM_is_Some in Hsome.
  apply (proj1 (Forall_forall _ _) Hsome) in Hin.
  unfold AdminWEbPart.parseItem in Hin. simpl in Hin. rewrite Hbad in Hin.
  by destruct Hin.
Qed.

(** X18. When the query answers and every item parses, the component
    lists one form per item, under the title of its document, or under
    ["Untitled Form"] when the document has no title or an empty one: no
    title shown is empty.  The list holds these summaries, none lost and
    none twice, and none of them stands before one that the collation puts
    before it.  The dialogs and the selection stay as they are, and
    nothing is written to the console. *)
Theorem loadItems_lists items st :
  collation localeCompare →
  Forall (λ item, AdminWEbPart.itemConfigurationJSON item
                  ≠ AdminWEbPart.Malformed) items →
  ∃ parsed listed,
    AdminWEbPart._loadItems localeCompare (Some items) st
    = AdminWEbPart.mkLoaded
        (AdminWEbPart.mkState listed (AdminWEbPart.isViewDialogOpen st)
           (AdminWEbPart.isEditDialogOpen st)
           (AdminWEbPart.isNewFormDialogOpen st)
           (AdminWEbPart.selectedItem st)) [] ∧
    Forall2 summaryOf items parsed ∧
    listed ≡ₚ parsed ∧
    StronglySorted (notAfter (byTitle localeCompare)) listed.
Proof.
  intros [Hasym Htrans] Hitems.
  assert (is_Some (mapM AdminWEbPart.parseItem items)) as [parsed Hparsed].
  { apply mapM_is_Some. eapply Forall_impl; [exact Hitems|].
    intros item Hok. unfold AdminWEbPart.parseItem. simpl in *.
    destruct (AdminWEbPart.itemConfigurationJSON item); by eauto. }
  exists parsed, (AdminWEbPart.sortedItems localeCompare parsed).
  unfold AdminWEbPart._loadItems. simpl. rewrite Hparsed.
  split_and!; [done| | |].
  - apply mapM_Some in Hparsed.
    eapply Forall2_impl; [exact Hparsed|]. apply parseItem_summaryOf.
  - apply sort_by_perm.
  - apply (sort_by_sorted (byTitle localeCompare)).
    + intros a b. apply Hasym.
    + intros a b c. apply Htrans.
Qed.


(** X20. When the new form dialog reports success, the three dialogs are
    closed and the selection stays, whatever the list store answers to the
    refresh; a refresh that fails leaves the list of the forms as it
    was. *)
Theorem onSuccess_closes answer st :
  let after := AdminWEbPart.onSuccess localeCompare answer st in
  AdminWEbPart.isViewDialogOpen (AdminWEbPart.loadedState after) = false ∧
  AdminWEbPart.isEditDialogOpen (AdminWEbPart.loadedState after) = false ∧
  AdminWEbPart.isNewFormDialogOpen (AdminWEbPart.loadedState after) = false ∧
  AdminWEbPart.selectedItem (AdminWEbPart.loadedState after)
  = AdminWEbPart.selectedItem st ∧
  (AdminWEbPart.errors after = [] ∨
   AdminWEbPart.config (AdminWEbPart.loadedState after)
   = AdminWEbPart.config st).
Proof.
  unfold AdminWEbPart.onSuccess, AdminWEbPart._loadItems.
  destruct (answer ≫= mapM AdminWEbPart.parseItem); simpl;
    split_and!; auto.
Qed.

End Listing.

(** *** The further properties at concrete inputs *)

Lemma render_grid_rectangular_witness :
  rectangular 2 2
    (NewForm.tableData
       (foldl (editCell JS.Number)
          (NewForm.onChangeRenderColumns JS.Number "2" gridDraft)
          [(0%nat, 1%nat, "x")])).
Proof.
  apply (render_grid_rectangular JS.Number "2" gridDraft
           [(0%nat, 1%nat, "x")]).
  - discriminate.
  - reflexivity.
  - discriminate.
  - apply Forall_cons_2; [|apply Forall_nil_2]. vm_compute. lia.
Defined.

Lemma preview_is_display_witness :
  Eform.displayValue (NewForm.newColumn JS.Number yesnoDraft) 0 0 = "false".
Proof.
  rewrite <- (preview_is_display JS.Number yesnoDraft 0 0 eq_refl).
  reflexivity.
Defined.

Lemma checkbox_shows_last_click_witness :
  JS.includes "b"
    (NewForm.selections
       (NewForm.gridVal
          (foldl (clickCell JS.Number 0 0) checkDraft
             [("a", true); ("b", true); ("a", false)]) 0 0))
  = true ∧
  ∃ sel,
    Eform.renderCell
      (Eform.formData
         (foldl (clickOption checkTable 0 0) (Eform.mkState ∅ None ∅)
            [("a", true); ("b", true); ("a", false)])) checkTable 0 0
    = Eform.CheckboxList sel ["a"; "b"] ∧
    JS.includes "b" sel = true.
Proof.
  destruct (checkbox_shows_last_click
              [("a", true); ("b", true); ("a", false)] "b")
    as [Hbuilder Hrenderer].
  { repeat apply Forall_cons_2; [..|apply Forall_nil_2]; split;
      (discriminate || reflexivity). }
  split.
  - exact (Hbuilder JS.Number checkDraft 0%nat 0%nat eq_refl eq_refl).
  - apply (Hrenderer (Eform.mkState ∅ None ∅) checkTable 0%nat 0%nat);
      [reflexivity|].
    right. split; [reflexivity|]. intros data v Hdata. discriminate Hdata.
Defined.

Lemma checkbox_comma_never_checked_witness :
  JS.includes "a,b" (NewForm.selections (NewForm.toggleSelection "" "a,b" true))
  = false.
Proof. apply checkbox_comma_never_checked. reflexivity. Defined.

Lemma sortedFields_ascending_witness :
  ∃ l', Eform.sortedFields (loaded ∅ unsortedDocument) = Some l' ∧
        StronglySorted orderLe l'.
Proof.
  destruct (sortedFields_ascending (loaded ∅ unsortedDocument)
              unsortedDocument [textColumn "b" 2; textColumn "a" 1]
              eq_refl eq_refl)
    as (l' & Hsorted & _ & Hasc & _).
  - repeat apply Forall_cons_2; [..|apply Forall_nil_2]; by eexists.
  - exists l'. split; [exact Hsorted|exact Hasc].
Defined.

Lemma loadItems_rejects_witness :
  AdminWEbPart._loadItems byLength (Some [titledItem; malformedItem])
    AdminWEbPart.initialState
  = AdminWEbPart.mkLoaded AdminWEbPart.initialState
      ["Error fetching ConfigList items:"].
Proof.
  apply loadItems_rejects. right.
  exists [titledItem; malformedItem], malformedItem.
  split_and!; [reflexivity| |reflexivity].
  apply elem_of_cons. right. apply elem_of_cons. left. reflexivity.
Defined.

Lemma byLength_collation : collation byLength.
Proof.
  unfold collation, byLength, JS.gt, JS.lt. split.
  - intros a b. rewrite Z.ltb_lt, Z.ltb_ge. lia.
  - intros a b c. rewrite !Z.ltb_ge. lia.
Defined.

Lemma loadItems_lists_witness :
  ∃ parsed listed,
    AdminWEbPart.config
      (AdminWEbPart.loadedState
         (AdminWEbPart._loadItems byLength (Some [emptyItem; titledItem])
            AdminWEbPart.initialState)) = listed ∧
    Forall2 summaryOf [emptyItem; titledItem] parsed ∧
    listed ≡ₚ parsed.
Proof.
  destruct (loadItems_lists byLength [emptyItem; titledItem]
              AdminWEbPart.initialState byLength_collation)
    as (parsed & listed & Hload & Hof & Hperm & _).
  - repeat apply Forall_cons_2; [..|apply Forall_nil_2]; discriminate.
  - exists parsed, listed. split_and!; [|exact Hof|exact Hperm].
    rewrite Hload. reflexivity.
Defined.

